(** * UML to SQLAlchemy converter: conversion pipeline and result history

    A shallow embedding of the parts of [core.py] and [gui.py] that carry
    the logic of the converter:

    - [SQLAlchemyModels] and its [code_must_contain_models] validator,
    - [build_processing_chain] (upload, service call, output parser),
    - [process_folder],
    - [ProcessingResult], the per-result edit history with undo / redo,
    - [ConversionThread.run], the batch loop with its progress signals.

    Python [int] is [Z]; [str] is [string] (a sequence of bytes, UTF-8 for
    the Russian literals); a raised exception is the left summand of a
    [sum]; signals emitted by the worker thread are collected in a list in
    emission order. *)

From Stdlib Require Import ZArith List String Ascii Bool Lia QArith.
From Stdlib Require Import Sorted DecimalString.
Import ListNotations.

Local Open Scope string_scope.
Local Open Scope Z_scope.

(** ** Python sequences *)

Module Py.

(** [len(l)] *)
Definition len {A : Type} (l : list A) : Z := Z.of_nat (List.length l).

(** [l[i]]: a negative index counts from the end, an index out of range
    raises [IndexError] (here [None]). *)
Definition index {A : Type} (l : list A) (i : Z) : option A :=
  let j := if i <? 0 then i + len l else i in
  if j <? 0 then None else nth_error l (Z.to_nat j).

(** [l[:k]]: a negative bound counts from the end, bounds are clamped. *)
Definition slice_to {A : Type} (l : list A) (k : Z) : list A :=
  let j := if k <? 0 then Z.max 0 (k + len l) else k in
  firstn (Z.to_nat j) l.

(** [needle in s] on strings. *)
Fixpoint contains (needle s : string) : bool :=
  String.prefix needle s
  || match s with
     | EmptyString => false
     | String _ s' => contains needle s'
     end.

(** [s.rfind(c) + 1] for a one-character [c]: the position just after
    the last occurrence of [c], [0] when there is none. *)
Fixpoint after_last (c : ascii) (s : string) : nat :=
  match s with
  | EmptyString => 0%nat
  | String a s' =>
      match after_last c s' with
      | O => if Ascii.eqb a c then 1%nat else 0%nat
      | S n => S (S n)
      end
  end.

(** [s[n:]] and [s[:n]] for [0 <= n]. *)
Fixpoint drop (n : nat) (s : string) : string :=
  match n, s with
  | O, _ => s
  | S n', String _ s' => drop n' s'
  | S _, EmptyString => EmptyString
  end.

Fixpoint take (n : nat) (s : string) : string :=
  match n, s with
  | O, _ => EmptyString
  | S n', String a s' => String a (take n' s')
  | S _, EmptyString => EmptyString
  end.

(** [str.lower] on the ASCII range; bytes of other code points are kept
    (no code point outside ASCII lowers to a letter of the extensions
    compared below). *)
Definition lower_ascii (a : ascii) : ascii :=
  let n := nat_of_ascii a in
  if ((65 <=? n) && (n <=? 90))%nat then ascii_of_nat (n + 32) else a.

Fixpoint lower (s : string) : string :=
  match s with
  | EmptyString => EmptyString
  | String a s' => String (lower_ascii a) (lower s')
  end.

(** [sep.join(parts)] *)
Fixpoint join (sep : string) (parts : list string) : string :=
  match parts with
  | [] => EmptyString
  | [p] => p
  | p :: rest => p ++ sep ++ join sep rest
  end.

(** [s.replace(old, new)] for a one-character [old]. *)
Fixpoint replace_char (old : ascii) (new : string) (s : string) : string :=
  match s with
  | EmptyString => EmptyString
  | String a s' =>
      if Ascii.eqb a old then new ++ replace_char old new s'
      else String a (replace_char old new s')
  end.

(** [s.split(c)] for a one-character [c]. *)
Fixpoint split_char (c : ascii) (s : string) : list string :=
  match s with
  | EmptyString => [EmptyString]
  | String a s' =>
      if Ascii.eqb a c then EmptyString :: split_char c s'
      else
        match split_char c s' with
        | [] => [String a EmptyString]
        | l :: ls => String a l :: ls
        end
  end.

End Py.

(** ** core.py: configuration and response structure *)

Record ModelConfig := mkModelConfig {
  name : string;
  temperature : Q;
  max_tokens : option Z;
  verify_ssl : bool;
  timeout : Z
}.

(** [ModelConfig()] with the declared field defaults. *)
Definition default_config : ModelConfig :=
  mkModelConfig "GigaChat-2-Pro" (1 # 10) None false 600.

Record SQLAlchemyModels := mkModels {
  code : string;
  summary : string;
  token_usage : Z
}.

(** ** gui.py: [ProcessingResult] *)

Inductive ResultData :=
| ModelsData (m : SQLAlchemyModels)
| ErrorData (msg : string).

Inductive ImagePath :=
| NoPath
| OnePath (p : string)
| ManyPaths (ps : list string).

Module ProcessingResult.

Record t := mk {
  data : ResultData;
  config : ModelConfig;
  image_name : string;
  token_usage : Z;
  is_error : bool;
  image_path : ImagePath;
  history : list string;
  current_version : Z;
  original_code : string
}.

(** The text seeded into the history: the error text, or [data.code]. *)
Definition seed (d : ResultData) : string :=
  match d with
  | ErrorData msg => msg
  | ModelsData m => code m
  end.

(** [__init__]: [is_error] is [isinstance(data, str)]; the history starts
    with the error text, or with [data.code]. *)
Definition init (d : ResultData) (cfg : ModelConfig) (nm : string)
    (tu : Z) (ip : ImagePath) : t :=
  let h0 : list string := [] in
  match d with
  | ErrorData text =>
      mk d cfg nm tu true ip (h0 ++ [text])%list 0 text
  | ModelsData m =>
      mk d cfg nm tu false ip (h0 ++ [code m])%list 0 (code m)
  end.

Definition with_version (r : t) (v : Z) : t :=
  mk (data r) (config r) (image_name r) (token_usage r) (is_error r)
     (image_path r) (history r) v (original_code r).

Definition with_history (r : t) (h : list string) : t :=
  mk (data r) (config r) (image_name r) (token_usage r) (is_error r)
     (image_path r) h (current_version r) (original_code r).

(** The [code] property: [self.history[self.current_version]]. *)
Definition get_code (r : t) : option string :=
  Py.index (history r) (current_version r).

(** The [code] setter. *)
Definition set_code (r : t) (value : string) : t :=
  let r1 :=
    if Py.len (history r) =? current_version r + 1
    then with_history r (history r ++ [value])%list
    else
      let r' := with_history r (Py.slice_to (history r) (current_version r + 1)) in
      with_history r' (history r' ++ [value])%list in
  with_version r1 (current_version r1 + 1).

(** [restore_original]: both branches return [original_code]. *)
Definition restore_original (r : t) : t * string :=
  let r1 := with_version r 0 in
  if is_error r1 then (r1, original_code r1) else (r1, original_code r1).

(** [undo]; the returned text is [None] when the index raises. *)
Definition undo (r : t) : t * option string :=
  let r1 := if current_version r >? 0
            then with_version r (current_version r - 1) else r in
  (r1, Py.index (history r1) (current_version r1)).

(** [redo] *)
Definition redo (r : t) : t * option string :=
  let r1 := if current_version r <? Py.len (history r) - 1
            then with_version r (current_version r + 1) else r in
  (r1, Py.index (history r1) (current_version r1)).

Definition has_undo (r : t) : bool := current_version r >? 0.

Definition has_redo (r : t) : bool :=
  current_version r <? Py.len (history r) - 1.

(** The operations an owner of a result can apply to it. *)
Inductive op :=
| Commit (value : string)
| Undo
| Redo
| RestoreOriginal
| HasUndo
| HasRedo.

Definition step (r : t) (o : op) : t :=
  match o with
  | Commit v => set_code r v
  | Undo => fst (undo r)
  | Redo => fst (redo r)
  | RestoreOriginal => fst (restore_original r)
  | HasUndo => let _ := has_undo r in r
  | HasRedo => let _ := has_redo r in r
  end.

Definition exec (r : t) (ops : list op) : t := fold_left step ops r.

(** States reachable from a freshly constructed result. *)
Inductive reachable (d : ResultData) : t -> Prop :=
| reach_init cfg nm tu ip : reachable d (init d cfg nm tu ip)
| reach_step r o : reachable d r -> reachable d (step r o).

(** The invariant [0 <= pointer < len(history)]. *)
Definition wf (r : t) : Prop :=
  0 <= current_version r < Py.len (history r).

(** The [summary] property; [None] is the [AttributeError] of reading
    [.summary] off a text. *)
Definition summary (r : t) : option string :=
  if is_error r
  then Some ("Ошибка обработки изображения: " ++ image_name r)
  else match data r with
       | ModelsData m => Some (summary m)
       | ErrorData _ => None
       end.

End ProcessingResult.

(** ** Exceptions *)

(** One entry of a pydantic validation error. *)
Inductive FieldError :=
| Missing                 (* a required field is absent *)
| Raised (msg : string).  (* a validator raised [ValueError(msg)] *)

(** The exceptions that travel through the pipeline.  The output parser
    re-raises a validation error as its own exception type with the
    validation errors in its text; the errors are kept here as data. *)
Inductive Exn :=
| ValueError (msg : string)
| ValidationError (errors : list (string * FieldError))
| OutputParserException (detail : string)
| ServiceError (detail : string).

(** ** core.py: [SQLAlchemyModels] validation *)

(** The fields the output parser found in the service's answer, each of
    its declared type when present. *)
Record ResponseFields := mkFields {
  r_code : option string;
  r_summary : option string;
  r_token_usage : option Z
}.

(** The service's answer: text that is not the expected JSON object, or
    the object's fields. *)
Inductive Response :=
| Unparsable (detail : string)
| Object (fields : ResponseFields).

Definition marker : string := "declarative_base".

Definition missing_base_msg : string :=
  "Сгенерированный код не содержит базовый класс SQLAlchemy".

(** [@validator('code') code_must_contain_models]; [inl msg] is
    [raise ValueError(msg)]. *)
Definition code_must_contain_models (v : string) : string + string :=
  if negb (Py.contains marker v)
  then inl missing_base_msg
  else inr v.

(** A required field ([Field(...)]) with its validator. *)
Definition required {A : Type} (fld : string) (v : option A)
    (check : A -> string + A) : list (string * FieldError) + A :=
  match v with
  | None => inl [(fld, Missing)]
  | Some x =>
      match check x with
      | inr y => inr y
      | inl msg => inl [(fld, Raised msg)]
      end
  end.

(** A field with a default ([Field(0, ...)]). *)
Definition with_default {A : Type} (dflt : A) (v : option A) : A :=
  match v with
  | None => dflt
  | Some x => x
  end.

Definition errors_of {A : Type} (r : list (string * FieldError) + A)
    : list (string * FieldError) :=
  match r with
  | inl es => es
  | inr _ => []
  end.

(** Construction of [SQLAlchemyModels] from the fields: every field is
    validated, the errors of all fields are collected, and the model
    exists only when there are none. *)
Definition validate (f : ResponseFields) : Exn + SQLAlchemyModels :=
  let c := required "code" (r_code f) code_must_contain_models in
  let s := required "summary" (r_summary f) (fun v => inr v) in
  let t := with_default 0 (r_token_usage f) in
  match c, s with
  | inr c', inr s' => inr (mkModels c' s' t)
  | _, _ => inl (ValidationError (errors_of c ++ errors_of s)%list)
  end.

(** [parser.parse] *)
Definition parse (r : Response) : Exn + SQLAlchemyModels :=
  match r with
  | Unparsable detail => inl (OutputParserException detail)
  | Object f => validate f
  end.

(** ** core.py: [build_processing_chain] *)

(** The external service as the run sees it.  [call] is the number of the
    chain invocation within the run, so the service may answer the same
    request differently each time. *)
Record Service := mkService {
  (* [build_processing_chain] itself raising (a malformed prompt template) *)
  build_failure : option Exn;
  (* [open(path)] and [llm.upload_file(f)]: the file id, or an exception *)
  upload_file : nat -> string -> Exn + string;
  (* the model's answer to the prompt with these attachments *)
  respond : nat -> list string -> Exn + Response
}.

(** [upload_files]: a path whose upload raises is skipped. *)
Fixpoint upload_files (svc : Service) (call : nat) (file_paths : list string)
    : list string :=
  match file_paths with
  | [] => []
  | path :: rest =>
      match upload_file svc call path with
      | inr id => id :: upload_files svc call rest
      | inl _ => upload_files svc call rest
      end
  end.

(** [chain.invoke]: upload, prompt, model, parser. *)
Definition invoke (svc : Service) (call : nat) (file_paths : list string)
    : Exn + SQLAlchemyModels :=
  let ids := upload_files svc call file_paths in
  match respond svc call ids with
  | inl e => inl e
  | inr answer => parse answer
  end.

(** ** os.path (POSIX flavour) *)

Module OsPath.

Definition sep : ascii := "/"%char.
Definition extsep : ascii := "."%char.

(** [basename(p)]: [p[p.rfind('/') + 1:]] *)
Definition basename (p : string) : string :=
  Py.drop (Py.after_last sep p) p.

Fixpoint all_dots (s : string) : bool :=
  match s with
  | EmptyString => true
  | String a s' => Ascii.eqb a extsep && all_dots s'
  end.

(** [splitext(p)]: the extension starts at the last dot of the last
    component, unless only dots precede it there. *)
Definition splitext (p : string) : string * string :=
  let sep_after := Py.after_last sep p in      (* sepIndex + 1 *)
  let dot_after := Py.after_last extsep p in   (* dotIndex + 1 *)
  if (sep_after <? dot_after)%nat
  then
    let dot := (dot_after - 1)%nat in
    (* p[sepIndex + 1 : dotIndex] *)
    let lead := Py.take (dot - sep_after) (Py.drop sep_after p) in
    if all_dots lead then (p, EmptyString)
    else (Py.take dot p, Py.drop dot p)
  else (p, EmptyString).

Definition ends_with_sep (p : string) : bool :=
  match p with
  | EmptyString => false
  | _ => (Py.after_last sep p =? String.length p)%nat
  end.

(** [join(a, b)] *)
Definition join (a b : string) : string :=
  if String.prefix (String sep EmptyString) b then b
  else if (match a with EmptyString => true | _ => false end)
          || ends_with_sep a
       then a ++ b
       else a ++ String sep EmptyString ++ b.

End OsPath.

(** ** core.py: [process_folder] *)

(** The file system as the scan sees it. *)
Record FileSystem := mkFS {
  isdir : string -> bool;
  listdir : string -> list string
}.

Definition supported_ext : list string := [".jpg"; ".jpeg"; ".png"; ".bmp"].

(** [x in l] for a list of strings. *)
Definition str_in (x : string) (l : list string) : bool :=
  existsb (String.eqb x) l.

(** The filter of the list comprehension. *)
Definition is_supported (f : string) : bool :=
  str_in (Py.lower (snd (OsPath.splitext f))) supported_ext.

Definition process_folder (fs : FileSystem) (folder_path : string)
    : Exn + list string :=
  if negb (isdir fs folder_path)
  then inl (ValueError ("❌ Папка не существует: " ++ folder_path))
  else inr (map (OsPath.join folder_path)
                (filter is_supported (listdir fs folder_path))).

(** ** core.py [init_application] and gui.py [apply_prompt]: the
    placeholder check *)

Definition placeholder : string := "{format_instructions}".

(** The check both entry points apply to the system prompt before it is
    used: the prompt afterwards, and whether the warning is shown. *)
Definition ensure_placeholder (system_prompt : string) : string * bool :=
  if negb (Py.contains placeholder system_prompt)
  then (system_prompt ++ String "010" (String "010" placeholder), true)
  else (system_prompt, false).

(** ** gui.py: [ConversionThread] *)

(** [str(n)] for an integer. *)
Definition str_of_int (n : Z) : string :=
  DecimalString.NilZero.string_of_int (Z.to_int n).

(** The signals of the worker thread. *)
Inductive Signal :=
| progress (percent : Z) (message : string)
| result_ready (result : ResultData) (cfg : ModelConfig)
    (image_name : string) (tokens : Z) (image_path : ImagePath)
| error_occurred (message : string).

Section ConversionThread.

(** [str(e)], the text the libraries give an exception. *)
Variable str : Exn -> string.

Variable svc : Service.
Variable cfg : ModelConfig.

(** [self.running] as the loop reads it before unit [i]; [stop()] from
    another thread clears it. *)
Variable running : nat -> bool.

(** Assigning [result.code] on the parsed model (no validation on
    assignment). *)
Definition set_model_code (m : SQLAlchemyModels) (c : string)
    : SQLAlchemyModels :=
  mkModels c (summary m) (token_usage m).

(** The [try] / [except] of combined mode. *)
Definition combined_unit (image_paths : list string) : Signal :=
  match invoke svc 0 image_paths with
  | inr result =>
      let filenames := Py.join ", " (map OsPath.basename image_paths) in
      let result :=
        set_model_code result
          ("# Код для изображений: " ++ filenames ++ String "010" (code result)) in
      let token_usage := 0 in
      result_ready (ModelsData result) cfg "combined" token_usage
        (ManyPaths image_paths)
  | inl e =>
      let error_msg := "Ошибка обработки объединённых изображений: " ++ str e in
      result_ready (ErrorData error_msg) cfg "combined" 0
        (ManyPaths image_paths)
  end.

(** The [try] / [except] of one iteration in separate mode. *)
Definition separate_unit (i : nat) (img_path : string) : Signal :=
  let basename := OsPath.basename img_path in
  match invoke svc i [img_path] with
  | inr result =>
      let result :=
        set_model_code result
          ("# Код для изображения: " ++ basename ++ String "010" (code result)) in
      let token_usage := 0 in
      result_ready (ModelsData result) cfg basename token_usage
        (OnePath img_path)
  | inl e =>
      let error_msg := "❌ Ошибка обработки " ++ basename ++ ": " ++ str e in
      result_ready (ErrorData error_msg) cfg basename 0 (OnePath img_path)
  end.

(** [40 + int(i * 50 / len(self.image_paths))]: the quotient of two
    non-negative integers, truncated (the float quotient the source
    truncates is the same number for fewer than 2^47 images). *)
Definition unit_percent (i : nat) (n : Z) : Z :=
  40 + Z.quot (Z.of_nat i * 50) n.

(** The [for] loop of separate mode from unit [i] on: the signals
    emitted, and whether the loop ran to its end ([false]: it returned
    on a cleared [running] flag). *)
Fixpoint separate_loop (n : Z) (i : nat) (rest : list string)
    : list Signal * bool :=
  match rest with
  | [] => ([], true)
  | img_path :: rest' =>
      if negb (running i) then ([], false)
      else
        let basename := OsPath.basename img_path in
        let p := progress (unit_percent i n)
                   ("Обработка изображения: " ++ basename) in
        let u := separate_unit i img_path in
        let '(later, finished) := separate_loop n (S i) rest' in
        (p :: u :: later, finished)
  end.

(** [run] *)
Definition run (image_paths : list string) (mode : string) : list Signal :=
  progress 10 "Построение цепочки обработки..." ::
  match build_failure svc with
  | Some e => [error_occurred (str e)]
  | None =>
      progress 30 "Обработка изображений..." ::
      if String.eqb mode "combined"
      then
        [ progress 40 ("Обработка " ++ str_of_int (Py.len image_paths)
                         ++ " изображений вместе");
          combined_unit image_paths;
          progress 100 "Обработка завершена!" ]
      else
        let '(signals, finished) :=
          separate_loop (Py.len image_paths) 0 image_paths in
        if finished
        then (signals ++ [progress 100 "Обработка завершена!"])%list
        else signals
  end.

End ConversionThread.

(** The payloads of the [result_ready] signals, in emission order. *)
Fixpoint outcomes (signals : list Signal) : list Signal :=
  match signals with
  | [] => []
  | result_ready d c nm tu ip :: rest => result_ready d c nm tu ip :: outcomes rest
  | _ :: rest => outcomes rest
  end.

(** The percentages of the [progress] signals, in emission order. *)
Fixpoint percents (signals : list Signal) : list Z :=
  match signals with
  | [] => []
  | progress p _ :: rest => p :: percents rest
  | _ :: rest => percents rest
  end.

(** [MainWindow.handle_result] for each [result_ready] signal: the list
    [self.results]. *)
Fixpoint handle_results (signals : list Signal) : list ProcessingResult.t :=
  match signals with
  | [] => []
  | result_ready d c nm tu ip :: rest =>
      ProcessingResult.init d c nm tu ip :: handle_results rest
  | _ :: rest => handle_results rest
  end.

(** A [Failure]: the payload of the signal is an error text. *)
Definition is_failure (s : Signal) : bool :=
  match s with
  | result_ready (ErrorData _) _ _ _ _ => true
  | _ => false
  end.

(** ** sqlalchemy_validator.py *)

Module SqlValidator.

(** [SyntaxError]: [e.msg] and [e.lineno] (which can be [None]). *)
Record SyntaxError := mkSyntaxError {
  msg : string;
  lineno : option Z
}.

(** The [results] dictionary. *)
Record Results := mkResults {
  syntax_valid : bool;
  base_class_found : bool;
  columns_found : bool;
  relationships_found : bool;
  errors : list string;
  warnings : list string
}.

Definition set_syntax_valid (r : Results) (b : bool) : Results :=
  mkResults b (base_class_found r) (columns_found r) (relationships_found r)
    (errors r) (warnings r).

Definition set_base_class_found (r : Results) (b : bool) : Results :=
  mkResults (syntax_valid r) b (columns_found r) (relationships_found r)
    (errors r) (warnings r).

Definition set_columns_found (r : Results) (b : bool) : Results :=
  mkResults (syntax_valid r) (base_class_found r) b (relationships_found r)
    (errors r) (warnings r).

Definition set_relationships_found (r : Results) (b : bool) : Results :=
  mkResults (syntax_valid r) (base_class_found r) (columns_found r) b
    (errors r) (warnings r).

Definition append_error (r : Results) (e : string) : Results :=
  mkResults (syntax_valid r) (base_class_found r) (columns_found r)
    (relationships_found r) (errors r ++ [e])%list (warnings r).

Definition append_warning (r : Results) (w : string) : Results :=
  mkResults (syntax_valid r) (base_class_found r) (columns_found r)
    (relationships_found r) (errors r) (warnings r ++ [w])%list.

(** [str(e.lineno)] *)
Definition str_of_lineno (n : option Z) : string :=
  match n with
  | Some z => str_of_int z
  | None => "None"
  end.

Definition required_imports : list string :=
  ["sqlalchemy"; "Column"; "Integer"; "String"; "ForeignKey"].

(** The loop over [required_imports]. *)
Fixpoint missing_from (code : string) (imports : list string) : list string :=
  match imports with
  | [] => []
  | imp :: rest =>
      if negb (Py.contains imp code) then imp :: missing_from code rest
      else missing_from code rest
  end.

(** The three verdicts of [main]. *)
Definition verdict_valid : string :=
  "✅ КОД ВАЛИДЕН: может быть использован в проекте".

Definition verdict_needs_work : string :=
  "⚠️  КОД ТРЕБУЕТ ДОРАБОТКИ: есть ошибки, но основа корректна".

Definition verdict_invalid : string :=
  "❌ КОД НЕВАЛИДЕН: требует значительной доработки".

(** [c * n] for a one-character string. *)
Fixpoint repeat_char (c : ascii) (n : nat) : string :=
  match n with
  | O => EmptyString
  | S n' => String c (repeat_char c n')
  end.

Section Validator.

(** [ast.parse]: [None] when the code parses, the [SyntaxError] when it
    does not. *)
Variable ast_parse : string -> option SyntaxError.

(** [str.strip] *)
Variable strip : string -> string.

(** [validate_sqlalchemy_code]: the dictionary returned, and the lines
    printed on the way. *)
Definition validate_sqlalchemy_code (code : string)
    : Results * list string :=
  let results := mkResults false false false false [] [] in
  match ast_parse code with
  | Some e =>
      let error_msg := "❌ Синтаксическая ошибка: " ++ msg e
                         ++ " (строка " ++ str_of_lineno (lineno e) ++ ")" in
      (append_error results error_msg, [error_msg])
  | None =>
      let results := set_syntax_valid results true in
      let out := ["✅ Синтаксис Python корректен"] in
      let '(results, out) :=
        if Py.contains "declarative_base" code
        then (set_base_class_found results true,
              (out ++ ["✅ Базовый класс моделей найден"])%list)
        else
          let error_msg :=
            "❌ Не найден declarative_base - базовый класс моделей" in
          (append_error results error_msg, (out ++ [error_msg])%list) in
      let '(results, out) :=
        if Py.contains "Column(" code
        then (set_columns_found results true,
              (out ++ ["✅ Определения колонок найдены"])%list)
        else
          let warning_msg :=
            "⚠️  Не найдены определения колонок (Column)" in
          (append_warning results warning_msg, (out ++ [warning_msg])%list) in
      let '(results, out) :=
        if Py.contains "relationship(" code
        then (set_relationships_found results true,
              (out ++ ["✅ Определения отношений найдены"])%list)
        else
          let warning_msg :=
            "⚠️  Не найдены определения отношений (relationship)" in
          (append_warning results warning_msg, (out ++ [warning_msg])%list) in
      let missing_imports := missing_from code required_imports in
      match missing_imports with
      | _ :: _ =>
          let warning_msg :=
            "⚠️  Отсутствуют импорты: " ++ Py.join ", " missing_imports in
          (append_warning results warning_msg, (out ++ [warning_msg])%list)
      | [] =>
          (results, (out ++ ["✅ Все необходимые импорты найдены"])%list)
      end
  end.

(** The overall verdict [main] prints for a dictionary. *)
Definition verdict (results : Results) : string :=
  if syntax_valid results && base_class_found results
  then
    match errors results with
    | [] => verdict_valid
    | _ :: _ => verdict_needs_work
    end
  else verdict_invalid.

(** The input loop of [main]: lines are read until a blank one or the end
    of the input. *)
Fixpoint read_code (input : list string) : list string :=
  match input with
  | [] => []
  | line :: rest =>
      if String.eqb (strip line) EmptyString then []
      else line :: read_code rest
  end.

(** [main] on the lines typed in: the lines printed. *)
Definition main (input : list string) : list string :=
  let bar := repeat_char "=" 60 in
  let banner :=
    [ bar; "ВАЛИДАТОР SQLAlchemy КОДА"; bar;
      "Введите код SQLAlchemy (Ctrl+D или пустая строка для завершения):";
      repeat_char "-" 60 ] in
  let code_lines := read_code input in
  match code_lines with
  | [] => (banner ++ ["❌ Код не введен!"])%list
  | _ :: _ =>
      let code := Py.join (String "010" EmptyString) code_lines in
      let '(results, printed) := validate_sqlalchemy_code code in
      (banner
         ++ [String "010" bar; "РЕЗУЛЬТАТЫ ПРОВЕРКИ:"; bar]
         ++ printed
         ++ [String "010" bar; verdict results; bar])%list
  end.

End Validator.

End SqlValidator.

(** ** Saving: core.py [save_results], gui.py [save_all_results] *)

Definition newline : string := String "010" EmptyString.

Section Saving.

(** [str.strip] *)
Variable strip : string -> string.

(** The comment block written before the code:
    ["# " + summary.strip().replace('\n', '\n# ') + "\n\n"]. *)
Definition summary_comment (summary : string) : string :=
  "# " ++ Py.replace_char "010" (newline ++ "# ") (strip summary)
       ++ newline ++ newline.

(** [save_results]: the file written (name and text) and the lines
    printed.  An absent or empty [output_filename] gives the default
    name. *)
Definition save_results (models : SQLAlchemyModels) (config : ModelConfig)
    (output_filename : option string)
    : (string * string) * list string :=
  let output_filename :=
    match output_filename with
    | None | Some EmptyString =>
        "models_" ++ Py.replace_char "-" "_" (name config) ++ ".py"
    | Some given => given
    end in
  let text := summary_comment (summary models) ++ code models in
  ((output_filename, text),
   [ newline ++ SqlValidator.repeat_char "=" 50;
     "💾 Сгенерированные модели сохранены в " ++ output_filename;
     "🔍 Сводка: " ++ summary models;
     "🧮 Использовано токенов: " ++ str_of_int (token_usage models);
     SqlValidator.repeat_char "=" 50 ]).

(** What can go wrong while one result is saved. *)
Inductive SaveError :=
| OpenFailed (e : Exn)     (* [open(file_path, 'w')] raised *)
| CodeRaised               (* [result.code] raised on the history index *)
| SummaryRaised.           (* [result.summary] raised *)

(** [str(e)] for those. *)
Variable str_save : SaveError -> string.

(** [open(file_path, 'w')]: [None] when the file opens. *)
Variable open_w : string -> option Exn.

(** What [save_all_results] does to the outside. *)
Inductive SaveEvent :=
| written (file_path : string) (chunks : list string)
| logged (message : string) (level : string).

(** The file name [save_all_results] gives a result. *)
Definition save_all_filename (r : ProcessingResult.t) : string :=
  if String.eqb (ProcessingResult.image_name r) "combined"
  then "combined_models.py"
  else fst (OsPath.splitext (ProcessingResult.image_name r)) ++ "_orm.py".

(** The body of the [with] block: the texts written, the exception that
    ended it if any, and what it added to the two counters. *)
Definition write_result (r : ProcessingResult.t)
    : list string * option SaveError * (Z * Z) :=
  if ProcessingResult.is_error r
  then
    match ProcessingResult.get_code r with
    | Some c => ([c], None, (0, 1))
    | None => ([], Some CodeRaised, (0, 0))
    end
  else
    match ProcessingResult.summary r with
    | None => ([], Some SummaryRaised, (0, 0))
    | Some s =>
        match ProcessingResult.get_code r with
        | Some c => ([summary_comment s; c], None, (1, 0))
        | None => ([summary_comment s], Some CodeRaised, (0, 0))
        end
    end.

(** One iteration of the loop with its [try] / [except]. *)
Definition save_one (save_dir : string)
    (acc : list SaveEvent * Z * Z) (result : ProcessingResult.t)
    : list SaveEvent * Z * Z :=
  let '(events, success_count, error_count) := acc in
  let filename := save_all_filename result in
  let file_path := OsPath.join save_dir filename in
  let failure (e : SaveError) :=
    logged ("❌ Ошибка сохранения " ++ filename ++ ": " ++ str_save e)
      "error" in
  match open_w file_path with
  | Some e =>
      ((events ++ [failure (OpenFailed e)])%list,
       success_count, error_count + 1)
  | None =>
      let '(chunks, raised, (ds, de)) := write_result result in
      match raised with
      | None =>
          ((events ++ [written file_path chunks])%list,
           success_count + ds, error_count + de)
      | Some e =>
          ((events ++ [written file_path chunks; failure e])%list,
           success_count + ds, error_count + de + 1)
      end
  end.

(** [save_all_results] with the directory made: the events and the two
    counters at the end. *)
Definition save_all_results (output_dir : string)
    (results : list ProcessingResult.t) : list SaveEvent * Z * Z :=
  match results with
  | [] => ([], 0, 0)
  | _ :: _ =>
      let save_dir := OsPath.join output_dir "sqlalchemy_models" in
      let '(events, success_count, error_count) :=
        fold_left (save_one save_dir) results ([], 0, 0) in
      ((events
          ++ [ logged ("✅ Все результаты сохранены в папку: " ++ save_dir)
                 "info";
               logged ("Успешно: " ++ str_of_int success_count
                         ++ ", Ошибок: " ++ str_of_int error_count)
                 "info" ])%list,
       success_count, error_count)
  end.

End Saving.

(** ** gui.py: the results panel of [MainWindow] *)

(** [l[i] = x] on a list, with the index read as [Py.index] reads it. *)
Fixpoint set_nth {A : Type} (l : list A) (n : nat) (x : A) : list A :=
  match l, n with
  | [], _ => []
  | _ :: rest, O => x :: rest
  | a :: rest, S n' => a :: set_nth rest n' x
  end.

Definition set_index {A : Type} (l : list A) (i : Z) (x : A) : list A :=
  let j := if i <? 0 then i + Py.len l else i in
  if j <? 0 then l else set_nth l (Z.to_nat j) x.

Module Window.

(** The state of the window that the results panel reads and writes: the
    list of results, the index of the one shown, the text widgets, the
    enabled flags of the buttons and the log.  The image viewers, the
    cursor position and the widgets of the other tabs are left out. *)
Record t := mk {
  results : list ProcessingResult.t;
  current_result_index : Z;
  code_view : string;
  code_read_only : bool;
  results_info : string;
  token_info : string;
  result_counter : string;
  result_counter_enabled : bool;
  prev_result_btn : bool;
  next_result_btn : bool;
  save_code_btn : bool;
  save_all_btn : bool;
  edit_btn : bool;
  save_edit_btn : bool;
  cancel_edit_btn : bool;
  restore_btn : bool;
  undo_btn : bool;
  redo_btn : bool;
  log : list (string * string)
}.

Definition set_results (w : t) (v : list ProcessingResult.t) : t :=
  mk v (current_result_index w) (code_view w) (code_read_only w) (results_info w) (token_info w) (result_counter w) (result_counter_enabled w) (prev_result_btn w) (next_result_btn w) (save_code_btn w) (save_all_btn w) (edit_btn w) (save_edit_btn w) (cancel_edit_btn w) (restore_btn w) (undo_btn w) (redo_btn w) (log w).

Definition set_current_result_index (w : t) (v : Z) : t :=
  mk (results w) v (code_view w) (code_read_only w) (results_info w) (token_info w) (result_counter w) (result_counter_enabled w) (prev_result_btn w) (next_result_btn w) (save_code_btn w) (save_all_btn w) (edit_btn w) (save_edit_btn w) (cancel_edit_btn w) (restore_btn w) (undo_btn w) (redo_btn w) (log w).

Definition set_code_view (w : t) (v : string) : t :=
  mk (results w) (current_result_index w) v (code_read_only w) (results_info w) (token_info w) (result_counter w) (result_counter_enabled w) (prev_result_btn w) (next_result_btn w) (save_code_btn w) (save_all_btn w) (edit_btn w) (save_edit_btn w) (cancel_edit_btn w) (restore_btn w) (undo_btn w) (redo_btn w) (log w).

Definition set_code_read_only (w : t) (v : bool) : t :=
  mk (results w) (current_result_index w) (code_view w) v (results_info w) (token_info w) (result_counter w) (result_counter_enabled w) (prev_result_btn w) (next_result_btn w) (save_code_btn w) (save_all_btn w) (edit_btn w) (save_edit_btn w) (cancel_edit_btn w) (restore_btn w) (undo_btn w) (redo_btn w) (log w).

Definition set_results_info (w : t) (v : string) : t :=
  mk (results w) (current_result_index w) (code_view w) (code_read_only w) v (token_info w) (result_counter w) (result_counter_enabled w) (prev_result_btn w) (next_result_btn w) (save_code_btn w) (save_all_btn w) (edit_btn w) (save_edit_btn w) (cancel_edit_btn w) (restore_btn w) (undo_btn w) (redo_btn w) (log w).

Definition set_token_info (w : t) (v : string) : t :=
  mk (results w) (current_result_index w) (code_view w) (code_read_only w) (results_info w) v (result_counter w) (result_counter_enabled w) (prev_result_btn w) (next_result_btn w) (save_code_btn w) (save_all_btn w) (edit_btn w) (save_edit_btn w) (cancel_edit_btn w) (restore_btn w) (undo_btn w) (redo_btn w) (log w).

Definition set_result_counter (w : t) (v : string) : t :=
  mk (results w) (current_result_index w) (code_view w) (code_read_only w) (results_info w) (token_info w) v (result_counter_enabled w) (prev_result_btn w) (next_result_btn w) (save_code_btn w) (save_all_btn w) (edit_btn w) (save_edit_btn w) (cancel_edit_btn w) (restore_btn w) (undo_btn w) (redo_btn w) (log w).

Definition set_result_counter_enabled (w : t) (v : bool) : t :=
  mk (results w) (current_result_index w) (code_view w) (code_read_only w) (results_info w) (token_info w) (result_counter w) v (prev_result_btn w) (next_result_btn w) (save_code_btn w) (save_all_btn w) (edit_btn w) (save_edit_btn w) (cancel_edit_btn w) (restore_btn w) (undo_btn w) (redo_btn w) (log w).

Definition set_prev_result_btn (w : t) (v : bool) : t :=
  mk (results w) (current_result_index w) (code_view w) (code_read_only w) (results_info w) (token_info w) (result_counter w) (result_counter_enabled w) v (next_result_btn w) (save_code_btn w) (save_all_btn w) (edit_btn w) (save_edit_btn w) (cancel_edit_btn w) (restore_btn w) (undo_btn w) (redo_btn w) (log w).

Definition set_next_result_btn (w : t) (v : bool) : t :=
  mk (results w) (current_result_index w) (code_view w) (code_read_only w) (results_info w) (token_info w) (result_counter w) (result_counter_enabled w) (prev_result_btn w) v (save_code_btn w) (save_all_btn w) (edit_btn w) (save_edit_btn w) (cancel_edit_btn w) (restore_btn w) (undo_btn w) (redo_btn w) (log w).

Definition set_save_code_btn (w : t) (v : bool) : t :=
  mk (results w) (current_result_index w) (code_view w) (code_read_only w) (results_info w) (token_info w) (result_counter w) (result_counter_enabled w) (prev_result_btn w) (next_result_btn w) v (save_all_btn w) (edit_btn w) (save_edit_btn w) (cancel_edit_btn w) (restore_btn w) (undo_btn w) (redo_btn w) (log w).

Definition set_save_all_btn (w : t) (v : bool) : t :=
  mk (results w) (current_result_index w) (code_view w) (code_read_only w) (results_info w) (token_info w) (result_counter w) (result_counter_enabled w) (prev_result_btn w) (next_result_btn w) (save_code_btn w) v (edit_btn w) (save_edit_btn w) (cancel_edit_btn w) (restore_btn w) (undo_btn w) (redo_btn w) (log w).

Definition set_edit_btn (w : t) (v : bool) : t :=
  mk (results w) (current_result_index w) (code_view w) (code_read_only w) (results_info w) (token_info w) (result_counter w) (result_counter_enabled w) (prev_result_btn w) (next_result_btn w) (save_code_btn w) (save_all_btn w) v (save_edit_btn w) (cancel_edit_btn w) (restore_btn w) (undo_btn w) (redo_btn w) (log w).

Definition set_save_edit_btn (w : t) (v : bool) : t :=
  mk (results w) (current_result_index w) (code_view w) (code_read_only w) (results_info w) (token_info w) (result_counter w) (result_counter_enabled w) (prev_result_btn w) (next_result_btn w) (save_code_btn w) (save_all_btn w) (edit_btn w) v (cancel_edit_btn w) (restore_btn w) (undo_btn w) (redo_btn w) (log w).

Definition set_cancel_edit_btn (w : t) (v : bool) : t :=
  mk (results w) (current_result_index w) (code_view w) (code_read_only w) (results_info w) (token_info w) (result_counter w) (result_counter_enabled w) (prev_result_btn w) (next_result_btn w) (save_code_btn w) (save_all_btn w) (edit_btn w) (save_edit_btn w) v (restore_btn w) (undo_btn w) (redo_btn w) (log w).

Definition set_restore_btn (w : t) (v : bool) : t :=
  mk (results w) (current_result_index w) (code_view w) (code_read_only w) (results_info w) (token_info w) (result_counter w) (result_counter_enabled w) (prev_result_btn w) (next_result_btn w) (save_code_btn w) (save_all_btn w) (edit_btn w) (save_edit_btn w) (cancel_edit_btn w) v (undo_btn w) (redo_btn w) (log w).

Definition set_undo_btn (w : t) (v : bool) : t :=
  mk (results w) (current_result_index w) (code_view w) (code_read_only w) (results_info w) (token_info w) (result_counter w) (result_counter_enabled w) (prev_result_btn w) (next_result_btn w) (save_code_btn w) (save_all_btn w) (edit_btn w) (save_edit_btn w) (cancel_edit_btn w) (restore_btn w) v (redo_btn w) (log w).

Definition set_redo_btn (w : t) (v : bool) : t :=
  mk (results w) (current_result_index w) (code_view w) (code_read_only w) (results_info w) (token_info w) (result_counter w) (result_counter_enabled w) (prev_result_btn w) (next_result_btn w) (save_code_btn w) (save_all_btn w) (edit_btn w) (save_edit_btn w) (cancel_edit_btn w) (restore_btn w) (undo_btn w) v (log w).

Definition set_log (w : t) (v : list (string * string)) : t :=
  mk (results w) (current_result_index w) (code_view w) (code_read_only w) (results_info w) (token_info w) (result_counter w) (result_counter_enabled w) (prev_result_btn w) (next_result_btn w) (save_code_btn w) (save_all_btn w) (edit_btn w) (save_edit_btn w) (cancel_edit_btn w) (restore_btn w) (undo_btn w) (redo_btn w) v.

Notation "x <- c ;; k" :=
  (match c with Some x => k | None => None end)
  (at level 61, c at next level, right associativity, only parsing).

(** Truthiness of a list. *)
Definition nonempty {A : Type} (l : list A) : bool :=
  match l with
  | [] => false
  | _ :: _ => true
  end.

(** [MainWindow.__init__] with [create_results_tab] and
    [init_application]: no result, every button of the panel disabled,
    the code view empty and read-only. *)
Definition initial : t :=
  mk [] (-1) EmptyString true
     "Результаты обработки будут отображены здесь"
     "Использовано токенов: 0"
     "0/0" true
     false false false false false false false false false false
     [("Приложение инициализировано. Проверьте настройки перед запуском.",
       "info")].

(** [log_message]: the message and its level as they reach the log. *)
Definition log_message (w : t) (message level : string) : t :=
  set_log w (log w ++ [(message, level)])%list.

(** [self.results[self.current_result_index]]; [None] when the index
    raises. *)
Definition current_result (w : t) : option ProcessingResult.t :=
  Py.index (results w) (current_result_index w).

(** The list after a method has changed the result at the current
    index. *)
Definition store_result (w : t) (r : ProcessingResult.t) : t :=
  set_results w (set_index (results w) (current_result_index w) r).

Definition counter_text (w : t) : string :=
  str_of_int (current_result_index w + 1) ++ "/"
    ++ str_of_int (Py.len (results w)).

(** [update_navigation_buttons] *)
Definition update_navigation_buttons (w : t) : t :=
  let has_results := Py.len (results w) >? 0 in
  let w := set_prev_result_btn w
             (has_results && (current_result_index w >? 0)) in
  let w := set_next_result_btn w
             (has_results
              && (current_result_index w <? Py.len (results w) - 1)) in
  let w := set_result_counter_enabled w has_results in
  if negb has_results then set_result_counter w "0/0"
  else set_result_counter w (counter_text w).

(** [cancel_edits] *)
Definition cancel_edits (w : t) : option t :=
  let w := set_code_read_only w true in
  let w := set_edit_btn w true in
  let w := set_save_edit_btn w false in
  let w := set_cancel_edit_btn w false in
  let w := set_restore_btn w true in
  if (current_result_index w >=? 0) && nonempty (results w)
  then
    result <- current_result w ;;
    code <- ProcessingResult.get_code result ;;
    let w := set_code_view w code in
    let w := set_undo_btn w (ProcessingResult.has_undo result) in
    Some (set_redo_btn w (ProcessingResult.has_redo result))
  else Some w.

(** [display_current_result], up to its call of [update_image_display]. *)
Definition display_current_result (w : t) : option t :=
  if negb (nonempty (results w)) || (current_result_index w <? 0)
  then Some w
  else
    result <- current_result w ;;
    summary <- ProcessingResult.summary result ;;
    let w := set_results_info w summary in
    let w := set_token_info w
               ("Использовано токенов: "
                  ++ str_of_int (ProcessingResult.token_usage result)) in
    code <- ProcessingResult.get_code result ;;
    let w := set_code_view w code in
    let w := set_save_code_btn w true in
    let w := set_edit_btn w true in
    let w := set_restore_btn w true in
    let w := set_undo_btn w (ProcessingResult.has_undo result) in
    let w := set_redo_btn w (ProcessingResult.has_redo result) in
    let w := set_result_counter w (counter_text w) in
    cancel_edits w.

(** [handle_result] *)
Definition handle_result (w : t) (result : ResultData) (config : ModelConfig)
    (image_name : string) (token_usage : Z) (image_path : ImagePath)
    : option t :=
  let processing_result :=
    ProcessingResult.init result config image_name token_usage image_path in
  let w := set_results w (results w ++ [processing_result])%list in
  w <- (if Py.len (results w) =? 1
        then display_current_result (set_current_result_index w 0)
        else Some w) ;;
  let w := update_navigation_buttons w in
  let w := if Py.len (results w) >? 0 then set_save_all_btn w true else w in
  Some (if ProcessingResult.is_error processing_result
        then log_message w ("❌ Ошибка обработки: " ++ image_name) "error"
        else log_message w ("✅ Успешно обработано: " ++ image_name) "info").

(** [show_previous_result] *)
Definition show_previous_result (w : t) : option t :=
  if current_result_index w >? 0
  then
    let w := set_current_result_index w (current_result_index w - 1) in
    w <- display_current_result w ;;
    Some (update_navigation_buttons w)
  else Some w.

(** [show_next_result] *)
Definition show_next_result (w : t) : option t :=
  if current_result_index w <? Py.len (results w) - 1
  then
    let w := set_current_result_index w (current_result_index w + 1) in
    w <- display_current_result w ;;
    Some (update_navigation_buttons w)
  else Some w.

(** [toggle_edit_mode] *)
Definition toggle_edit_mode (w : t) : option t :=
  if code_read_only w
  then
    let w := set_code_read_only w false in
    let w := set_edit_btn w false in
    let w := set_save_edit_btn w true in
    let w := set_cancel_edit_btn w true in
    let w := set_restore_btn w false in
    let w := set_undo_btn w false in
    let w := set_redo_btn w false in
    Some (log_message w
            "Режим редактирования включен. Измените код по необходимости."
            "info")
  else
    let w := set_code_read_only w true in
    let w := set_edit_btn w true in
    let w := set_save_edit_btn w false in
    let w := set_cancel_edit_btn w false in
    let w := set_restore_btn w true in
    r1 <- current_result w ;;
    let w := set_undo_btn w (ProcessingResult.has_undo r1) in
    r2 <- current_result w ;;
    Some (set_redo_btn w (ProcessingResult.has_redo r2)).

(** [save_edits] *)
Definition save_edits (w : t) : option t :=
  if (current_result_index w <? 0) || negb (nonempty (results w))
  then Some w
  else
    let new_code := code_view w in
    result <- current_result w ;;
    let result := ProcessingResult.set_code result new_code in
    let w := store_result w result in
    w <- toggle_edit_mode w ;;
    let w := log_message w "Изменения сохранены в текущем результате."
               "info" in
    let w := set_undo_btn w (ProcessingResult.has_undo result) in
    Some (set_redo_btn w (ProcessingResult.has_redo result)).

(** [restore_original] *)
Definition restore_original (w : t) : option t :=
  if (current_result_index w <? 0) || negb (nonempty (results w))
  then Some w
  else
    result <- current_result w ;;
    let result := fst (ProcessingResult.restore_original result) in
    let w := store_result w result in
    code <- ProcessingResult.get_code result ;;
    let w := set_code_view w code in
    let w := log_message w "Исходный код восстановлен" "info" in
    let w := set_undo_btn w false in
    Some (set_redo_btn w false).

(** [undo_changes] *)
Definition undo_changes (w : t) : option t :=
  if (current_result_index w <? 0) || negb (nonempty (results w))
  then Some w
  else
    result <- current_result w ;;
    let '(result, returned) := ProcessingResult.undo result in
    let w := store_result w result in
    code <- returned ;;
    let w := set_code_view w code in
    let w := set_undo_btn w (ProcessingResult.has_undo result) in
    let w := set_redo_btn w (ProcessingResult.has_redo result) in
    Some (log_message w "Отменено последнее изменение" "info").

(** [redo_changes] *)
Definition redo_changes (w : t) : option t :=
  if (current_result_index w <? 0) || negb (nonempty (results w))
  then Some w
  else
    result <- current_result w ;;
    let '(result, returned) := ProcessingResult.redo result in
    let w := store_result w result in
    code <- returned ;;
    let w := set_code_view w code in
    let w := set_undo_btn w (ProcessingResult.has_undo result) in
    let w := set_redo_btn w (ProcessingResult.has_redo result) in
    Some (log_message w "Повторено последнее изменение" "info").

(** What [start_conversion] does to the panel when it starts a run: the
    results are dropped and the buttons that need a result disabled. *)
Definition reset_results (w : t) : t :=
  let w := set_results w [] in
  let w := set_current_result_index w (-1) in
  let w := set_code_view w EmptyString in
  let w := set_save_code_btn w false in
  let w := set_save_all_btn w false in
  let w := set_edit_btn w false in
  let w := set_restore_btn w false in
  let w := set_undo_btn w false in
  let w := set_redo_btn w false in
  update_navigation_buttons w.

(** The buttons of the panel and the slots connected to them. *)
Inductive button :=
| PrevResult | NextResult | Edit | SaveEdit | CancelEdit
| Restore | Undo | Redo.

Definition enabled (w : t) (b : button) : bool :=
  match b with
  | PrevResult => prev_result_btn w
  | NextResult => next_result_btn w
  | Edit => edit_btn w
  | SaveEdit => save_edit_btn w
  | CancelEdit => cancel_edit_btn w
  | Restore => restore_btn w
  | Undo => undo_btn w
  | Redo => redo_btn w
  end.

Definition slot (b : button) : t -> option t :=
  match b with
  | PrevResult => show_previous_result
  | NextResult => show_next_result
  | Edit => toggle_edit_mode
  | SaveEdit => save_edits
  | CancelEdit => cancel_edits
  | Restore => restore_original
  | Undo => undo_changes
  | Redo => redo_changes
  end.

(** What can happen to the panel: a result arrives from the worker, the
    user clicks a button (a disabled button does nothing), the user types
    in the code view (a read-only view ignores it), a new run starts. *)
Inductive event :=
| ResultReady (result : ResultData) (config : ModelConfig)
    (image_name : string) (token_usage : Z) (image_path : ImagePath)
| Clicked (b : button)
| Typed (text : string)
| RunStarted.

Definition react (w : t) (e : event) : option t :=
  match e with
  | ResultReady d c nm tu ip => handle_result w d c nm tu ip
  | Clicked b => if enabled w b then slot b w else Some w
  | Typed text =>
      if code_read_only w then Some w else Some (set_code_view w text)
  | RunStarted => Some (reset_results w)
  end.

(** A sequence of events; [None] when a slot raised. *)
Fixpoint play (w : t) (events : list event) : option t :=
  match events with
  | [] => Some w
  | e :: rest => w' <- react w e ;; play w' rest
  end.

End Window.

(** What the slots of the panel rely on and keep: a valid index whenever
    there are results, results that come from their construction, a
    read-only view that shows the current text, and edit buttons that are
    enabled only when their slot applies. *)
Definition panel_base (w : Window.t) : Prop :=
  ((Window.results w = [] /\ Window.current_result_index w = -1)
   \/ 0 <= Window.current_result_index w < Py.len (Window.results w))
  /\ Forall (fun r => exists d, ProcessingResult.reachable d r)
       (Window.results w)
  /\ (Window.code_read_only w = true ->
      forall r, Window.current_result w = Some r ->
                ProcessingResult.get_code r = Some (Window.code_view w))
  /\ (Window.undo_btn w = true ->
      Window.code_read_only w = true
      /\ exists r, Window.current_result w = Some r
                   /\ ProcessingResult.has_undo r = true)
  /\ (Window.redo_btn w = true ->
      Window.code_read_only w = true
      /\ exists r, Window.current_result w = Some r
                   /\ ProcessingResult.has_redo r = true)
  /\ (Window.edit_btn w = true -> Window.code_read_only w = true)
  /\ (Window.save_edit_btn w = true -> Window.code_read_only w = false)
  /\ (Window.restore_btn w = true -> Window.code_read_only w = true).

(** The navigation buttons are enabled exactly when there is a result
    before, or after, the one shown. *)
Definition panel_nav (w : Window.t) : Prop :=
  Window.prev_result_btn w
  = ((Py.len (Window.results w) >? 0)
     && (Window.current_result_index w >? 0))
  /\ Window.next_result_btn w
     = ((Py.len (Window.results w) >? 0)
        && (Window.current_result_index w
            <? Py.len (Window.results w) - 1)).

Definition panel_ok (w : Window.t) : Prop := panel_base w /\ panel_nav w.

(** ** Sample values *)

(** A result seeded with a given text (an error text can be any text). *)
Definition seeded (text : string) : ProcessingResult.t :=
  ProcessingResult.init (ErrorData text) default_config "a.png" 0
    (OnePath "uml/a.png").

(** Commit "v2", commit "v3", undo twice, commit "v4". *)
Definition branch_ops : list ProcessingResult.op :=
  [ ProcessingResult.Commit "v2"; ProcessingResult.Commit "v3";
    ProcessingResult.Undo; ProcessingResult.Undo;
    ProcessingResult.Commit "v4" ].

(** Commit "v2", then undo: the pointer is back on the seed with one
    entry to redo. *)
Definition back_at_seed : ProcessingResult.t :=
  ProcessingResult.exec (seeded "v1")
    [ProcessingResult.Commit "v2"; ProcessingResult.Undo].

(** An answer with a negative token count. *)
Definition negative_usage_fields : ResponseFields :=
  mkFields (Some "Base = declarative_base()") (Some "one table") (Some (-1)).

(** An answer whose code has no declarative base. *)
Definition no_base_fields : ResponseFields :=
  mkFields (Some "class User: pass") (Some "one class") (Some 12).

(** An answer without a token count. *)
Definition no_usage_fields : ResponseFields :=
  mkFields (Some "Base = declarative_base()") (Some "one table") None.

(** A rendering of exceptions for the samples. *)
Definition sample_str (e : Exn) : string :=
  match e with
  | ValueError m => m
  | ValidationError _ => "validation error"
  | OutputParserException d => d
  | ServiceError d => d
  end.

(** A service that accepts every upload, times out on the second unit of
    a run, answers the third unit with code that has no declarative base,
    and answers well otherwise. *)
Definition sample_service : Service :=
  mkService None
    (fun _ path => inr ("file-" ++ path))
    (fun call _ =>
       match call with
       | 1%nat => inl (ServiceError "timeout")
       | 2%nat => inr (Object no_base_fields)
       | _ => inr (Object no_usage_fields)
       end).

Definition sample_paths : list string :=
  ["uml/a.png"; "uml/b.png"; "uml/c.png"].

(** A worker that is never stopped, and one stopped while its first unit
    is in flight. *)
Definition never_stopped : nat -> bool := fun _ => true.

Definition stopped_after_first : nat -> bool :=
  fun i => match i with O => true | _ => false end.

(** A directory "uml" with three entries. *)
Definition sample_fs : FileSystem :=
  mkFS (String.eqb "uml")
       (fun d => if String.eqb d "uml" then ["a.png"; "b.txt"; "c.JPG"] else []).

(** A name as a directory listing gives it: no separator in it. *)
Definition plain_name (f : string) : Prop :=
  Py.after_last OsPath.sep f = 0%nat.

(** The units of separate mode with their positions in the scan. *)
Definition numbered (image_paths : list string) : list (nat * string) :=
  combine (seq 0 (List.length image_paths)) image_paths.

(** The number of units the loop of separate mode starts: the positions
    from [i] on before the first one at which the flag is read cleared,
    [remaining] at most. *)
Fixpoint started_from (running : nat -> bool) (i remaining : nat) : nat :=
  match remaining with
  | O => O
  | S r => if running i then S (started_from running (S i) r) else O
  end.

Definition started (running : nat -> bool) (n : nat) : nat :=
  started_from running 0 n.

(** A service whose uploads all fail while the model still answers. *)
Definition upload_down_service : Service :=
  mkService None
    (fun _ _ => inl (ServiceError "upload failed"))
    (fun _ _ => inr (Object no_usage_fields)).

(** A service whose chain cannot be built. *)
Definition broken_chain_service : Service :=
  mkService (Some (ValueError "bad template"))
    (fun _ path => inr path)
    (fun _ _ => inr (Object no_usage_fields)).

(** A slot's effect on the list of results: none, or a new state for the
    result at the current index. *)
Definition touches_current_only (w w' : Window.t) : Prop :=
  Window.current_result_index w' = Window.current_result_index w
  /\ (Window.results w' = Window.results w
      \/ exists r', Window.results w'
                    = set_index (Window.results w)
                        (Window.current_result_index w) r').

(** One failed unit arrives at a fresh window. *)
Definition one_result_events : list Window.event :=
  [Window.ResultReady (ErrorData "v1") default_config "a.png" 0
     (OnePath "uml/a.png")].

(** The window after that. *)
Definition shown_panel : Window.t :=
  match Window.play Window.initial one_result_events with
  | Some w => w
  | None => Window.initial
  end.

(** The window after a click on the restore button there. *)
Definition restored_panel : Window.t :=
  match Window.react shown_panel (Window.Clicked Window.Restore) with
  | Some w => w
  | None => shown_panel
  end.

(** * Properties *)

(** ** Python sequences *)

Lemma index_nonneg {A : Type} (l : list A) (i : Z) :
  0 <= i -> Py.index l i = nth_error l (Z.to_nat i).
Proof.
  intros Hi. unfold Py.index.
  destruct (i <? 0) eqn:E; [apply Z.ltb_lt in E; lia|].
  now rewrite E.
Qed.

Lemma slice_to_nonneg {A : Type} (l : list A) (k : Z) :
  0 <= k -> Py.slice_to l k = firstn (Z.to_nat k) l.
Proof.
  intros Hk. unfold Py.slice_to.
  destruct (k <? 0) eqn:E; [apply Z.ltb_lt in E; lia|reflexivity].
Qed.

Lemma len_app {A : Type} (l1 l2 : list A) :
  Py.len (l1 ++ l2)%list = Py.len l1 + Py.len l2.
Proof. unfold Py.len. rewrite length_app. lia. Qed.

Lemma len_firstn {A : Type} (l : list A) (n : nat) :
  (n <= List.length l)%nat -> Py.len (firstn n l) = Z.of_nat n.
Proof. intros H. unfold Py.len. rewrite firstn_length_le; auto. Qed.

Lemma index_in_range {A : Type} (l : list A) (i : Z) :
  0 <= i < Py.len l -> exists x, Py.index l i = Some x.
Proof.
  intros [H0 H1]. rewrite index_nonneg by assumption.
  destruct (nth_error l (Z.to_nat i)) eqn:E; [eauto|].
  apply nth_error_None in E. unfold Py.len in H1. lia.
Qed.

Lemma index_last {A : Type} (l : list A) (x : A) :
  Py.index (l ++ [x])%list (Py.len l) = Some x.
Proof.
  rewrite index_nonneg by (unfold Py.len; lia).
  unfold Py.len. rewrite Nat2Z.id.
  rewrite nth_error_app2 by lia. now rewrite Nat.sub_diag.
Qed.

(** ** The edit history of a result *)

Section VersionStore.

Import ProcessingResult.

Lemma with_version_same (r : t) : with_version r (current_version r) = r.
Proof. now destruct r. Qed.

(** The effect of the [code] setter on a well-formed result, whichever
    branch is taken. *)
Lemma set_code_spec (r : t) (v : string) :
  wf r ->
  history (set_code r v)
    = (firstn (Z.to_nat (current_version r + 1)) (history r) ++ [v])%list
  /\ current_version (set_code r v) = current_version r + 1.
Proof.
  intros [H0 H1]. unfold set_code.
  destruct (Py.len (history r) =? current_version r + 1) eqn:E; simpl.
  - apply Z.eqb_eq in E. split; [|reflexivity].
    rewrite firstn_all2; [reflexivity|]. unfold Py.len in E. lia.
  - rewrite slice_to_nonneg by lia. split; reflexivity.
Qed.

Lemma set_code_wf (r : t) (v : string) : wf r -> wf (set_code r v).
Proof.
  intros H. destruct (set_code_spec r v H) as [Hh Hc].
  unfold wf. rewrite Hh, Hc, len_app, len_firstn.
  - destruct H. unfold Py.len; simpl. lia.
  - destruct H as [H0 H1]. unfold Py.len in H1. lia.
Qed.

Lemma undo_wf (r : t) : wf r -> wf (fst (undo r)).
Proof.
  unfold wf, undo; simpl. intros [H0 H1].
  destruct (current_version r >? 0) eqn:E; simpl; [|lia].
  apply Z.gtb_lt in E. lia.
Qed.

Lemma redo_wf (r : t) : wf r -> wf (fst (redo r)).
Proof.
  unfold wf, redo; simpl. intros [H0 H1].
  destruct (current_version r <? Py.len (history r) - 1) eqn:E; simpl; [|lia].
  apply Z.ltb_lt in E. lia.
Qed.

Lemma restore_original_wf (r : t) : wf r -> wf (fst (restore_original r)).
Proof.
  unfold wf, restore_original; simpl. intros [H0 H1].
  destruct (is_error r); simpl; lia.
Qed.

Lemma step_wf (r : t) (o : op) : wf r -> wf (step r o).
Proof.
  intros H. destruct o; simpl.
  - now apply set_code_wf.
  - now apply undo_wf.
  - now apply redo_wf.
  - now apply restore_original_wf.
  - exact H.
  - exact H.
Qed.

Lemma init_wf d cfg nm tu ip : wf (init d cfg nm tu ip).
Proof. unfold wf, init. destruct d; simpl; unfold Py.len; simpl; lia. Qed.

Lemma undo_history (r : t) : history (fst (undo r)) = history r.
Proof. unfold undo; simpl. now destruct (current_version r >? 0). Qed.

Lemma redo_history (r : t) : history (fst (redo r)) = history r.
Proof.
  unfold redo; simpl.
  now destruct (current_version r <? Py.len (history r) - 1).
Qed.

Lemma restore_original_history (r : t) :
  history (fst (restore_original r)) = history r.
Proof. unfold restore_original; simpl. now destruct (is_error r). Qed.

(** The first entry survives every operation. *)
Lemma step_head (r : t) (o : op) :
  wf r -> Py.index (history (step r o)) 0 = Py.index (history r) 0.
Proof.
  intros H. destruct o; unfold step;
    rewrite ?undo_history, ?redo_history, ?restore_original_history; auto.
  destruct (set_code_spec r value H) as [Hh _]. rewrite Hh.
  rewrite !index_nonneg by lia. simpl.
  destruct H as [H0 H1].
  replace (Z.to_nat (current_version r + 1))
    with (S (Z.to_nat (current_version r))) by lia.
  destruct (history r); [unfold Py.len in H1; simpl in H1; lia|reflexivity].
Qed.

Lemma step_original_code (r : t) (o : op) :
  original_code (step r o) = original_code r.
Proof.
  destruct o; simpl; auto.
  - unfold set_code.
    now destruct (Py.len (history r) =? current_version r + 1).
  - unfold undo; simpl. now destruct (current_version r >? 0).
  - unfold redo; simpl.
    now destruct (current_version r <? Py.len (history r) - 1).
  - unfold restore_original; simpl. now destruct (is_error r).
Qed.

(** What holds of every reachable state. *)
Lemma reachable_inv (d : ResultData) (r : t) :
  reachable d r ->
  wf r /\ Py.index (history r) 0 = Some (seed d) /\ original_code r = seed d.
Proof.
  induction 1 as [cfg nm tu ip | r o _ (Hwf & Hhd & Hor)].
  - split; [apply init_wf|]. unfold init. destruct d; simpl; auto.
  - split; [now apply step_wf|]. split.
    + now rewrite step_head.
    + now rewrite step_original_code.
Qed.

Lemma exec_reachable (d : ResultData) (r : t) (ops : list op) :
  reachable d r -> reachable d (exec r ops).
Proof.
  revert r. induction ops as [|o ops IH]; intros r H; simpl; auto.
  apply IH. now constructor.
Qed.

End VersionStore.

Section VersionStoreClaims.

Import ProcessingResult.

(** C2. Committing a text to a result whose pointer is in range keeps
    the entries up to the pointer, drops the later ones, appends the text
    and advances the pointer by one; when the pointer is on the last
    entry nothing is dropped.  After a commit there is nothing to redo
    and [redo] changes nothing.  Seeding "v1", committing "v2" and "v3",
    undoing twice and committing "v4" leaves the history "v1", "v4" with
    the pointer at 1, no redo, and [redo] a no-op. *)
Theorem commit_truncates_then_appends :
  (forall (r : t) (v : string),
      wf r ->
      let r' := set_code r v in
      (current_version r = Py.len (history r) - 1 ->
         history r' = (history r ++ [v])%list)
      /\ history r'
           = (firstn (Z.to_nat (current_version r) + 1) (history r) ++ [v])%list
      /\ current_version r' = current_version r + 1
      /\ has_redo r' = false
      /\ redo r' = (r', Some v))
  /\ (let r := exec (seeded "v1") branch_ops in
      history r = ["v1"; "v4"]
      /\ current_version r = 1
      /\ has_redo r = false
      /\ redo r = (r, Some "v4")).
Proof.
  split.
  - intros r v H r'.
    destruct (set_code_spec r v H) as [Hh Hc]. fold r' in Hh, Hc.
    assert (Hn : Z.to_nat (current_version r + 1)
                 = (Z.to_nat (current_version r) + 1)%nat)
      by (destruct H; lia).
    rewrite Hn in Hh.
    assert (Hlen : Py.len (history r') = current_version r + 2).
    { rewrite Hh, len_app, len_firstn.
      - unfold Py.len; simpl. destruct H; lia.
      - destruct H as [H0 H1]. unfold Py.len in H1. lia. }
    assert (Hredo : has_redo r' = false).
    { unfold has_redo. rewrite Hlen, Hc. apply Z.ltb_ge. lia. }
    repeat split; auto.
    + intros Hlast. rewrite Hh. rewrite firstn_all2; [reflexivity|].
      unfold Py.len in Hlast. lia.
    + unfold redo. unfold has_redo in Hredo. rewrite Hredo.
      f_equal. rewrite Hh, Hc.
      replace (current_version r + 1)
        with (Py.len (firstn (Z.to_nat (current_version r) + 1) (history r))).
      * apply index_last.
      * rewrite len_firstn; [destruct H; lia|].
        destruct H as [H0 H1]. unfold Py.len in H1. lia.
  - vm_compute. repeat split; reflexivity.
Qed.

Lemma commit_truncates_then_appends_witness :
  wf back_at_seed
  /\ history (set_code back_at_seed "v3") = ["v1"; "v3"]
  /\ current_version (set_code back_at_seed "v3") = 1.
Proof.
  assert (H : wf back_at_seed) by (vm_compute; split; congruence).
  split; [exact H|].
  destruct (proj1 commit_truncates_then_appends back_at_seed "v3" H)
    as (_ & Hh & Hc & _).
  split; [exact Hh | exact Hc].
Defined.

(** C3, as stated, fails: with the pointer on the first entry and a
    later entry present, [undo] leaves the pointer where it is and
    [redo] then moves forward, returning the next entry instead of the
    text that was current.  Seed "v1", commit "v2", undo; now "v1" is
    current, and a further undo followed by redo returns "v2". *)
Lemma undo_redo_not_always_roundtrip :
  reachable (ErrorData "v1") back_at_seed
  /\ get_code back_at_seed = Some "v1"
  /\ snd (redo (fst (undo back_at_seed))) = Some "v2"
  /\ snd (redo (fst (undo back_at_seed))) <> get_code back_at_seed.
Proof.
  split; [|split; [|split]].
  - unfold back_at_seed. apply exec_reachable. apply reach_init.
  - vm_compute. reflexivity.
  - vm_compute. reflexivity.
  - vm_compute. discriminate.
Qed.

(** C3, amended. In every reachable state where there is something to
    undo, or nothing to redo, [undo] followed at once by [redo] returns
    the text that was current before the [undo] and leaves the result
    as it was. *)
Theorem undo_then_redo_roundtrip :
  forall (d : ResultData) (r : t),
    reachable d r ->
    has_undo r = true \/ has_redo r = false ->
    exists text,
      get_code r = Some text
      /\ redo (fst (undo r)) = (r, Some text).
Proof.
  intros d r R Hcase.
  destruct (reachable_inv d r R) as (Hwf & _ & _).
  destruct (index_in_range (history r) (current_version r) Hwf) as [text Ht].
  exists text. split; [exact Ht|].
  destruct Hwf as [H0 H1].
  unfold undo, redo, has_undo, has_redo in *. simpl.
  destruct (current_version r >? 0) eqn:Eu; simpl.
  - apply Z.gtb_lt in Eu.
    assert (E : (current_version r - 1 <? Py.len (history r) - 1) = true)
      by (apply Z.ltb_lt; lia).
    rewrite E. simpl.
    replace (current_version r - 1 + 1) with (current_version r) by lia.
    rewrite Ht. f_equal. now destruct r.
  - destruct Hcase as [Hc|Hc]; [discriminate|].
    rewrite Hc. now rewrite Ht.
Qed.

Lemma undo_then_redo_roundtrip_witness :
  exists text,
    get_code (exec (seeded "v1") branch_ops) = Some text
    /\ redo (fst (undo (exec (seeded "v1") branch_ops)))
         = (exec (seeded "v1") branch_ops, Some text).
Proof.
  apply (undo_then_redo_roundtrip (ErrorData "v1")).
  - apply exec_reachable. apply reach_init.
  - left. vm_compute. reflexivity.
Defined.

(** C6. Construction establishes [0 <= pointer < len(history)]; every
    operation (commit, undo, redo, restore_original, has_undo, has_redo)
    preserves it and leaves the first history entry as it was; so in
    every reachable state the invariant holds and the first entry is the
    text that was seeded. *)
Theorem pointer_in_range_and_seed_kept :
  (forall d cfg nm tu ip,
      wf (init d cfg nm tu ip)
      /\ history (init d cfg nm tu ip) = [seed d])
  /\ (forall (r : t) (o : op),
        wf r ->
        wf (step r o)
        /\ Py.index (history (step r o)) 0 = Py.index (history r) 0)
  /\ (forall (d : ResultData) (r : t),
        reachable d r ->
        wf r /\ Py.index (history r) 0 = Some (seed d)).
Proof.
  split; [|split].
  - intros. split; [apply init_wf|]. unfold init. now destruct d.
  - intros r o H. split; [now apply step_wf | now apply step_head].
  - intros d r R. destruct (reachable_inv d r R) as (? & ? & ?). auto.
Qed.

Lemma pointer_in_range_and_seed_kept_witness :
  wf back_at_seed
  /\ wf (step back_at_seed (Commit "v3"))
  /\ Py.index (history (step back_at_seed (Commit "v3"))) 0 = Some "v1".
Proof.
  assert (H : wf back_at_seed) by (vm_compute; split; congruence).
  split; [exact H|].
  exact (proj1 (proj2 pointer_in_range_and_seed_kept)
           back_at_seed (Commit "v3") H).
Defined.

(** C7. In every state reachable from a result seeded with some text,
    [restore_original] sets the pointer to 0, leaves the history list as
    it is, and returns the seeded text, which is then the current
    text. *)
Theorem restore_original_returns_seed :
  forall (d : ResultData) (r : t),
    reachable d r ->
    snd (restore_original r) = seed d
    /\ current_version (fst (restore_original r)) = 0
    /\ history (fst (restore_original r)) = history r
    /\ get_code (fst (restore_original r)) = Some (seed d).
Proof.
  intros d r R.
  destruct (reachable_inv d r R) as (_ & Hhd & Hor).
  unfold restore_original, get_code. simpl.
  destruct (is_error r); simpl; auto.
Qed.

Lemma restore_original_returns_seed_witness :
  snd (restore_original (exec (seeded "v1") branch_ops)) = "v1"
  /\ current_version (fst (restore_original (exec (seeded "v1") branch_ops))) = 0
  /\ history (fst (restore_original (exec (seeded "v1") branch_ops)))
       = ["v1"; "v4"]
  /\ get_code (fst (restore_original (exec (seeded "v1") branch_ops)))
       = Some "v1".
Proof.
  apply (restore_original_returns_seed (ErrorData "v1")).
  apply exec_reachable. apply reach_init.
Defined.

(** C10. [undo] and [redo] change nothing of a result but the pointer:
    the history list is the same list afterwards. *)
Theorem undo_redo_keep_history :
  forall r : t,
    history (fst (undo r)) = history r
    /\ fst (undo r) = with_version r (current_version (fst (undo r)))
    /\ history (fst (redo r)) = history r
    /\ fst (redo r) = with_version r (current_version (fst (redo r))).
Proof.
  intros r. unfold undo, redo. simpl.
  destruct (current_version r >? 0),
           (current_version r <? Py.len (history r) - 1);
    simpl; repeat split; auto using with_version_same, eq_sym.
Qed.

End VersionStoreClaims.

(** ** Strings *)

Lemma prefix_app (n s : string) :
  String.prefix n s = true <-> exists b, s = n ++ b.
Proof.
  revert s. induction n as [|a n IH]; intros s.
  - split; [intros _; now exists s | intros _; now destruct s].
  - destruct s as [|c s]; simpl.
    + split; [discriminate | intros [b Hb]; discriminate].
    + destruct (ascii_dec a c) as [->|Hne].
      * rewrite IH. split; intros [b Hb]; exists b.
        -- now rewrite Hb.
        -- now inversion Hb.
      * split; [discriminate|]. intros [b Hb]. inversion Hb. congruence.
Qed.

(** [Py.contains] is the substring test. *)
Lemma contains_substring (n s : string) :
  Py.contains n s = true <-> exists a b, s = a ++ n ++ b.
Proof.
  induction s as [|c s IH].
  - cbn [Py.contains]. rewrite orb_false_r, prefix_app. split.
    + intros [b Hb]. now exists EmptyString, b.
    + intros (a & b & H). destruct a; [now exists b|discriminate].
  - cbn [Py.contains]. rewrite orb_true_iff, prefix_app, IH. split.
    + intros [[b Hb] | (a & b & H)].
      * now exists EmptyString, b.
      * exists (String c a), b. simpl. now rewrite H.
    + intros (a & b & H). destruct a as [|c' a].
      * left. now exists b.
      * right. exists a, b. simpl in H. now inversion H.
Qed.

(** ** The response validator *)

Lemma validate_ok_inv (f : ResponseFields) (m : SQLAlchemyModels) :
  validate f = inr m ->
  r_code f = Some (code m)
  /\ Py.contains marker (code m) = true
  /\ r_summary f = Some (summary m)
  /\ token_usage m = with_default 0 (r_token_usage f).
Proof.
  unfold validate, required, code_must_contain_models.
  destruct (r_code f) as [c|]; [|discriminate].
  destruct (Py.contains marker c) eqn:E; simpl; [|discriminate].
  destruct (r_summary f) as [s|]; [|discriminate].
  intros H. inversion H; subst; simpl. auto.
Qed.

Lemma validate_no_marker (f : ResponseFields) (v : string) :
  r_code f = Some v ->
  Py.contains marker v = false ->
  validate f
  = inl (ValidationError
           (("code", Raised missing_base_msg)
              :: errors_of (required "summary" (r_summary f) (fun s => inr s)))).
Proof.
  intros Hc Hm. unfold validate, required at 1 2, code_must_contain_models.
  rewrite Hc, Hm. simpl. reflexivity.
Qed.

Section ValidationClaims.

Variable str : Exn -> string.

(** C4. When the code text of the service's answer does not contain
    "declarative_base", no model is constructed: validation fails with
    the validator's message for the field "code", the chain raises, and
    the unit's signal carries an error text made from that exception,
    in separate and in combined mode alike; the result built from it is
    an error result whose history holds that text. *)
Theorem missing_base_gives_failure :
  forall (f : ResponseFields) (v : string),
    r_code f = Some v ->
    Py.contains marker v = false ->
    exists errs,
      parse (Object f) = inl (ValidationError errs)
      /\ In ("code", Raised missing_base_msg) errs
      /\ (forall m, parse (Object f) <> inr m)
      /\ (forall svc cfg i img_path,
            respond svc i (upload_files svc i [img_path]) = inr (Object f) ->
            let msg := "❌ Ошибка обработки " ++ OsPath.basename img_path
                         ++ ": " ++ str (ValidationError errs) in
            separate_unit str svc cfg i img_path
            = result_ready (ErrorData msg) cfg (OsPath.basename img_path) 0
                (OnePath img_path)
            /\ handle_results [separate_unit str svc cfg i img_path]
               = [ProcessingResult.init (ErrorData msg) cfg
                    (OsPath.basename img_path) 0 (OnePath img_path)])
      /\ (forall svc cfg image_paths,
            respond svc 0 (upload_files svc 0 image_paths) = inr (Object f) ->
            combined_unit str svc cfg image_paths
            = result_ready
                (ErrorData ("Ошибка обработки объединённых изображений: "
                              ++ str (ValidationError errs)))
                cfg "combined" 0 (ManyPaths image_paths)).
Proof.
  intros f v Hc Hm.
  pose proof (validate_no_marker f v Hc Hm) as Hv.
  eexists. split; [exact Hv|]. split; [now left|]. split.
  - intros m. simpl. rewrite Hv. discriminate.
  - split.
    + intros svc cfg i p Hr. unfold separate_unit, invoke.
      rewrite Hr. simpl. rewrite Hv. split; reflexivity.
    + intros svc cfg ps Hr. unfold combined_unit, invoke.
      rewrite Hr. simpl. rewrite Hv. reflexivity.
Qed.

End ValidationClaims.

Lemma missing_base_gives_failure_witness :
  exists errs,
    parse (Object no_base_fields) = inl (ValidationError errs)
    /\ is_failure (separate_unit sample_str sample_service default_config 2
                     "uml/c.png") = true.
Proof.
  destruct (missing_base_gives_failure sample_str no_base_fields
              "class User: pass" eq_refl eq_refl)
    as (errs & Hp & _ & _ & Hs & _).
  exists errs. split; [exact Hp|].
  destruct (Hs sample_service default_config 2%nat "uml/c.png" eq_refl)
    as [Hu _].
  rewrite Hu. reflexivity.
Defined.

(** C9, as stated, fails: an answer with a token count of -1 and code
    that has the declarative base passes validation, and the model built
    from it has a negative [token_usage]. *)
Lemma negative_usage_is_accepted :
  validate negative_usage_fields
  = inr (mkModels "Base = declarative_base()" "one table" (-1))
  /\ token_usage (mkModels "Base = declarative_base()" "one table" (-1)) < 0.
Proof. split; [vm_compute; reflexivity | simpl; lia]. Qed.

(** C9, amended. Every constructed model has as [token_usage] the
    integer the answer gives, whatever its sign, and 0 when the answer
    omits the field. *)
Theorem token_usage_as_reported :
  forall (f : ResponseFields) (m : SQLAlchemyModels),
    validate f = inr m ->
    (r_token_usage f = None -> token_usage m = 0)
    /\ (forall z, r_token_usage f = Some z -> token_usage m = z).
Proof.
  intros f m H. destruct (validate_ok_inv f m H) as (_ & _ & _ & Ht).
  rewrite Ht. split.
  - intros ->. reflexivity.
  - intros z ->. reflexivity.
Qed.

Lemma token_usage_as_reported_witness :
  (r_token_usage no_usage_fields = None ->
   token_usage (mkModels "Base = declarative_base()" "one table" 0) = 0)
  /\ (forall z, r_token_usage no_usage_fields = Some z ->
                token_usage (mkModels "Base = declarative_base()" "one table" 0) = z).
Proof.
  apply (token_usage_as_reported no_usage_fields). vm_compute. reflexivity.
Defined.

(** ** Paths *)

Lemma app_assoc_str (a b c : string) : (a ++ b) ++ c = a ++ (b ++ c).
Proof. induction a as [|x a IH]; simpl; [reflexivity | now rewrite IH]. Qed.

Lemma length_app_str (a b : string) :
  String.length (a ++ b) = (String.length a + String.length b)%nat.
Proof. induction a as [|x a IH]; simpl; [reflexivity | now rewrite IH]. Qed.

Lemma app_cancel_l (a b c : string) : a ++ b = a ++ c -> b = c.
Proof.
  induction a as [|x a IH]; simpl; intros H; [exact H|].
  inversion H. auto.
Qed.

Lemma after_last_le (c : ascii) (s : string) :
  (Py.after_last c s <= String.length s)%nat.
Proof.
  induction s as [|a s IH]; simpl; [lia|].
  destruct (Py.after_last c s); [destruct (Ascii.eqb a c)|]; lia.
Qed.

(** The last occurrence in a concatenation is the last one in the second
    part when there is one, and the last one in the first part otherwise. *)
Lemma after_last_app (c : ascii) (a b : string) :
  Py.after_last c (a ++ b)
  = match Py.after_last c b with
    | O => Py.after_last c a
    | S n => (String.length a + S n)%nat
    end.
Proof.
  induction a as [|x a IH]; simpl.
  - now destruct (Py.after_last c b).
  - rewrite IH. destruct (Py.after_last c b); [reflexivity|].
    now rewrite Nat.add_succ_r.
Qed.

Lemma drop_app_length (a b : string) (n : nat) :
  Py.drop (String.length a + n) (a ++ b) = Py.drop n b.
Proof. induction a as [|x a IH]; simpl; auto. Qed.

Lemma take_drop (n : nat) (s : string) : Py.take n s ++ Py.drop n s = s.
Proof.
  revert s. induction n as [|n IH]; intros [|a s]; simpl; auto.
  now rewrite IH.
Qed.

(** [splitext] cuts the path in two. *)
Lemma splitext_parts (p : string) :
  fst (OsPath.splitext p) ++ snd (OsPath.splitext p) = p.
Proof.
  unfold OsPath.splitext.
  destruct (Py.after_last OsPath.sep p <? Py.after_last OsPath.extsep p)%nat;
    simpl.
  - destruct (OsPath.all_dots _); simpl.
    + clear. induction p; simpl; congruence.
    + apply take_drop.
  - clear. induction p; simpl; congruence.
Qed.

Lemma plain_name_no_sep_prefix (f : string) :
  plain_name f -> String.prefix (String OsPath.sep EmptyString) f = false.
Proof.
  intros Hf.
  destruct (String.prefix (String OsPath.sep EmptyString) f) eqn:E;
    [|reflexivity].
  apply prefix_app in E. destruct E as [b ->].
  unfold plain_name in Hf. cbn in Hf.
  destruct (Py.after_last OsPath.sep b); discriminate.
Qed.

(** Joining a directory and a plain name puts the name last, right after
    the last separator. *)
Lemma join_shape (a f : string) :
  plain_name f ->
  exists pre,
    OsPath.join a f = pre ++ f
    /\ Py.after_last OsPath.sep (pre ++ f) = String.length pre.
Proof.
  intros Hf. unfold OsPath.join.
  rewrite (plain_name_no_sep_prefix f Hf).
  destruct a as [|x a].
  - exists EmptyString. simpl. split; [reflexivity | exact Hf].
  - cbn [orb]. destruct (OsPath.ends_with_sep (String x a)) eqn:E.
    + exists (String x a). split; [reflexivity|].
      rewrite after_last_app. rewrite Hf.
      unfold OsPath.ends_with_sep in E. now apply Nat.eqb_eq in E.
    + exists (String x a ++ String OsPath.sep EmptyString).
      rewrite app_assoc_str. split; [reflexivity|].
      rewrite after_last_app.
      assert (H1 : Py.after_last OsPath.sep (String OsPath.sep EmptyString ++ f)
                   = 1%nat).
      { simpl. rewrite Hf. reflexivity. }
      rewrite H1, length_app_str. reflexivity.
Qed.

Lemma basename_app (pre f : string) :
  Py.after_last OsPath.sep (pre ++ f) = String.length pre ->
  OsPath.basename (pre ++ f) = f.
Proof.
  intros H. unfold OsPath.basename. rewrite H.
  rewrite <- (Nat.add_0_r (String.length pre)). apply drop_app_length.
Qed.

(** The extension of a path that ends in a plain name is the extension
    of that name. *)
Lemma splitext_app (pre f : string) :
  plain_name f ->
  Py.after_last OsPath.sep (pre ++ f) = String.length pre ->
  snd (OsPath.splitext (pre ++ f)) = snd (OsPath.splitext f).
Proof.
  intros Hf Hs. unfold OsPath.splitext. rewrite Hs, Hf.
  rewrite (after_last_app OsPath.extsep).
  destruct (Py.after_last OsPath.extsep f) as [|d] eqn:Ed.
  - pose proof (after_last_le OsPath.extsep pre) as Hle.
    destruct (String.length pre <? Py.after_last OsPath.extsep pre)%nat eqn:E;
      [apply Nat.ltb_lt in E; lia|].
    reflexivity.
  - assert (E1 : (String.length pre <? String.length pre + S d)%nat = true)
      by (apply Nat.ltb_lt; lia).
    rewrite E1. cbn [Nat.ltb Nat.leb].
    replace (String.length pre + S d - 1 - String.length pre)%nat
      with (S d - 1 - 0)%nat by lia.
    rewrite <- (Nat.add_0_r (String.length pre)) at 1.
    rewrite drop_app_length.
    replace (String.length pre + S d - 1)%nat
      with (String.length pre + (S d - 1))%nat by lia.
    rewrite drop_app_length.
    cbn [Py.drop].
    destruct (OsPath.all_dots (Py.take (S d - 1 - 0) f)); reflexivity.
Qed.

Lemma join_inj (a f g : string) :
  plain_name f -> plain_name g ->
  OsPath.join a f = OsPath.join a g -> f = g.
Proof.
  intros Hf Hg H.
  assert (Bf : OsPath.basename (OsPath.join a f) = f).
  { destruct (join_shape a f Hf) as (pre & -> & Hp). now apply basename_app. }
  assert (Bg : OsPath.basename (OsPath.join a g) = g).
  { destruct (join_shape a g Hg) as (pre & -> & Hp). now apply basename_app. }
  congruence.
Qed.

Lemma str_in_In (x : string) (l : list string) :
  str_in x l = true <-> In x l.
Proof.
  unfold str_in. rewrite existsb_exists. split.
  - intros (y & Hy & E). apply String.eqb_eq in E. now subst.
  - intros H. exists x. split; [exact H | apply String.eqb_refl].
Qed.

(** ** The folder scan *)

Lemma NoDup_map_on {A B : Type} (g : A -> B) (l : list A) :
  (forall x y, In x l -> In y l -> g x = g y -> x = y) ->
  NoDup l -> NoDup (map g l).
Proof.
  intros Hinj Hnd. induction Hnd as [|x l Hx Hnd IH]; simpl; constructor.
  - intros Hin. apply in_map_iff in Hin. destruct Hin as (y & Hy & Hyl).
    assert (y = x) by (apply Hinj; simpl; auto). subst. contradiction.
  - apply IH. intros a b Ha Hb. apply Hinj; simpl; auto.
Qed.

Lemma is_supported_iff (f : string) :
  is_supported f = true
  <-> In (Py.lower (snd (OsPath.splitext f))) supported_ext.
Proof. unfold is_supported. apply str_in_In. Qed.

(** C5. For an existing directory whose listing has each entry once, as
    plain names, the scan returns the listing's entries whose extension,
    lowered, is one of .jpg, .jpeg, .png, .bmp, in listing order, each
    joined to the directory path and each exactly once; the last component
    of every returned path is the entry and has the entry's extension.  A
    directory with a.png, b.txt and c.JPG yields a.png and c.JPG. *)
Theorem process_folder_returns_images :
  (forall (fs : FileSystem) (folder : string),
      isdir fs folder = true ->
      NoDup (listdir fs folder) ->
      Forall plain_name (listdir fs folder) ->
      exists paths,
        process_folder fs folder = inr paths
        /\ paths = map (OsPath.join folder)
                     (filter is_supported (listdir fs folder))
        /\ NoDup paths
        /\ (forall p,
              In p paths <->
              exists f, In f (listdir fs folder)
                        /\ In (Py.lower (snd (OsPath.splitext f))) supported_ext
                        /\ p = OsPath.join folder f)
        /\ (forall p,
              In p paths ->
              In (OsPath.basename p) (listdir fs folder)
              /\ In (Py.lower (snd (OsPath.splitext p))) supported_ext))
  /\ process_folder sample_fs "uml" = inr ["uml/a.png"; "uml/c.JPG"].
Proof.
  split; [|vm_compute; reflexivity].
  intros fs folder Hdir Hnd Hplain.
  rewrite Forall_forall in Hplain.
  assert (Hmem : forall p,
             In p (map (OsPath.join folder)
                     (filter is_supported (listdir fs folder))) <->
             exists f, In f (listdir fs folder)
                       /\ In (Py.lower (snd (OsPath.splitext f))) supported_ext
                       /\ p = OsPath.join folder f).
  { intros p. rewrite in_map_iff. split.
    - intros (f & Hp & Hf). apply filter_In in Hf. destruct Hf as [Hf Hs].
      exists f. rewrite <- is_supported_iff. auto.
    - intros (f & Hf & Hs & Hp). exists f. split; [auto|].
      apply filter_In. rewrite is_supported_iff. auto. }
  eexists. split; [unfold process_folder; rewrite Hdir; reflexivity|].
  split; [reflexivity|]. split; [|split; [exact Hmem|]].
  - apply NoDup_map_on.
    + intros x y Hx Hy. apply filter_In in Hx, Hy.
      apply join_inj; apply Hplain; tauto.
    + now apply NoDup_filter.
  - intros p Hp. apply Hmem in Hp. destruct Hp as (f & Hf & Hs & ->).
    destruct (join_shape folder f (Hplain f Hf)) as (pre & -> & Hpre).
    rewrite basename_app by assumption.
    rewrite splitext_app by auto. auto.
Qed.

Lemma process_folder_returns_images_witness :
  exists paths,
    process_folder sample_fs "uml" = inr paths
    /\ NoDup paths.
Proof.
  destruct (proj1 process_folder_returns_images sample_fs "uml")
    as (paths & Hp & _ & Hnd & _).
  - reflexivity.
  - vm_compute. repeat constructor; simpl; intuition discriminate.
  - vm_compute. repeat constructor.
  - exists paths. split; assumption.
Defined.

(** ** The conversion run *)

Section RunLemmas.

Variable str : Exn -> string.
Variable svc : Service.
Variable cfg : ModelConfig.
Variable running : nat -> bool.

(** A unit of separate mode always ends in one [result_ready] signal. *)
Lemma separate_unit_result (i : nat) (p : string) :
  exists d, separate_unit str svc cfg i p
            = result_ready d cfg (OsPath.basename p) 0 (OnePath p).
Proof.
  unfold separate_unit. destruct (invoke svc i [p]); eexists; reflexivity.
Qed.

Lemma combined_unit_result (ps : list string) :
  exists d, combined_unit str svc cfg ps
            = result_ready d cfg "combined" 0 (ManyPaths ps).
Proof.
  unfold combined_unit. destruct (invoke svc 0 ps); eexists; reflexivity.
Qed.

Lemma outcomes_app (l1 l2 : list Signal) :
  outcomes (l1 ++ l2)%list = (outcomes l1 ++ outcomes l2)%list.
Proof.
  induction l1 as [|s l1 IH]; simpl; [reflexivity|].
  destruct s; simpl; now rewrite IH.
Qed.

Lemma percents_app (l1 l2 : list Signal) :
  percents (l1 ++ l2)%list = (percents l1 ++ percents l2)%list.
Proof.
  induction l1 as [|s l1 IH]; simpl; [reflexivity|].
  destruct s; simpl; now rewrite IH.
Qed.

(** The loop emits one outcome for each unit it starts, in order, whatever
    the units' invocations do; it runs to its end when it starts them
    all. *)
Lemma separate_loop_outcomes (n : Z) (rest : list string) (i : nat) :
  outcomes (fst (separate_loop str svc cfg running n i rest))
  = map (fun jp => separate_unit str svc cfg (fst jp) (snd jp))
      (firstn (started_from running i (List.length rest))
         (combine (seq i (List.length rest)) rest))
  /\ (started_from running i (List.length rest) = List.length rest ->
      snd (separate_loop str svc cfg running n i rest) = true).
Proof.
  revert i. induction rest as [|p rest IH]; intros i; simpl.
  - split; reflexivity.
  - destruct (running i); simpl; [|split; [reflexivity | discriminate]].
    destruct (IH (S i)) as [Hout Hfin].
    destruct (separate_loop str svc cfg running n (S i) rest) as [later fin].
    simpl in *. split.
    + destruct (separate_unit_result i p) as [d Hd]. rewrite Hd at 1.
      simpl. rewrite Hout, Hd. reflexivity.
    + intros H. apply Hfin. congruence.
Qed.

Lemma started_from_all (i r : nat) :
  (forall j, (i <= j < i + r)%nat -> running j = true) ->
  started_from running i r = r.
Proof.
  revert i. induction r as [|r IH]; intros i H; simpl; [reflexivity|].
  rewrite (H i) by lia. f_equal. apply IH. intros j Hj. apply H. lia.
Qed.

Lemma started_from_le (i r : nat) : (started_from running i r <= r)%nat.
Proof.
  revert i. induction r as [|r IH]; intros i; simpl; [lia|].
  destruct (running i); [specialize (IH (S i))|]; lia.
Qed.

Lemma unit_percent_bounds (i : nat) (n : Z) :
  Z.of_nat i < n -> 40 <= unit_percent i n < 90.
Proof.
  intros H. unfold unit_percent.
  assert (0 <= Z.quot (Z.of_nat i * 50) n) by (apply Z.quot_pos; lia).
  assert (Z.quot (Z.of_nat i * 50) n < 50)
    by (apply Z.quot_lt_upper_bound; lia).
  lia.
Qed.

Lemma unit_percent_mono (i : nat) (n : Z) :
  0 < n -> unit_percent i n <= unit_percent (S i) n.
Proof.
  intros H. unfold unit_percent.
  assert (Z.quot (Z.of_nat i * 50) n <= Z.quot (Z.of_nat (S i) * 50) n)
    by (apply Z.quot_le_mono; lia).
  lia.
Qed.

(** The percentages of the loop from unit [i] on: between the one of unit
    [i] and 90, and never decreasing; cancellation only cuts the sequence
    short. *)
Lemma separate_loop_percents (n : Z) (rest : list string) (i : nat) :
  Z.of_nat (i + List.length rest) <= n ->
  Forall (fun p => unit_percent i n <= p < 90)
    (percents (fst (separate_loop str svc cfg running n i rest)))
  /\ StronglySorted Z.le
       (percents (fst (separate_loop str svc cfg running n i rest))).
Proof.
  revert i. induction rest as [|p rest IH]; intros i Hn; simpl.
  - split; constructor.
  - destruct (running i); simpl; [|split; constructor].
    destruct (IH (S i)) as [Hb Hs]; [simpl in Hn; lia|].
    destruct (separate_loop str svc cfg running n (S i) rest) as [later fin].
    destruct (separate_unit_result i p) as [d Hd]. rewrite Hd.
    simpl in *.
    assert (Hi : Z.of_nat i < n) by lia.
    pose proof (unit_percent_bounds i n Hi) as Hbi.
    pose proof (unit_percent_mono i n ltac:(lia)) as Hm.
    split.
    + constructor; [lia|].
      eapply Forall_impl; [|exact Hb]. simpl. intros; lia.
    + constructor; [exact Hs|].
      eapply Forall_impl; [|exact Hb]. simpl. intros; lia.
Qed.

End RunLemmas.

Lemma sorted_snoc (l : list Z) (x : Z) :
  StronglySorted Z.le l -> Forall (fun p => p <= x) l ->
  StronglySorted Z.le (l ++ [x])%list.
Proof.
  induction 1 as [|a l Hs IH Ha]; intros Hx; simpl.
  - repeat constructor.
  - inversion Hx; subst. constructor; [auto|].
    apply Forall_app. split; [exact Ha | repeat constructor; auto].
Qed.

Lemma nth_error_numbered {A : Type} (l : list A) (i j : nat) :
  nth_error (combine (seq i (List.length l)) l) j
  = option_map (fun p => ((i + j)%nat, p)) (nth_error l j).
Proof.
  revert i j. induction l as [|x l IH]; intros i [|j]; simpl; auto.
  - now rewrite Nat.add_0_r.
  - rewrite IH. destruct (nth_error l j); simpl; [|reflexivity].
    now rewrite Nat.add_succ_r.
Qed.

(** C1. In separate mode, once the chain is built, a run over N paths
    emits one outcome for each unit it starts, in scan order, the outcome
    at each position being that of its own unit and of no other: where the
    invocation for the path at position k raises, the outcome at position
    k is an error text naming the file and carrying the exception's
    message, and the loop goes on to the next path; where the invocation
    for the path at position j returns a model, the outcome at position j
    is that model, its code headed by the comment line naming the file,
    its summary and token count untouched, whatever happened at the other
    positions.  Only a stop request ends the loop early; when the worker
    is not stopped the run emits exactly N outcomes. *)
Theorem separate_mode_isolates_failures :
  forall (str : Exn -> string) (svc : Service) (cfg : ModelConfig)
         (running : nat -> bool) (image_paths : list string) (mode : string),
    build_failure svc = None ->
    String.eqb mode "combined" = false ->
    let n := List.length image_paths in
    let out := outcomes (run str svc cfg running image_paths mode) in
    out = map (fun jp => separate_unit str svc cfg (fst jp) (snd jp))
            (firstn (started running n) (numbered image_paths))
    /\ List.length out = started running n
    /\ ((forall i, (i < n)%nat -> running i = true) ->
        List.length out = n
        /\ out = map (fun jp => separate_unit str svc cfg (fst jp) (snd jp))
                  (numbered image_paths))
    /\ (forall j p,
          (j < started running n)%nat ->
          nth_error image_paths j = Some p ->
          nth_error out j = Some (separate_unit str svc cfg j p))
    /\ (forall k p e,
          (k < started running n)%nat ->
          nth_error image_paths k = Some p ->
          invoke svc k [p] = inl e ->
          nth_error out k
          = Some (result_ready
                    (ErrorData ("❌ Ошибка обработки " ++ OsPath.basename p
                                  ++ ": " ++ str e))
                    cfg (OsPath.basename p) 0 (OnePath p))
          /\ option_map is_failure (nth_error out k) = Some true)
    /\ (forall j p m,
          (j < started running n)%nat ->
          nth_error image_paths j = Some p ->
          invoke svc j [p] = inr m ->
          nth_error out j
          = Some (result_ready
                    (ModelsData
                       (mkModels ("# Код для изображения: " ++ OsPath.basename p
                                    ++ String "010" (code m))
                                 (summary m) (token_usage m)))
                    cfg (OsPath.basename p) 0 (OnePath p))
          /\ option_map is_failure (nth_error out j) = Some false).
Proof.
  intros str svc cfg running image_paths mode Hb Hm n out.
  assert (Hout : out = map (fun jp => separate_unit str svc cfg (fst jp) (snd jp))
                         (firstn (started running n) (numbered image_paths))).
  { unfold out, run. rewrite Hb, Hm.
    destruct (separate_loop_outcomes str svc cfg running
                (Py.len image_paths) image_paths 0) as [Ho _].
    destruct (separate_loop str svc cfg running (Py.len image_paths) 0
                image_paths) as [signals fin].
    simpl in Ho. cbn [outcomes].
    destruct fin; [rewrite outcomes_app; cbn [outcomes]; rewrite app_nil_r|];
      exact Ho. }
  assert (Hlen : List.length out = started running n).
  { rewrite Hout. unfold numbered.
    rewrite length_map, length_firstn, length_combine, length_seq.
    pose proof (started_from_le running 0 n). unfold started, n in *. lia. }
  assert (Hnth : forall j p,
             (j < started running n)%nat ->
             nth_error image_paths j = Some p ->
             nth_error out j = Some (separate_unit str svc cfg j p)).
  { intros j p Hj Hp. rewrite Hout. unfold numbered.
    rewrite nth_error_map, nth_error_firstn.
    apply Nat.ltb_lt in Hj. rewrite Hj.
    rewrite nth_error_numbered, Hp. reflexivity. }
  split; [exact Hout|]. split; [exact Hlen|].
  split; [|split; [exact Hnth|split]].
  - intros Hrun.
    assert (Hall : started running n = n).
    { unfold started. apply started_from_all. intros j Hj. apply Hrun. lia. }
    split; [congruence|].
    rewrite Hout, Hall. unfold numbered, n.
    rewrite firstn_all2; [reflexivity|].
    rewrite length_combine, length_seq. lia.
  - intros k p e Hk Hp He. rewrite (Hnth k p Hk Hp).
    unfold separate_unit. rewrite He. split; reflexivity.
  - intros j p m Hj Hp Hi. rewrite (Hnth j p Hj Hp).
    unfold separate_unit. rewrite Hi. destruct m as [c s0 t].
    split; reflexivity.
Qed.

Lemma separate_mode_isolates_failures_witness :
  List.length
    (outcomes (run sample_str sample_service default_config never_stopped
                 sample_paths "separate")) = 3%nat
  /\ nth_error
       (outcomes (run sample_str sample_service default_config never_stopped
                    sample_paths "separate")) 1
     = Some (result_ready (ErrorData "❌ Ошибка обработки b.png: timeout")
               default_config "b.png" 0 (OnePath "uml/b.png"))
  /\ nth_error
       (outcomes (run sample_str sample_service default_config never_stopped
                    sample_paths "separate")) 0
     = Some (result_ready
               (ModelsData
                  (mkModels ("# Код для изображения: a.png"
                               ++ String "010" "Base = declarative_base()")
                            "one table" 0))
               default_config "a.png" 0 (OnePath "uml/a.png")).
Proof.
  destruct (separate_mode_isolates_failures sample_str sample_service
              default_config never_stopped sample_paths "separate"
              eq_refl eq_refl)
    as (_ & _ & Hall & _ & Hk & Hj).
  split; [|split].
  - exact (proj1 (Hall (fun _ _ => eq_refl))).
  - assert (H1 : (1 < started never_stopped (List.length sample_paths))%nat)
      by (vm_compute; lia).
    exact (proj1 (Hk 1%nat "uml/b.png" (ServiceError "timeout") H1
                    eq_refl eq_refl)).
  - assert (H0 : (0 < started never_stopped (List.length sample_paths))%nat)
      by (vm_compute; lia).
    exact (proj1 (Hj 0%nat "uml/a.png"
                    (mkModels "Base = declarative_base()" "one table" 0)
                    H0 eq_refl eq_refl)).
Defined.

(** A worker stopped while its first unit is in flight delivers that
    unit's outcome and nothing more, not even the closing progress
    signal. *)
Example stopped_run_is_cut_short :
  run sample_str sample_service default_config stopped_after_first
    sample_paths "separate"
  = [ progress 10 "Построение цепочки обработки...";
      progress 30 "Обработка изображений...";
      progress 40 "Обработка изображения: a.png";
      result_ready
        (ModelsData
           (mkModels
              ("# Код для изображения: a.png" ++ String "010"
                 "Base = declarative_base()")
              "one table" 0))
        default_config "a.png" 0 (OnePath "uml/a.png") ].
Proof. vm_compute. reflexivity. Qed.

(** C8. In every run, in either mode, for any number of images, whether
    or not units fail, the chain fails to build or the worker is stopped,
    the percentages of the progress signals never decrease along the run
    and each lies between 0 and 100. *)
Theorem progress_is_monotone :
  forall (str : Exn -> string) (svc : Service) (cfg : ModelConfig)
         (running : nat -> bool) (image_paths : list string) (mode : string),
    StronglySorted Z.le (percents (run str svc cfg running image_paths mode))
    /\ Forall (fun p => 0 <= p <= 100)
         (percents (run str svc cfg running image_paths mode)).
Proof.
  intros str svc cfg running image_paths mode. unfold run.
  destruct (build_failure svc) as [e|].
  { simpl. split; repeat constructor; lia. }
  destruct (String.eqb mode "combined").
  { destruct (combined_unit_result str svc cfg image_paths) as [d ->].
    simpl. split; repeat constructor; lia. }
  destruct (separate_loop_percents str svc cfg running (Py.len image_paths)
              image_paths 0) as [Hb Hs].
  { unfold Py.len. simpl. lia. }
  destruct (separate_loop str svc cfg running (Py.len image_paths) 0
              image_paths) as [signals fin].
  simpl in Hb, Hs.
  assert (Hlo : Forall (fun p => 40 <= p < 90) (percents signals)).
  { eapply Forall_impl; [|exact Hb]. simpl. intros a Ha.
    change (unit_percent 0 (Py.len image_paths)) with 40 in Ha. lia. }
  assert (Hall : StronglySorted Z.le
                   (percents (signals ++ [progress 100 "Обработка завершена!"]))
                 /\ Forall (fun p => 40 <= p <= 100)
                      (percents (signals ++ [progress 100 "Обработка завершена!"]))).
  { rewrite percents_app. simpl. split.
    - apply sorted_snoc; [exact Hs|].
      eapply Forall_impl; [|exact Hlo]. simpl. intros; lia.
    - apply Forall_app. split; [|repeat constructor; lia].
      eapply Forall_impl; [|exact Hlo]. simpl. intros; lia. }
  assert (Hcut : StronglySorted Z.le (percents signals)
                 /\ Forall (fun p => 40 <= p <= 100) (percents signals)).
  { split; [exact Hs|]. eapply Forall_impl; [|exact Hlo]. simpl. intros; lia. }
  assert (Hrest : forall l,
             StronglySorted Z.le (percents l)
             /\ Forall (fun p => 40 <= p <= 100) (percents l) ->
             StronglySorted Z.le (10 :: 30 :: percents l)
             /\ Forall (fun p => 0 <= p <= 100) (10 :: 30 :: percents l)).
  { intros l [H1 H2]. split.
    - constructor; [constructor; [exact H1|]|].
      + eapply Forall_impl; [|exact H2]. simpl. intros; lia.
      + constructor; [lia|].
        eapply Forall_impl; [|exact H2]. simpl. intros; lia.
    - constructor; [lia|]. constructor; [lia|].
      eapply Forall_impl; [|exact H2]. simpl. intros; lia. }
  destruct fin; cbn [percents]; apply Hrest; assumption.
Qed.

(** ** The embedding on sample inputs *)

Example splitext_samples :
  OsPath.splitext "a.tar.GZ" = ("a.tar", ".GZ")
  /\ OsPath.splitext ".png" = (".png", EmptyString)
  /\ OsPath.splitext "dir.d/file" = ("dir.d/file", EmptyString)
  /\ OsPath.splitext "a.b/.c.d" = ("a.b/.c", ".d").
Proof. repeat split; reflexivity. Qed.

Example is_supported_samples :
  map is_supported ["a.png"; ".png"; "b.JPeG"; "c.jpg.txt"; "d.BMP"; "e"]
  = [true; false; true; false; true; false].
Proof. reflexivity. Qed.

Example join_samples :
  OsPath.join "uml" "a.png" = "uml/a.png"
  /\ OsPath.join "uml/" "a.png" = "uml/a.png"
  /\ OsPath.join "uml" "/abs.png" = "/abs.png".
Proof. repeat split; reflexivity. Qed.

Example python_sequence_samples :
  Py.slice_to [1; 2; 3; 4; 5] (-2) = [1; 2; 3]
  /\ Py.index [1; 2; 3] (-1) = Some 3
  /\ Py.index [1; 2; 3] 3 = None
  /\ Py.contains marker "from sqlalchemy.orm import declarative_base" = true.
Proof. repeat split; reflexivity. Qed.

Example separate_run_percents :
  percents (run sample_str sample_service default_config never_stopped
              sample_paths "separate")
  = [10; 30; 40; 56; 73; 100].
Proof. vm_compute. reflexivity. Qed.

Example combined_run_sample :
  run sample_str sample_service default_config never_stopped
    sample_paths "combined"
  = [ progress 10 "Построение цепочки обработки...";
      progress 30 "Обработка изображений...";
      progress 40 "Обработка 3 изображений вместе";
      result_ready
        (ModelsData
           (mkModels
              ("# Код для изображений: a.png, b.png, c.png" ++ String "010"
                 "Base = declarative_base()")
              "one table" 0))
        default_config "combined" 0 (ManyPaths sample_paths);
      progress 100 "Обработка завершена!" ].
Proof. vm_compute. reflexivity. Qed.

Example separate_run_results :
  map ProcessingResult.is_error
    (handle_results
       (run sample_str sample_service default_config never_stopped
          sample_paths "separate"))
  = [false; true; true].
Proof. vm_compute. reflexivity. Qed.

(** * Further properties of the code *)

(** ** The edit history *)

Section VersionStoreMore.

Import ProcessingResult.

(** X1. No operation on a result touches anything but the history and the
    pointer: the data, the configuration, the image name and path, the
    token count, the error flag and the original text stay as they were,
    and so does the summary. *)
Theorem operations_keep_metadata :
  forall (r : t) (o : op),
    data (step r o) = data r
    /\ config (step r o) = config r
    /\ image_name (step r o) = image_name r
    /\ token_usage (step r o) = token_usage r
    /\ is_error (step r o) = is_error r
    /\ image_path (step r o) = image_path r
    /\ original_code (step r o) = original_code r
    /\ summary (step r o) = summary r.
Proof.
  intros r o.
  destruct o; unfold step, set_code, undo, redo, restore_original; simpl.
  - destruct (Py.len (history r) =? current_version r + 1);
      repeat split; reflexivity.
  - destruct (current_version r >? 0); repeat split; reflexivity.
  - destruct (current_version r <? Py.len (history r) - 1);
      repeat split; reflexivity.
  - destruct (is_error r) eqn:E; simpl; repeat split; auto;
      unfold summary; simpl; rewrite E; reflexivity.
  - repeat split; reflexivity.
  - repeat split; reflexivity.
Qed.

(** X2. On a result whose pointer is in range, committing a text and then
    undoing returns the text that was current before the commit, and a
    redo after that returns the committed text and restores the state the
    commit had produced. *)
Theorem commit_then_undo_then_redo :
  forall (r : t) (v : string),
    wf r ->
    snd (undo (set_code r v)) = get_code r
    /\ get_code r <> None
    /\ redo (fst (undo (set_code r v))) = (set_code r v, Some v).
Proof.
  intros r v Hwf.
  destruct (set_code_spec r v Hwf) as [Hh Hc].
  destruct (index_in_range (history r) (current_version r) Hwf) as [t Ht].
  destruct Hwf as [H0 H1].
  assert (Hlen : (Z.to_nat (current_version r + 1) <= List.length (history r))%nat)
    by (unfold Py.len in H1; lia).
  assert (Hl : Py.len (history (set_code r v)) = current_version r + 2).
  { rewrite Hh, len_app, len_firstn by exact Hlen.
    unfold Py.len; simpl. lia. }
  assert (Hu : undo (set_code r v)
               = (with_version (set_code r v) (current_version r),
                  get_code r)).
  { unfold undo. rewrite Hc.
    assert (E : (current_version r + 1 >? 0) = true)
      by (apply Z.gtb_lt; lia).
    rewrite E. f_equal.
    - f_equal. lia.
    - cbn [history current_version with_version].
      replace (current_version r + 1 - 1) with (current_version r) by lia.
      unfold get_code. rewrite Hh, !index_nonneg by lia.
      rewrite nth_error_app1
        by (rewrite firstn_length_le by exact Hlen; lia).
      rewrite nth_error_firstn.
      assert (E2 : (Z.to_nat (current_version r)
                    <? Z.to_nat (current_version r + 1))%nat = true)
        by (apply Nat.ltb_lt; lia).
      now rewrite E2. }
  rewrite Hu. cbn [fst snd]. split; [reflexivity|].
  split; [unfold get_code; congruence|].
  unfold redo. cbn [history current_version with_version].
  rewrite Hl.
  assert (E : (current_version r <? current_version r + 2 - 1) = true)
    by (apply Z.ltb_lt; lia).
  rewrite E. cbn [history current_version with_version].
  f_equal.
  - rewrite <- Hc. now destruct (set_code r v).
  - rewrite Hh.
    pose proof (index_last
                  (firstn (Z.to_nat (current_version r + 1)) (history r)) v)
      as Hi.
    rewrite len_firstn in Hi by exact Hlen.
    rewrite Z2Nat.id in Hi by lia. exact Hi.
Qed.

Lemma commit_then_undo_then_redo_witness :
  snd (undo (set_code back_at_seed "v3")) = Some "v1"
  /\ redo (fst (undo (set_code back_at_seed "v3")))
     = (set_code back_at_seed "v3", Some "v3").
Proof.
  assert (H : wf back_at_seed) by (vm_compute; split; congruence).
  destruct (commit_then_undo_then_redo back_at_seed "v3" H) as (Hu & _ & Hr).
  split; [exact Hu | exact Hr].
Defined.

Lemma last_cons_default {A : Type} (l : list A) (a x y : A) :
  last (a :: l) x = last (a :: l) y.
Proof.
  revert a. induction l as [|b l IH]; intros a; [reflexivity|].
  change (last (b :: l) x = last (b :: l) y). apply IH.
Qed.

Lemma nth_error_last {A : Type} (l : list A) (x : A) :
  nth_error (x :: l) (List.length l) = Some (last l x).
Proof.
  revert x. induction l as [|y l IH]; intros x; [reflexivity|].
  change (nth_error (y :: l) (List.length l) = Some (last (y :: l) x)).
  rewrite IH. f_equal. destruct l as [|z l]; [reflexivity|].
  change (last (z :: l) y = last (z :: l) x). apply last_cons_default.
Qed.

(** Commits on a result whose pointer is on the last entry pile up. *)
Lemma exec_commits (vs : list string) (r : t) :
  wf r ->
  current_version r = Py.len (history r) - 1 ->
  history (exec r (map Commit vs)) = (history r ++ vs)%list
  /\ current_version (exec r (map Commit vs))
     = Py.len (history r ++ vs)%list - 1.
Proof.
  revert r. induction vs as [|v vs IH]; intros r Hwf Hlast; simpl.
  - now rewrite app_nil_r.
  - destruct (set_code_spec r v Hwf) as [Hh Hc].
    assert (Hh' : history (set_code r v) = (history r ++ [v])%list).
    { rewrite Hh, firstn_all2; [reflexivity|]. unfold Py.len in Hlast. lia. }
    destruct (IH (set_code r v)) as [H1 H2].
    + now apply set_code_wf.
    + rewrite Hc, Hh', len_app. unfold Py.len at 2; simpl. lia.
    + rewrite H1, H2, Hh', <- app_assoc. split; reflexivity.
Qed.

(** X3. Committing texts one after another to a fresh result gives the
    history made of the seed followed by the texts in order, with the
    pointer on the last of them, that text current, and nothing to
    redo. *)
Theorem commits_build_history :
  forall d cfg nm tu ip (vs : list string),
    let r := exec (init d cfg nm tu ip) (map Commit vs) in
    history r = seed d :: vs
    /\ current_version r = Py.len vs
    /\ get_code r = Some (last vs (seed d))
    /\ has_redo r = false
    /\ has_undo r = negb (Nat.eqb (List.length vs) 0).
Proof.
  intros d cfg nm tu ip vs r.
  assert (H0 : history (init d cfg nm tu ip) = [seed d]
               /\ current_version (init d cfg nm tu ip) = 0)
    by (unfold init; destruct d; split; reflexivity).
  destruct H0 as [Hh0 Hc0].
  destruct (exec_commits vs (init d cfg nm tu ip)) as [Hh Hc].
  { apply init_wf. }
  { rewrite Hh0, Hc0. reflexivity. }
  fold r in Hh, Hc. rewrite Hh0 in Hh, Hc. simpl in Hh.
  assert (Hc' : current_version r = Py.len vs).
  { rewrite Hc. unfold Py.len. simpl List.length. lia. }
  split; [exact Hh|]. split; [exact Hc'|]. split; [|split].
  - unfold get_code. rewrite Hh, Hc'.
    rewrite index_nonneg by (unfold Py.len; lia).
    unfold Py.len. rewrite Nat2Z.id. apply nth_error_last.
  - unfold has_redo. rewrite Hh, Hc'. apply Z.ltb_ge.
    unfold Py.len. simpl List.length. lia.
  - unfold has_undo. rewrite Hc'. unfold Py.len.
    destruct vs; simpl; [reflexivity|]. apply Z.gtb_lt. lia.
Qed.

(** X4. In every reachable state where there is something to redo, or
    nothing to undo, [redo] followed at once by [undo] returns the text
    that was current before the [redo] and leaves the result as it
    was. *)
Theorem redo_then_undo_roundtrip :
  forall (d : ResultData) (r : t),
    reachable d r ->
    has_redo r = true \/ has_undo r = false ->
    exists text,
      get_code r = Some text
      /\ undo (fst (redo r)) = (r, Some text).
Proof.
  intros d r R Hcase.
  destruct (reachable_inv d r R) as (Hwf & _ & _).
  destruct (index_in_range (history r) (current_version r) Hwf) as [text Ht].
  exists text. split; [exact Ht|].
  destruct Hwf as [H0 H1].
  unfold undo, redo, has_undo, has_redo in *. simpl.
  destruct (current_version r <? Py.len (history r) - 1) eqn:Er; simpl.
  - assert (E : (current_version r + 1 >? 0) = true)
      by (apply Z.gtb_lt; lia).
    rewrite E. simpl.
    replace (current_version r + 1 - 1) with (current_version r) by lia.
    rewrite Ht. f_equal. now destruct r.
  - destruct Hcase as [Hc|Hc]; [discriminate|].
    rewrite Hc. now rewrite Ht.
Qed.

Lemma redo_then_undo_roundtrip_witness :
  exists text,
    get_code back_at_seed = Some text
    /\ undo (fst (redo back_at_seed)) = (back_at_seed, Some text).
Proof.
  apply (redo_then_undo_roundtrip (ErrorData "v1")).
  - unfold back_at_seed. apply exec_reachable. apply reach_init.
  - left. vm_compute. reflexivity.
Defined.

(** X5. A commit made right after [restore_original] drops every entry
    but the seed: the history is then the seeded text followed by the
    committed one. *)
Theorem commit_after_restore_drops_later_history :
  forall (d : ResultData) (r : t) (v : string),
    reachable d r ->
    history (set_code (fst (restore_original r)) v) = [seed d; v]
    /\ current_version (set_code (fst (restore_original r)) v) = 1.
Proof.
  intros d r v R.
  destruct (reachable_inv d r R) as (Hwf & Hhd & _).
  pose proof (restore_original_wf r Hwf) as Hwf1.
  destruct (set_code_spec _ v Hwf1) as [Hh Hc].
  assert (Hv : current_version (fst (restore_original r)) = 0)
    by (unfold restore_original; simpl; now destruct (is_error r)).
  rewrite Hh, Hc, Hv, restore_original_history. split; [|reflexivity].
  rewrite index_nonneg in Hhd by lia. simpl in Hhd.
  destruct (history r) as [|x h]; [discriminate|].
  inversion Hhd. reflexivity.
Qed.

Lemma commit_after_restore_drops_later_history_witness :
  history (set_code (fst (restore_original (exec (seeded "v1") branch_ops)))
             "v5") = ["v1"; "v5"]
  /\ current_version
       (set_code (fst (restore_original (exec (seeded "v1") branch_ops)))
          "v5") = 1.
Proof.
  apply (commit_after_restore_drops_later_history (ErrorData "v1")).
  apply exec_reachable. apply reach_init.
Defined.

Lemma with_version_twice (r : t) (a b : Z) :
  with_version (with_version r a) b = with_version r b.
Proof. reflexivity. Qed.

Lemma exec_undos (n : nat) (r : t) :
  wf r ->
  exec r (repeat Undo n)
  = with_version r (Z.max 0 (current_version r - Z.of_nat n)).
Proof.
  revert r. induction n as [|n IH]; intros r Hwf.
  - simpl. rewrite Z.sub_0_r, Z.max_r by (destruct Hwf; lia).
    symmetry. apply with_version_same.
  - change (exec r (repeat Undo (S n)))
      with (exec (step r Undo) (repeat Undo n)).
    rewrite IH by (now apply step_wf).
    change (step r Undo) with (fst (undo r)).
    unfold undo; cbn [fst].
    destruct (current_version r >? 0) eqn:E.
    + apply Z.gtb_lt in E. rewrite with_version_twice.
      change (current_version (with_version r (current_version r - 1)))
        with (current_version r - 1).
      f_equal. lia.
    + assert (H0 : current_version r = 0).
      { destruct Hwf as [Hlo _].
        destruct (Z.eq_dec (current_version r) 0) as [|Hne]; [assumption|].
        assert (Hgt : (current_version r >? 0) = true)
          by (apply Z.gtb_lt; lia).
        congruence. }
      f_equal. lia.
Qed.

(** X6. From every reachable state, undoing at least as many times as the
    pointer is high lands on the seeded text, with the history
    untouched. *)
Theorem undo_all_the_way_reaches_seed :
  forall (d : ResultData) (r : t) (n : nat),
    reachable d r ->
    current_version r <= Z.of_nat n ->
    current_version (exec r (repeat Undo n)) = 0
    /\ history (exec r (repeat Undo n)) = history r
    /\ get_code (exec r (repeat Undo n)) = Some (seed d).
Proof.
  intros d r n R Hn.
  destruct (reachable_inv d r R) as (Hwf & Hhd & _).
  rewrite exec_undos by exact Hwf.
  rewrite Z.max_l by lia.
  unfold get_code. simpl. auto.
Qed.

Lemma undo_all_the_way_reaches_seed_witness :
  current_version (exec (exec (seeded "v1") branch_ops) (repeat Undo 4)) = 0
  /\ history (exec (exec (seeded "v1") branch_ops) (repeat Undo 4))
     = ["v1"; "v4"]
  /\ get_code (exec (exec (seeded "v1") branch_ops) (repeat Undo 4))
     = Some "v1".
Proof.
  apply (undo_all_the_way_reaches_seed (ErrorData "v1")).
  - apply exec_reachable. apply reach_init.
  - vm_compute. discriminate.
Defined.

(** X7. In every reachable state the result has a current text: reading
    [code], [undo] and [redo] never raise on the history index. *)
Theorem current_text_always_defined :
  forall (d : ResultData) (r : t),
    reachable d r ->
    (exists text, get_code r = Some text)
    /\ (exists text, snd (undo r) = Some text)
    /\ (exists text, snd (redo r) = Some text).
Proof.
  intros d r R.
  destruct (reachable_inv d r R) as (Hwf & _ & _).
  split; [|split].
  - apply index_in_range. exact Hwf.
  - apply (index_in_range (history (fst (undo r)))). now apply undo_wf.
  - apply (index_in_range (history (fst (redo r)))). now apply redo_wf.
Qed.

Lemma current_text_always_defined_witness :
  (exists text, get_code back_at_seed = Some text)
  /\ (exists text, snd (undo back_at_seed) = Some text)
  /\ (exists text, snd (redo back_at_seed) = Some text).
Proof.
  apply (current_text_always_defined (ErrorData "v1")).
  unfold back_at_seed. apply exec_reachable. apply reach_init.
Defined.

End VersionStoreMore.

(** ** The response validator and the chain *)

(** X8. A model is constructed from the answer's fields only when the
    code is present and contains "declarative_base" and the summary is
    present; its code and summary are then the answer's, and its token
    count the answer's or 0.  An absent code, a code without
    "declarative_base" and an absent summary each make the construction
    raise a validation error that names the field and the cause. *)
Theorem validate_succeeds_only_when :
  forall (f : ResponseFields),
    (forall m,
        validate f = inr m ->
        exists c s,
          r_code f = Some c
          /\ Py.contains marker c = true
          /\ r_summary f = Some s
          /\ m = mkModels c s (with_default 0 (r_token_usage f)))
    /\ (r_code f = None ->
        exists es, validate f = inl (ValidationError es)
                   /\ In ("code", Missing) es)
    /\ (forall c,
          r_code f = Some c ->
          Py.contains marker c = false ->
          exists es, validate f = inl (ValidationError es)
                     /\ In ("code", Raised missing_base_msg) es)
    /\ (r_summary f = None ->
        exists es, validate f = inl (ValidationError es)
                   /\ In ("summary", Missing) es).
Proof.
  intros f. split; [|split; [|split]].
  - intros m H. destruct (validate_ok_inv f m H) as (Hc & Hm & Hs & Ht).
    exists (code m), (summary m). repeat split; auto.
    destruct m; simpl in *. now rewrite Ht.
  - intros Hc. unfold validate, required. rewrite Hc.
    eexists. split; [reflexivity|]. left. reflexivity.
  - intros c Hc Hm. rewrite (validate_no_marker f c Hc Hm).
    eexists. split; [reflexivity|]. left. reflexivity.
  - intros Hs. unfold validate, required, code_must_contain_models.
    rewrite Hs.
    destruct (r_code f) as [c|];
      [destruct (negb (Py.contains marker c))|];
      (eexists; split; [reflexivity|]); cbn [errors_of app];
      auto using in_eq, in_cons.
Qed.

Lemma contains_app_l (n a s : string) :
  Py.contains n s = true -> Py.contains n (a ++ s) = true.
Proof.
  rewrite !contains_substring. intros (x & y & ->).
  exists (a ++ x), y. apply eq_sym, app_assoc_str.
Qed.

Lemma invoke_ok_has_marker (svc : Service) (i : nat) (ps : list string)
    (m : SQLAlchemyModels) :
  invoke svc i ps = inr m -> Py.contains marker (code m) = true.
Proof.
  unfold invoke. destruct (respond svc i (upload_files svc i ps)) as [e|a];
    [discriminate|].
  destruct a as [d|f]; simpl; [discriminate|].
  intros H. now destruct (validate_ok_inv f m H) as (_ & Hm & _).
Qed.

(** X9. When the invocation for an image succeeds, the unit's outcome is a
    model whose code is the answer's code under a comment line naming the
    file; that code still contains "declarative_base", the summary is the
    answer's, and the result built from the outcome is no error result and
    has that code as its only history entry. *)
Theorem success_outcome_keeps_marker :
  forall (str : Exn -> string) (svc : Service) (cfg : ModelConfig)
         (i : nat) (img_path : string) (m : SQLAlchemyModels),
    invoke svc i [img_path] = inr m ->
    let text := "# Код для изображения: " ++ OsPath.basename img_path
                  ++ String "010" (code m) in
    separate_unit str svc cfg i img_path
    = result_ready (ModelsData (mkModels text (summary m) (token_usage m)))
        cfg (OsPath.basename img_path) 0 (OnePath img_path)
    /\ Py.contains marker text = true
    /\ (forall r,
          handle_results [separate_unit str svc cfg i img_path] = [r] ->
          ProcessingResult.is_error r = false
          /\ ProcessingResult.history r = [text]
          /\ ProcessingResult.get_code r = Some text
          /\ ProcessingResult.summary r = Some (summary m)).
Proof.
  intros str svc cfg i p m Hinv text.
  assert (Hu : separate_unit str svc cfg i p
               = result_ready
                   (ModelsData (mkModels text (summary m) (token_usage m)))
                   cfg (OsPath.basename p) 0 (OnePath p)).
  { unfold separate_unit. rewrite Hinv. reflexivity. }
  split; [exact Hu|]. split.
  - unfold text.
    change (String "010" (code m)) with (String "010" EmptyString ++ code m).
    rewrite <- !app_assoc_str. apply contains_app_l.
    exact (invoke_ok_has_marker svc i [p] m Hinv).
  - intros r Hr. rewrite Hu in Hr. simpl in Hr. inversion Hr; subst r.
    repeat split; reflexivity.
Qed.

Lemma success_outcome_keeps_marker_witness :
  Py.contains marker
    ("# Код для изображения: " ++ OsPath.basename "uml/a.png"
       ++ String "010" "Base = declarative_base()") = true.
Proof.
  exact (proj1 (proj2 (success_outcome_keeps_marker sample_str sample_service
                         default_config 0 "uml/a.png"
                         (mkModels "Base = declarative_base()" "one table" 0)
                         eq_refl))).
Defined.



(** ** The conversion run, further *)

Lemma in_percents (p : Z) (m : string) (l : list Signal) :
  In (progress p m) l -> In p (percents l).
Proof.
  induction l as [|s l IH]; simpl; [contradiction|].
  intros [->|H]; [now left|].
  destruct s; simpl; auto.
Qed.



(** X12. A run emits the closing progress signal of 100 exactly when the
    chain was built and, in separate mode, every unit was started: a run
    cut short by a stop request, or one whose chain failed to build,
    never reports completion. *)
Theorem completion_signal_iff_run_completed :
  forall (str : Exn -> string) (svc : Service) (cfg : ModelConfig)
         (running : nat -> bool) (image_paths : list string) (mode : string),
    (exists message,
        In (progress 100 message)
          (run str svc cfg running image_paths mode))
    <-> build_failure svc = None
        /\ (String.eqb mode "combined" = true
            \/ started running (List.length image_paths)
               = List.length image_paths).
Proof.
  intros str svc cfg running ps mode. unfold run.
  destruct (build_failure svc) as [e|].
  { split.
    - intros (m & [H|[H|[]]]); discriminate.
    - intros [H _]. discriminate. }
  destruct (String.eqb mode "combined").
  { split; [auto|]. intros _. eexists. simpl. do 4 right. left. reflexivity. }
  destruct (separate_loop_outcomes str svc cfg running (Py.len ps) ps 0)
    as [Hout Hfin].
  destruct (separate_loop_percents str svc cfg running (Py.len ps) ps 0)
    as [Hb _].
  { unfold Py.len. simpl. lia. }
  pose proof (f_equal (@List.length Signal) Hout) as Hl.
  rewrite length_map, length_firstn, length_combine, length_seq in Hl.
  destruct (separate_loop str svc cfg running (Py.len ps) 0 ps)
    as [signals fin] eqn:El.
  simpl in Hout, Hfin, Hb, Hl.
  assert (Hno : forall m, ~ In (progress 100 m) signals).
  { intros m Hin. apply in_percents in Hin.
    rewrite Forall_forall in Hb. specialize (Hb 100 Hin). lia. }
  assert (Hcut : fin = false ->
                 started running (List.length ps) <> List.length ps).
  { intros -> Heq. specialize (Hfin Heq). discriminate. }
  destruct fin.
  - split.
    + intros _. split; [reflexivity|]. right.
      clear - El. unfold started.
      revert El. generalize (Py.len ps), 0%nat. revert signals.
      induction ps as [|p ps IH]; intros signals n i El; [reflexivity|].
      simpl in El. simpl.
      destruct (running i); simpl in El; [|discriminate].
      destruct (separate_loop str svc cfg running n (S i) ps)
        as [later fin'] eqn:E2.
      inversion El; subst. f_equal. eapply IH. exact E2.
    + intros _. eexists. right. right. apply in_or_app. right. now left.
  - split.
    + intros (m & [H|[H|H]]); try discriminate. now apply Hno in H.
    + intros (_ & [H|H]); [discriminate|]. now apply Hcut in H.
Qed.

(** X13. Every result a run hands to the window records a token count of
    0, whatever the model reported, carries the run's configuration, and
    starts with its pointer in range on its only entry. *)
Theorem results_record_zero_tokens :
  forall (str : Exn -> string) (svc : Service) (cfg : ModelConfig)
         (running : nat -> bool) (image_paths : list string) (mode : string)
         (r : ProcessingResult.t),
    In r (handle_results (run str svc cfg running image_paths mode)) ->
    ProcessingResult.token_usage r = 0
    /\ ProcessingResult.config r = cfg
    /\ ProcessingResult.current_version r = 0
    /\ List.length (ProcessingResult.history r) = 1%nat.
Proof.
  intros str svc cfg running ps mode r.
  assert (Hinit : forall d nm ip,
             let r0 := ProcessingResult.init d cfg nm 0 ip in
             ProcessingResult.token_usage r0 = 0
             /\ ProcessingResult.config r0 = cfg
             /\ ProcessingResult.current_version r0 = 0
             /\ List.length (ProcessingResult.history r0) = 1%nat).
  { intros d nm ip. destruct d; repeat split; reflexivity. }
  assert (Hloop : forall rest n i,
             In r (handle_results
                     (fst (separate_loop str svc cfg running n i rest))) ->
             ProcessingResult.token_usage r = 0
             /\ ProcessingResult.config r = cfg
             /\ ProcessingResult.current_version r = 0
             /\ List.length (ProcessingResult.history r) = 1%nat).
  { induction rest as [|p rest IH]; intros n i; simpl; [contradiction|].
    destruct (running i); simpl; [|contradiction].
    specialize (IH n (S i)).
    destruct (separate_loop str svc cfg running n (S i) rest) as [later fin].
    destruct (separate_unit_result str svc cfg i p) as [d ->].
    simpl. intros [<-|H]; [apply Hinit | now apply IH]. }
  assert (Happ : forall l1 l2,
             handle_results (l1 ++ l2)%list
             = (handle_results l1 ++ handle_results l2)%list).
  { induction l1 as [|s l1 IH]; intros l2; simpl; [reflexivity|].
    destruct s; simpl; now rewrite IH. }
  unfold run. destruct (build_failure svc); [simpl; contradiction|].
  destruct (String.eqb mode "combined").
  - destruct (combined_unit_result str svc cfg ps) as [d ->].
    simpl. intros [<-|[]]. apply Hinit.
  - specialize (Hloop ps (Py.len ps) 0%nat).
    destruct (separate_loop str svc cfg running (Py.len ps) 0 ps)
      as [signals fin].
    simpl in Hloop. cbn [handle_results].
    destruct fin; [rewrite Happ; simpl; rewrite app_nil_r|]; exact Hloop.
Qed.

Lemma results_record_zero_tokens_witness :
  ProcessingResult.token_usage
    (ProcessingResult.init
       (ErrorData "❌ Ошибка обработки b.png: timeout")
       default_config "b.png" 0 (OnePath "uml/b.png")) = 0.
Proof.
  refine (proj1 (results_record_zero_tokens sample_str sample_service
                   default_config never_stopped sample_paths "separate"
                   _ _)).
  vm_compute. right. left. reflexivity.
Defined.

Lemma handle_results_outcomes (l : list Signal) :
  handle_results (outcomes l) = handle_results l.
Proof.
  induction l as [|s l IH]; simpl; [reflexivity|].
  destruct s; simpl; now rewrite ?IH.
Qed.

Lemma map_snd_numbered {A : Type} (l : list A) (i : nat) :
  map snd (combine (seq i (List.length l)) l) = l.
Proof.
  revert i. induction l as [|x l IH]; intros i; simpl; [reflexivity|].
  now rewrite IH.
Qed.

(** The outcomes of a separate-mode run whose chain was built. *)
Lemma run_separate_outcomes (str : Exn -> string) (svc : Service)
    (cfg : ModelConfig) (running : nat -> bool) (ps : list string)
    (mode : string) :
  build_failure svc = None ->
  String.eqb mode "combined" = false ->
  outcomes (run str svc cfg running ps mode)
  = map (fun jp => separate_unit str svc cfg (fst jp) (snd jp))
      (firstn (started running (List.length ps)) (numbered ps)).
Proof.
  intros Hb Hm. unfold run. rewrite Hb, Hm.
  destruct (separate_loop_outcomes str svc cfg running (Py.len ps) ps 0)
    as [Ho _].
  destruct (separate_loop str svc cfg running (Py.len ps) 0 ps)
    as [signals fin].
  simpl in Ho. cbn [outcomes].
  destruct fin; [rewrite outcomes_app; cbn [outcomes]; rewrite app_nil_r|];
    exact Ho.
Qed.

Lemma unit_results_names (str : Exn -> string) (svc : Service)
    (cfg : ModelConfig) (xs : list (nat * string)) :
  map (fun r => (ProcessingResult.image_name r, ProcessingResult.image_path r))
    (handle_results
       (map (fun jp => separate_unit str svc cfg (fst jp) (snd jp)) xs))
  = map (fun jp => (OsPath.basename (snd jp), OnePath (snd jp))) xs.
Proof.
  induction xs as [|[j p] xs IH]; simpl; [reflexivity|].
  destruct (separate_unit_result str svc cfg j p) as [d ->].
  simpl. rewrite IH. now destruct d.
Qed.

(** X14. A folder scan followed by a separate-mode run: the results the
    window collects are named, in listing order, after the supported
    entries of the directory listing, one per unit started, and each
    carries the joined path of its entry. *)
Theorem scanned_names_reach_results :
  forall (str : Exn -> string) (svc : Service) (cfg : ModelConfig)
         (running : nat -> bool) (fs : FileSystem) (folder mode : string)
         (image_paths : list string),
    process_folder fs folder = inr image_paths ->
    Forall plain_name (listdir fs folder) ->
    build_failure svc = None ->
    String.eqb mode "combined" = false ->
    map (fun r => (ProcessingResult.image_name r, ProcessingResult.image_path r))
      (handle_results (run str svc cfg running image_paths mode))
    = firstn (started running (List.length image_paths))
        (map (fun f => (f, OnePath (OsPath.join folder f)))
           (filter is_supported (listdir fs folder))).
Proof.
  intros str svc cfg running fs folder mode ps Hscan Hplain Hb Hm.
  rewrite <- handle_results_outcomes.
  rewrite (run_separate_outcomes str svc cfg running ps mode Hb Hm).
  rewrite unit_results_names.
  unfold process_folder in Hscan.
  destruct (isdir fs folder); simpl in Hscan; [|discriminate].
  inversion Hscan as [Hps]. clear Hscan.
  set (entries := filter is_supported (listdir fs folder)) in *.
  assert (Hent : Forall plain_name entries).
  { rewrite Forall_forall in *. intros f Hf. apply Hplain.
    unfold entries in Hf. apply filter_In in Hf. tauto. }
  rewrite <- firstn_map. f_equal.
  unfold numbered.
  rewrite <- (map_map snd
                (fun p => (OsPath.basename p, OnePath p))).
  rewrite map_snd_numbered, map_map.
  clear - Hent. induction Hent as [|f l Hf _ IH]; simpl; [reflexivity|].
  rewrite IH. f_equal.
  destruct (join_shape folder f Hf) as (pre & -> & Hpre).
  now rewrite basename_app.
Qed.

Lemma scanned_names_reach_results_witness :
  map (fun r => (ProcessingResult.image_name r, ProcessingResult.image_path r))
    (handle_results
       (run sample_str sample_service default_config never_stopped
          ["uml/a.png"; "uml/c.JPG"] "separate"))
  = [("a.png", OnePath "uml/a.png"); ("c.JPG", OnePath "uml/c.JPG")].
Proof.
  apply (scanned_names_reach_results sample_str sample_service default_config
           never_stopped sample_fs "uml" "separate"
           ["uml/a.png"; "uml/c.JPG"]).
  - reflexivity.
  - vm_compute. repeat constructor.
  - reflexivity.
  - reflexivity.
Defined.

(** ** The folder scan, further *)

Lemma lower_ascii_idem (a : ascii) :
  Py.lower_ascii (Py.lower_ascii a) = Py.lower_ascii a.
Proof.
  destruct a as [[] [] [] [] [] [] [] []]; reflexivity.
Qed.

Lemma lower_ascii_eqb_sep (a : ascii) :
  Ascii.eqb (Py.lower_ascii a) OsPath.sep = Ascii.eqb a OsPath.sep.
Proof.
  destruct a as [[] [] [] [] [] [] [] []]; reflexivity.
Qed.

Lemma lower_ascii_eqb_extsep (a : ascii) :
  Ascii.eqb (Py.lower_ascii a) OsPath.extsep = Ascii.eqb a OsPath.extsep.
Proof.
  destruct a as [[] [] [] [] [] [] [] []]; reflexivity.
Qed.

Lemma lower_idem (s : string) : Py.lower (Py.lower s) = Py.lower s.
Proof.
  induction s as [|a s IH]; simpl; [reflexivity|].
  now rewrite lower_ascii_idem, IH.
Qed.

Lemma after_last_lower_sep (s : string) :
  Py.after_last OsPath.sep (Py.lower s) = Py.after_last OsPath.sep s.
Proof.
  induction s as [|a s IH]; simpl; [reflexivity|].
  now rewrite IH, lower_ascii_eqb_sep.
Qed.

Lemma after_last_lower_extsep (s : string) :
  Py.after_last OsPath.extsep (Py.lower s) = Py.after_last OsPath.extsep s.
Proof.
  induction s as [|a s IH]; simpl; [reflexivity|].
  now rewrite IH, lower_ascii_eqb_extsep.
Qed.

Lemma lower_take (n : nat) (s : string) :
  Py.take n (Py.lower s) = Py.lower (Py.take n s).
Proof.
  revert s. induction n as [|n IH]; intros [|a s]; simpl; auto.
  now rewrite IH.
Qed.

Lemma lower_drop (n : nat) (s : string) :
  Py.drop n (Py.lower s) = Py.lower (Py.drop n s).
Proof.
  revert s. induction n as [|n IH]; intros [|a s]; simpl; auto.
Qed.

Lemma all_dots_lower (s : string) :
  OsPath.all_dots (Py.lower s) = OsPath.all_dots s.
Proof.
  induction s as [|a s IH]; simpl; [reflexivity|].
  now rewrite IH, lower_ascii_eqb_extsep.
Qed.

(** Lowering a path lowers its extension and nothing else about the
    split. *)
Lemma splitext_lower (p : string) :
  snd (OsPath.splitext (Py.lower p)) = Py.lower (snd (OsPath.splitext p)).
Proof.
  unfold OsPath.splitext.
  rewrite after_last_lower_sep, after_last_lower_extsep.
  destruct (Py.after_last OsPath.sep p <? Py.after_last OsPath.extsep p)%nat;
    [|reflexivity].
  rewrite lower_drop, lower_take, all_dots_lower.
  destruct (OsPath.all_dots _); simpl; [reflexivity|].
  apply lower_drop.
Qed.



(** X16. A name without a dot is never selected, and neither is a name
    whose only dot is its first character, whatever follows the dot: a
    file called .png has no extension. *)
Theorem names_without_extension_are_skipped :
  forall f : string,
    (Py.after_last OsPath.extsep f = 0%nat -> is_supported f = false)
    /\ (Py.after_last OsPath.extsep f = 0%nat ->
        Py.after_last OsPath.sep f = 0%nat ->
        is_supported (String OsPath.extsep f) = false).
Proof.
  intros f. split.
  - intros Hd. unfold is_supported, OsPath.splitext. rewrite Hd.
    rewrite Nat.ltb_irrefl || idtac.
    destruct (Py.after_last OsPath.sep f <? 0)%nat eqn:E;
      [apply Nat.ltb_lt in E; lia | reflexivity].
  - intros Hd Hs. unfold is_supported, OsPath.splitext.
    cbn [Py.after_last]. rewrite Hd, Hs.
    rewrite Ascii.eqb_refl.
    change (Ascii.eqb OsPath.extsep OsPath.sep) with false.
    reflexivity.
Qed.

Lemma names_without_extension_are_skipped_witness :
  is_supported "README" = false /\ is_supported ".png" = false.
Proof.
  split.
  - apply (proj1 (names_without_extension_are_skipped "README")).
    reflexivity.
  - apply (proj2 (names_without_extension_are_skipped "png"));
      reflexivity.
Defined.

(** ** The prompt placeholder *)

(** X17. After the placeholder check the prompt always contains
    {format_instructions}; a prompt that already contained it is left as
    it is, without warning; otherwise the prompt keeps its text and gains
    the placeholder after a blank line, with a warning.  Checking twice is
    the same as checking once. *)
Theorem placeholder_always_present :
  forall system_prompt : string,
    Py.contains placeholder (fst (ensure_placeholder system_prompt)) = true
    /\ (Py.contains placeholder system_prompt = true ->
        ensure_placeholder system_prompt = (system_prompt, false))
    /\ (Py.contains placeholder system_prompt = false ->
        ensure_placeholder system_prompt
        = (system_prompt ++ String "010" (String "010" placeholder), true))
    /\ ensure_placeholder (fst (ensure_placeholder system_prompt))
       = (fst (ensure_placeholder system_prompt), false).
Proof.
  intros p.
  assert (Hc : Py.contains placeholder (fst (ensure_placeholder p)) = true).
  { unfold ensure_placeholder.
    destruct (Py.contains placeholder p) eqn:E; simpl; [exact E|].
    apply contains_substring.
    exists (p ++ String "010" (String "010" EmptyString)), EmptyString.
    rewrite app_assoc_str. reflexivity. }
  split; [exact Hc|]. split; [|split].
  - intros E. unfold ensure_placeholder. now rewrite E.
  - intros E. unfold ensure_placeholder. now rewrite E.
  - unfold ensure_placeholder at 1. now rewrite Hc.
Qed.

Lemma placeholder_always_present_witness :
  ensure_placeholder "Draw the models. {format_instructions}"
  = ("Draw the models. {format_instructions}", false).
Proof.
  apply (proj1 (proj2 (placeholder_always_present
                         "Draw the models. {format_instructions}"))).
  reflexivity.
Defined.

(** ** The standalone validator *)

Section SqlValidatorFacts.

Import SqlValidator.

Variable ast_parse : string -> option SyntaxError.

(** X18. What [validate_sqlalchemy_code] returns: the code counts as
    syntactically valid exactly when it parses, the base class as found
    exactly when it parses and contains declarative_base; there is at most
    one error and there are at most three warnings; the error list is
    empty exactly when both flags are set; and after a syntax error
    nothing else is checked, so no other flag is set and no warning is
    given. *)
Theorem validator_result_shape :
  forall code : string,
    let r := fst (validate_sqlalchemy_code ast_parse code) in
    (syntax_valid r = true <-> ast_parse code = None)
    /\ (base_class_found r = true
        <-> ast_parse code = None
            /\ Py.contains "declarative_base" code = true)
    /\ (errors r = []
        <-> syntax_valid r = true /\ base_class_found r = true)
    /\ (List.length (errors r) <= 1)%nat
    /\ (List.length (warnings r) <= 3)%nat
    /\ (syntax_valid r = false ->
        base_class_found r = false
        /\ columns_found r = false
        /\ relationships_found r = false
        /\ warnings r = []
        /\ List.length (errors r) = 1%nat).
Proof.
  intros code r. subst r. unfold validate_sqlalchemy_code.
  set (mi := missing_from code required_imports). clearbody mi.
  destruct (ast_parse code) as [e|]; simpl.
  { repeat split; intros; try discriminate; try lia; intuition discriminate. }
  destruct (Py.contains "declarative_base" code);
    destruct (Py.contains "Column(" code);
    destruct (Py.contains "relationship(" code);
    destruct mi;
    simpl; repeat split; intros; try discriminate; try lia;
    try reflexivity; intuition discriminate.
Qed.

Lemma verdict_of_validation (code : string) :
  verdict (fst (validate_sqlalchemy_code ast_parse code))
  = match ast_parse code with
    | None => if Py.contains "declarative_base" code
              then verdict_valid else verdict_invalid
    | Some _ => verdict_invalid
    end.
Proof.
  unfold validate_sqlalchemy_code, verdict.
  set (mi := missing_from code required_imports). clearbody mi.
  destruct (ast_parse code) as [e|]; simpl; [reflexivity|].
  destruct (Py.contains "declarative_base" code);
    destruct (Py.contains "Column(" code);
    destruct (Py.contains "relationship(" code);
    destruct mi;
    reflexivity.
Qed.

Lemma printed_is_not_needs_work (code x : string) :
  In x (snd (validate_sqlalchemy_code ast_parse code)) ->
  x <> verdict_needs_work.
Proof.
  unfold validate_sqlalchemy_code.
  set (mi := missing_from code required_imports). clearbody mi.
  destruct (ast_parse code) as [e|]; simpl.
  { intros [<-|[]]. discriminate. }
  destruct (Py.contains "declarative_base" code);
    destruct (Py.contains "Column(" code);
    destruct (Py.contains "relationship(" code);
    destruct mi;
    simpl; intros H;
    repeat (destruct H as [<-|H]; [discriminate|]);
    contradiction.
Qed.

Variable strip : string -> string.

(** X19. The validator never gives its middle verdict: for code that
    parses and contains declarative_base the verdict is that the code is
    valid, for all other code that it is invalid, and the line saying the
    code needs work is never printed by [main], whatever is typed in. *)
Theorem needs_work_verdict_is_unreachable :
  (forall code : string,
      verdict (fst (validate_sqlalchemy_code ast_parse code))
      = match ast_parse code with
        | None => if Py.contains "declarative_base" code
                  then verdict_valid else verdict_invalid
        | Some _ => verdict_invalid
        end)
  /\ (forall input : list string,
         ~ In verdict_needs_work (main ast_parse strip input)).
Proof.
  split; [exact verdict_of_validation|].
  intros input Hin. unfold main in Hin.
  destruct (read_code strip input) as [|l ls].
  { simpl in Hin.
    repeat (destruct Hin as [Hin|Hin]; [discriminate|]). contradiction. }
  pose proof (verdict_of_validation
                (Py.join (String "010" EmptyString) (l :: ls))) as Hv.
  pose proof (printed_is_not_needs_work
                (Py.join (String "010" EmptyString) (l :: ls))) as Hp.
  destruct (validate_sqlalchemy_code ast_parse
              (Py.join (String "010" EmptyString) (l :: ls)))
    as [results printed].
  cbn [fst snd] in Hv, Hp.
  apply in_app_or in Hin. destruct Hin as [Hin|Hin].
  { simpl in Hin.
    repeat (destruct Hin as [Hin|Hin]; [discriminate|]). contradiction. }
  apply in_app_or in Hin. destruct Hin as [Hin|Hin].
  { simpl in Hin.
    repeat (destruct Hin as [Hin|Hin]; [discriminate|]). contradiction. }
  apply in_app_or in Hin. destruct Hin as [Hin|Hin].
  { now apply Hp in Hin. }
  simpl in Hin. destruct Hin as [Hin|[Hin|[Hin|[]]]]; try discriminate.
  rewrite Hv in Hin.
  unfold verdict_valid, verdict_invalid, verdict_needs_work in Hin.
  destruct (ast_parse (Py.join (String "010" EmptyString) (l :: ls)));
    [discriminate|].
  destruct (Py.contains "declarative_base"
              (Py.join (String "010" EmptyString) (l :: ls)));
    discriminate.
Qed.

(** X20. Code that the pipeline accepted passes the standalone validator:
    for a model constructed from the service's answer, the code, also
    under any text put in front of it such as the comment line naming the
    image, has its base class found, gives no error and gets the verdict
    valid, provided it parses. *)
Theorem pipeline_code_passes_validator :
  forall (f : ResponseFields) (m : SQLAlchemyModels) (front : string),
    validate f = inr m ->
    ast_parse (front ++ code m) = None ->
    let r := fst (validate_sqlalchemy_code ast_parse (front ++ code m)) in
    syntax_valid r = true
    /\ base_class_found r = true
    /\ errors r = []
    /\ verdict r = verdict_valid.
Proof.
  intros f m front Hv Hp r.
  destruct (validate_ok_inv f m Hv) as (_ & Hm & _).
  assert (Hc : Py.contains "declarative_base" (front ++ code m) = true)
    by (apply contains_app_l; exact Hm).
  assert (Hverdict : verdict r = verdict_valid)
    by (unfold r; rewrite verdict_of_validation, Hp, Hc; reflexivity).
  subst r. revert Hverdict. unfold validate_sqlalchemy_code.
  set (mi := missing_from (front ++ code m) required_imports). clearbody mi.
  rewrite Hp, Hc. intros Hverdict.
  destruct (Py.contains "Column(" (front ++ code m));
    destruct (Py.contains "relationship(" (front ++ code m));
    destruct mi; repeat split; try reflexivity; exact Hverdict.
Qed.

End SqlValidatorFacts.

Lemma pipeline_code_passes_validator_witness :
  SqlValidator.verdict
    (fst (SqlValidator.validate_sqlalchemy_code (fun _ => None)
            ("# a.png" ++ String "010" "Base = declarative_base()")))
  = SqlValidator.verdict_valid.
Proof.
  exact (proj2 (proj2 (proj2
           (pipeline_code_passes_validator (fun _ => None) no_usage_fields
              (mkModels "Base = declarative_base()" "one table" 0)
              ("# a.png" ++ String "010" EmptyString)
              eq_refl eq_refl)))).
Defined.

(** ** Saving *)

Lemma split_char_cons (c : ascii) (s : string) :
  exists l ls, Py.split_char c s = l :: ls.
Proof.
  destruct s as [|a s]; simpl; [eauto|].
  destruct (Ascii.eqb a c); [eauto|].
  destruct (Py.split_char c s); eauto.
Qed.

Lemma join_cons (sep p : string) (l : string) (ls : list string) :
  Py.join sep (p :: l :: ls) = p ++ sep ++ Py.join sep (l :: ls).
Proof. reflexivity. Qed.

Lemma app_empty_r (s : string) : s ++ EmptyString = s.
Proof. induction s as [|a s IH]; simpl; [reflexivity | now rewrite IH]. Qed.

(** Splitting at a character and joining with it gives the text back. *)
Lemma join_split_char (c : ascii) (s : string) :
  Py.join (String c EmptyString) (Py.split_char c s) = s.
Proof.
  induction s as [|a s IH]; [reflexivity|].
  cbn [Py.split_char].
  destruct (split_char_cons c s) as (l & ls & E). rewrite E in *.
  destruct (Ascii.eqb a c) eqn:Ea.
  - apply Ascii.eqb_eq in Ea. subst a.
    rewrite join_cons, IH. reflexivity.
  - destruct ls as [|l' ls].
    + simpl in *. now rewrite IH.
    + rewrite join_cons in *. cbn [append] in *. now rewrite IH.
Qed.

Lemma split_char_no_sep (c : ascii) (s : string) :
  Forall (fun l => Py.after_last c l = 0%nat) (Py.split_char c s).
Proof.
  induction s as [|a s IH]; simpl; [repeat constructor|].
  destruct (Ascii.eqb a c) eqn:Ea; [constructor; [reflexivity | exact IH]|].
  destruct (Py.split_char c s) as [|l ls]; [repeat constructor; simpl; now rewrite Ea|].
  inversion IH; subst. constructor; [|assumption].
  simpl. rewrite H1, Ea. reflexivity.
Qed.

(** Replacing each newline by a newline and a prefix puts the prefix in
    front of every line but the first. *)
Lemma replace_newline_lines (pre t : string) :
  pre ++ Py.replace_char "010" (newline ++ pre) t
  = Py.join newline (map (append pre) (Py.split_char "010" t)).
Proof.
  induction t as [|a t IH]; [reflexivity|].
  cbn [Py.replace_char Py.split_char].
  destruct (split_char_cons "010" t) as (l & ls & E). rewrite E in *.
  destruct (Ascii.eqb a "010") eqn:Ea.
  - cbn [map]. cbn [map] in IH. rewrite join_cons.
    rewrite app_empty_r. rewrite <- IH.
    now rewrite app_assoc_str.
  - cbn [map] in *. destruct ls as [|l' ls].
    + cbn [map Py.join] in *.
      apply app_cancel_l in IH. rewrite IH.
      clear. induction pre; simpl; congruence.
    + cbn [map] in *. rewrite join_cons in *.
      rewrite app_assoc_str in IH. apply app_cancel_l in IH. rewrite IH.
      rewrite app_assoc_str.
      clear. induction pre; simpl; congruence.
Qed.

Section SavingFacts.

Variable strip : string -> string.

(** X21. The comment block written before saved code is the stripped
    summary with "# " put in front of each of the pieces into which the
    line-feed character splits it, followed by a blank line; the pieces
    hold no line feed themselves, so every line feed of the summary is
    followed by "# ".  The file [save_results] writes is that block
    followed by the code; it is written under the given name when that
    name is not empty, and, when no name or the empty name is given,
    under a name made from the model's name with dashes turned into
    underscores. *)
Theorem summary_comment_covers_every_line :
  forall (models : SQLAlchemyModels) (config : ModelConfig)
         (output_filename : option string),
    let lines := Py.split_char "010" (strip (summary models)) in
    let default_name :=
      "models_" ++ Py.replace_char "-" "_" (name config) ++ ".py" in
    summary_comment strip (summary models)
    = Py.join newline (map (append "# ") lines) ++ newline ++ newline
    /\ Py.join newline lines = strip (summary models)
    /\ Forall (fun l => Py.after_last "010" l = 0%nat) lines
    /\ snd (fst (save_results strip models config output_filename))
       = summary_comment strip (summary models) ++ code models
    /\ fst (fst (save_results strip models config None)) = default_name
    /\ fst (fst (save_results strip models config (Some EmptyString)))
       = default_name
    /\ (forall given,
          given <> EmptyString ->
          fst (fst (save_results strip models config (Some given))) = given).
Proof.
  intros models config output_filename lines default_name.
  subst lines default_name.
  split; [|split; [|split; [|split; [|split; [|split]]]]].
  - unfold summary_comment.
    rewrite <- replace_newline_lines.
    now rewrite !app_assoc_str.
  - apply join_split_char.
  - apply split_char_no_sep.
  - unfold save_results.
    destruct output_filename as [[|a g]|]; reflexivity.
  - reflexivity.
  - reflexivity.
  - intros given Hg. unfold save_results.
    destruct given as [|a g]; [now elim Hg|reflexivity].
Qed.

End SavingFacts.

Example summary_comment_sample :
  summary_comment (fun s => s) ("Users and posts" ++ newline ++ "one to many")
  = "# Users and posts" ++ newline ++ "# one to many" ++ newline ++ newline.
Proof. reflexivity. Qed.

Lemma current_text_defined_aux (d : ResultData) (r : ProcessingResult.t) :
  ProcessingResult.reachable d r ->
  exists c, ProcessingResult.get_code r = Some c.
Proof.
  intros R. destruct (reachable_inv d r R) as (Hwf & _ & _).
  apply index_in_range. exact Hwf.
Qed.

Section SaveAllFacts.

Variable strip : string -> string.
Variable str_save : SaveError -> string.
Variable open_w : string -> option Exn.

Lemma step_data_flag (r : ProcessingResult.t) (o : ProcessingResult.op) :
  ProcessingResult.data (ProcessingResult.step r o) = ProcessingResult.data r
  /\ ProcessingResult.is_error (ProcessingResult.step r o)
     = ProcessingResult.is_error r.
Proof.
  destruct o; simpl;
    unfold ProcessingResult.set_code, ProcessingResult.undo,
      ProcessingResult.redo, ProcessingResult.restore_original; simpl.
  - destruct (Py.len (ProcessingResult.history r)
              =? ProcessingResult.current_version r + 1); split; reflexivity.
  - destruct (ProcessingResult.current_version r >? 0); split; reflexivity.
  - destruct (ProcessingResult.current_version r
              <? Py.len (ProcessingResult.history r) - 1); split; reflexivity.
  - destruct (ProcessingResult.is_error r) eqn:E; simpl; split; auto.
  - split; reflexivity.
  - split; reflexivity.
Qed.

(** A reachable result that is no error result has a summary. *)
Lemma reachable_summary (d : ResultData) (r : ProcessingResult.t) :
  ProcessingResult.reachable d r ->
  ProcessingResult.is_error r = false ->
  exists s, ProcessingResult.summary r = Some s.
Proof.
  intros R.
  assert (H : ProcessingResult.data r = d
              /\ ProcessingResult.is_error r
                 = match d with ErrorData _ => true | ModelsData _ => false end).
  { induction R as [cfg nm tu ip | r o _ [Hd He]].
    - unfold ProcessingResult.init. destruct d; split; reflexivity.
    - destruct (step_data_flag r o) as [-> ->]. auto. }
  destruct H as [Hd He]. intros Hf.
  unfold ProcessingResult.summary. rewrite Hf, Hd.
  destruct d; [eauto|]. rewrite Hf in He. discriminate.
Qed.

(** Each iteration adds one to exactly one of the two counters. *)
Lemma save_one_counts (save_dir : string) (ev : list SaveEvent) (sc ec : Z)
    (r : ProcessingResult.t) :
  let '(_, sc', ec') := save_one strip str_save open_w save_dir (ev, sc, ec) r in
  sc' + ec' = sc + ec + 1 /\ sc <= sc' /\ ec <= ec'.
Proof.
  unfold save_one.
  destruct (open_w _); [lia|].
  unfold write_result.
  destruct (ProcessingResult.is_error r).
  - destruct (ProcessingResult.get_code r); lia.
  - destruct (ProcessingResult.summary r); [|lia].
    destruct (ProcessingResult.get_code r); lia.
Qed.

Lemma save_fold_counts (save_dir : string) (results : list ProcessingResult.t)
    (ev : list SaveEvent) (sc ec : Z) :
  let '(_, sc', ec') :=
    fold_left (save_one strip str_save open_w save_dir) results (ev, sc, ec) in
  sc' + ec' = sc + ec + Py.len results /\ sc <= sc' /\ ec <= ec'.
Proof.
  revert ev sc ec. induction results as [|r results IH]; intros ev sc ec.
  - simpl. unfold Py.len. simpl. lia.
  - cbn [fold_left].
    pose proof (save_one_counts save_dir ev sc ec r) as H1.
    destruct (save_one strip str_save open_w save_dir (ev, sc, ec) r)
      as [[ev1 sc1] ec1].
    specialize (IH ev1 sc1 ec1).
    destruct (fold_left (save_one strip str_save open_w save_dir) results
                (ev1, sc1, ec1)) as [[ev2 sc2] ec2].
    unfold Py.len in *. simpl List.length. lia.
Qed.

(** With every file opening and every result reachable, the successes
    are the results that are no error results. *)
Lemma save_fold_good (save_dir : string) (results : list ProcessingResult.t)
    (ev : list SaveEvent) (sc ec : Z) :
  (forall r, In r results ->
             open_w (OsPath.join save_dir (save_all_filename r)) = None
             /\ exists d, ProcessingResult.reachable d r) ->
  let '(_, sc', ec') :=
    fold_left (save_one strip str_save open_w save_dir) results (ev, sc, ec) in
  sc' = sc + Py.len (filter (fun r => negb (ProcessingResult.is_error r))
                       results)
  /\ ec' = ec + Py.len (filter ProcessingResult.is_error results).
Proof.
  revert ev sc ec. induction results as [|r results IH]; intros ev sc ec Hall.
  - simpl. unfold Py.len. simpl. lia.
  - cbn [fold_left].
    destruct (Hall r (or_introl eq_refl)) as [Hopen [d R]].
    destruct (current_text_defined_aux d r R) as [c Hc].
    assert (Hstep : exists ev1,
               save_one strip str_save open_w save_dir (ev, sc, ec) r
               = (ev1,
                  sc + (if ProcessingResult.is_error r then 0 else 1),
                  ec + (if ProcessingResult.is_error r then 1 else 0))).
    { unfold save_one. rewrite Hopen. unfold write_result. rewrite Hc.
      destruct (ProcessingResult.is_error r) eqn:Er; [eauto|].
      destruct (reachable_summary d r R Er) as [s ->]. eauto. }
    destruct Hstep as [ev1 ->].
    specialize (IH ev1 (sc + (if ProcessingResult.is_error r then 0 else 1))
                  (ec + (if ProcessingResult.is_error r then 1 else 0))).
    destruct (fold_left _ results _) as [[ev2 sc2] ec2].
    destruct IH as [H1 H2]; [intros q Hq; apply Hall; now right|].
    cbn [filter]. unfold Py.len in *.
    destruct (ProcessingResult.is_error r); simpl; lia.
Qed.


End SaveAllFacts.


Lemma take_app_length (a b : string) :
  Py.take (String.length a) (a ++ b) = a.
Proof. induction a as [|x a IH]; simpl; [now destruct b | now rewrite IH]. Qed.

(** Splitting a plain name made of a stem, a dot and an extension gives
    the stem and the dotted extension back. *)
Lemma splitext_stem_ext (stem e : string) :
  Py.after_last OsPath.sep stem = 0%nat ->
  OsPath.all_dots stem = false ->
  Py.after_last OsPath.sep e = 0%nat ->
  Py.after_last OsPath.extsep e = 0%nat ->
  OsPath.splitext (stem ++ String OsPath.extsep e)
  = (stem, String OsPath.extsep e).
Proof.
  intros Hs Hd Hes Hee. unfold OsPath.splitext.
  rewrite !after_last_app.
  assert (H1 : Py.after_last OsPath.sep (String OsPath.extsep e) = 0%nat)
    by (simpl; rewrite Hes; reflexivity).
  assert (H2 : Py.after_last OsPath.extsep (String OsPath.extsep e) = 1%nat)
    by (simpl; rewrite Hee; reflexivity).
  rewrite H1, H2, Hs.
  assert (E : (0 <? String.length stem + 1)%nat = true)
    by (apply Nat.ltb_lt; lia).
  rewrite E.
  replace (String.length stem + 1 - 1 - 0)%nat with (String.length stem)
    by lia.
  replace (String.length stem + 1 - 1)%nat with (String.length stem) by lia.
  cbn [Py.drop]. rewrite take_app_length, Hd.
  f_equal. rewrite <- (Nat.add_0_r (String.length stem)).
  apply drop_app_length.
Qed.

(** X23. The file a result is saved under depends on the stem of its
    image name only: for a name made of a stem, a dot and an extension the
    file is the stem followed by _orm.py, so two results whose images
    differ in the extension alone are saved to the same file. *)
Theorem same_stem_same_saved_file :
  forall (r1 r2 : ProcessingResult.t) (stem e1 e2 : string),
    Py.after_last OsPath.sep stem = 0%nat ->
    OsPath.all_dots stem = false ->
    Py.after_last OsPath.sep e1 = 0%nat ->
    Py.after_last OsPath.extsep e1 = 0%nat ->
    Py.after_last OsPath.sep e2 = 0%nat ->
    Py.after_last OsPath.extsep e2 = 0%nat ->
    ProcessingResult.image_name r1 = stem ++ String OsPath.extsep e1 ->
    ProcessingResult.image_name r2 = stem ++ String OsPath.extsep e2 ->
    save_all_filename r1 = stem ++ "_orm.py"
    /\ save_all_filename r2 = save_all_filename r1.
Proof.
  intros r1 r2 stem e1 e2 Hs Hd Hs1 He1 Hs2 He2 Hn1 Hn2.
  assert (Hname : forall e,
             Py.after_last OsPath.extsep e = 0%nat ->
             String.eqb (stem ++ String OsPath.extsep e) "combined" = false).
  { intros e He. apply String.eqb_neq. intros Heq.
    apply (f_equal (Py.after_last OsPath.extsep)) in Heq.
    rewrite after_last_app in Heq. simpl in Heq. rewrite He in Heq.
    simpl in Heq. lia. }
  unfold save_all_filename. rewrite Hn1, Hn2.
  rewrite !Hname by assumption.
  rewrite !splitext_stem_ext by assumption.
  split; reflexivity.
Qed.

Lemma same_stem_same_saved_file_witness :
  save_all_filename
    (ProcessingResult.init (ErrorData "e") default_config "a.png" 0 NoPath)
  = "a_orm.py"
  /\ save_all_filename
       (ProcessingResult.init (ErrorData "e") default_config "a.jpg" 0 NoPath)
     = save_all_filename
         (ProcessingResult.init (ErrorData "e") default_config "a.png" 0 NoPath).
Proof.
  apply (same_stem_same_saved_file _ _ "a" "png" "jpg"); reflexivity.
Defined.

(** ** The results panel *)

Lemma index_In {A : Type} (l : list A) (i : Z) (x : A) :
  Py.index l i = Some x -> In x l.
Proof.
  unfold Py.index.
  destruct ((if i <? 0 then i + Py.len l else i) <? 0); [discriminate|].
  apply nth_error_In.
Qed.

Lemma set_nth_length {A : Type} (l : list A) (n : nat) (x : A) :
  List.length (set_nth l n x) = List.length l.
Proof.
  revert n. induction l as [|a l IH]; intros [|n]; simpl; auto.
Qed.

Lemma set_index_len {A : Type} (l : list A) (i : Z) (x : A) :
  Py.len (set_index l i x) = Py.len l.
Proof.
  unfold set_index, Py.len.
  destruct ((if i <? 0 then i + Z.of_nat (List.length l) else i) <? 0);
    [reflexivity|].
  now rewrite set_nth_length.
Qed.

Lemma set_nth_same {A : Type} (l : list A) (n : nat) (x : A) :
  (n < List.length l)%nat -> nth_error (set_nth l n x) n = Some x.
Proof.
  revert n. induction l as [|a l IH]; intros [|n] H; simpl in *;
    try lia; auto.
  apply IH. lia.
Qed.

Lemma set_nth_other {A : Type} (l : list A) (n m : nat) (x : A) :
  n <> m -> nth_error (set_nth l n x) m = nth_error l m.
Proof.
  revert n m. induction l as [|a l IH]; intros [|n] [|m] H; simpl; auto.
  congruence.
Qed.

Lemma set_nth_Forall {A : Type} (P : A -> Prop) (l : list A) (n : nat)
    (x : A) :
  Forall P l -> P x -> Forall P (set_nth l n x).
Proof.
  intros Hl Hx. revert n. induction Hl as [|a l Ha Hl IH]; intros [|n];
    simpl; constructor; auto.
Qed.

Lemma set_index_same {A : Type} (l : list A) (i : Z) (x : A) :
  0 <= i < Py.len l -> Py.index (set_index l i x) i = Some x.
Proof.
  intros [H0 H1]. rewrite index_nonneg by assumption.
  unfold set_index.
  destruct (i <? 0) eqn:E; [apply Z.ltb_lt in E; lia|]. rewrite E.
  apply set_nth_same. unfold Py.len in H1. lia.
Qed.

Lemma set_index_Forall {A : Type} (P : A -> Prop) (l : list A) (i : Z)
    (x : A) :
  Forall P l -> P x -> Forall P (set_index l i x).
Proof.
  intros Hl Hx. unfold set_index.
  destruct ((if i <? 0 then i + Py.len l else i) <? 0); [assumption|].
  now apply set_nth_Forall.
Qed.

Lemma index_app_l {A : Type} (l l' : list A) (i : Z) :
  0 <= i < Py.len l -> Py.index (l ++ l')%list i = Py.index l i.
Proof.
  intros [H0 H1]. rewrite !index_nonneg by assumption.
  apply nth_error_app1. unfold Py.len in H1. lia.
Qed.

Lemma len_pos_nonempty {A : Type} (l : list A) :
  Window.nonempty l = (Py.len l >? 0).
Proof. destruct l; [reflexivity|]. unfold Py.len. simpl. reflexivity. Qed.

Lemma reachable_code (r : ProcessingResult.t) :
  (exists d, ProcessingResult.reachable d r) ->
  exists c, ProcessingResult.get_code r = Some c.
Proof. intros [d R]. exact (current_text_defined_aux d r R). Qed.

Ltac wcbn :=
  cbn [Window.results Window.current_result_index Window.code_view
       Window.code_read_only Window.results_info Window.token_info
       Window.result_counter Window.result_counter_enabled
       Window.prev_result_btn Window.next_result_btn Window.save_code_btn
       Window.save_all_btn Window.edit_btn Window.save_edit_btn
       Window.cancel_edit_btn Window.restore_btn Window.undo_btn
       Window.redo_btn Window.log
       Window.set_results Window.set_current_result_index
       Window.set_code_view Window.set_code_read_only
       Window.set_results_info Window.set_token_info
       Window.set_result_counter Window.set_result_counter_enabled
       Window.set_prev_result_btn Window.set_next_result_btn
       Window.set_save_code_btn Window.set_save_all_btn Window.set_edit_btn
       Window.set_save_edit_btn Window.set_cancel_edit_btn
       Window.set_restore_btn Window.set_undo_btn Window.set_redo_btn
       Window.set_log Window.log_message] in *.

(** [cancel_edits] with a result at the index: the view shows its text
    and every edit button is set afresh. *)
Lemma cancel_edits_shown (w : Window.t) (r : ProcessingResult.t) (c : string) :
  0 <= Window.current_result_index w < Py.len (Window.results w) ->
  Forall (fun r => exists d, ProcessingResult.reachable d r)
    (Window.results w) ->
  Window.current_result w = Some r ->
  ProcessingResult.get_code r = Some c ->
  exists w',
    Window.cancel_edits w = Some w'
    /\ panel_base w'
    /\ Window.results w' = Window.results w
    /\ Window.current_result_index w' = Window.current_result_index w
    /\ Window.code_view w' = c
    /\ Window.code_read_only w' = true.
Proof.
  intros Hidx Hall Hr Hc.
  unfold Window.cancel_edits. wcbn.
  assert (Hg : ((Window.current_result_index w >=? 0)
                && Window.nonempty (Window.results w)) = true).
  { rewrite len_pos_nonempty. apply andb_true_iff. split.
    - apply Z.geb_le. lia.
    - apply Z.gtb_lt. lia. }
  rewrite Hg.
  unfold Window.current_result in *. wcbn. rewrite Hr, Hc.
  eexists. split; [reflexivity|].
  unfold panel_base, Window.current_result. wcbn.
  split; [|auto].
  split; [right; exact Hidx|]. split; [exact Hall|].
  split; [intros _ r' Hr'; congruence|].
  split; [intros Hu; split; [reflexivity | eauto]|].
  split; [intros Hu; split; [reflexivity | eauto]|].
  split; [reflexivity|]. split; [discriminate|]. reflexivity.
Qed.

(** [cancel_edits] clicked: the invariant stays. *)
Lemma cancel_edits_ok (w : Window.t) :
  panel_base w ->
  exists w',
    Window.cancel_edits w = Some w'
    /\ panel_base w'
    /\ Window.results w' = Window.results w
    /\ Window.current_result_index w' = Window.current_result_index w.
Proof.
  intros Hb. pose proof Hb as (Hidx & Hall & Hview & Hu & Hr & _).
  destruct Hidx as [[He Hi]|Hidx].
  - unfold Window.cancel_edits. wcbn. rewrite He, Hi. simpl.
    eexists. split; [reflexivity|].
    assert (Hcur : Window.current_result w = None)
      by (unfold Window.current_result; rewrite He, Hi; reflexivity).
    split; [|split; wcbn; auto].
    unfold panel_base, Window.current_result in *. wcbn.
    rewrite He, Hi in *.
    split; [left; auto|]. split; [constructor|].
    split; [intros _ r' Hr'; discriminate|].
    split; [intros H; destruct (Hu H) as (_ & r' & Hr' & _); discriminate|].
    split; [intros H; destruct (Hr H) as (_ & r' & Hr' & _); discriminate|].
    split; [reflexivity|]. split; [discriminate|]. reflexivity.
  - destruct (index_in_range _ _ Hidx) as [r Hcur].
    assert (Hin : In r (Window.results w)) by (eapply index_In; eauto).
    rewrite Forall_forall in Hall.
    destruct (reachable_code r (Hall r Hin)) as [c Hc].
    destruct (cancel_edits_shown w r c Hidx) as (w' & H1 & H2 & H3 & H4 & _);
      auto.
    + now apply Forall_forall.
    + eauto.
Qed.

(** [display_current_result] with a result at the index. *)
Lemma display_shown (w : Window.t) :
  0 <= Window.current_result_index w < Py.len (Window.results w) ->
  Forall (fun r => exists d, ProcessingResult.reachable d r)
    (Window.results w) ->
  exists w',
    Window.display_current_result w = Some w'
    /\ panel_base w'
    /\ Window.results w' = Window.results w
    /\ Window.current_result_index w' = Window.current_result_index w
    /\ Window.code_read_only w' = true.
Proof.
  intros Hidx Hall.
  destruct (index_in_range _ _ Hidx) as [r Hcur].
  assert (Hin : In r (Window.results w)) by (eapply index_In; eauto).
  pose proof Hall as Hall'. rewrite Forall_forall in Hall'.
  destruct (Hall' r Hin) as [d R].
  destruct (current_text_defined_aux d r R) as [c Hc].
  assert (Hs : exists s, ProcessingResult.summary r = Some s).
  { destruct (ProcessingResult.is_error r) eqn:E.
    - unfold ProcessingResult.summary. rewrite E. eauto.
    - exact (reachable_summary d r R E). }
  destruct Hs as [s Hs].
  unfold Window.display_current_result.
  assert (Hg : (negb (Window.nonempty (Window.results w))
                || (Window.current_result_index w <? 0)) = false).
  { rewrite len_pos_nonempty. apply orb_false_iff. split.
    - apply negb_false_iff. apply Z.gtb_lt. lia.
    - apply Z.ltb_ge. lia. }
  rewrite Hg. unfold Window.current_result at 1. rewrite Hcur, Hs, Hc.
  match goal with
  | |- exists w', Window.cancel_edits ?w0 = Some w' /\ _ =>
      destruct (cancel_edits_shown w0 r c) as (w' & H1 & H2 & H3 & H4 & H5 & H6)
  end; wcbn; auto.
  exists w'. wcbn. auto.
Qed.

(** The invariant reads nine fields of the window only. *)
Lemma base_ext (w w' : Window.t) :
  Window.results w' = Window.results w ->
  Window.current_result_index w' = Window.current_result_index w ->
  Window.code_view w' = Window.code_view w ->
  Window.code_read_only w' = Window.code_read_only w ->
  Window.undo_btn w' = Window.undo_btn w ->
  Window.redo_btn w' = Window.redo_btn w ->
  Window.edit_btn w' = Window.edit_btn w ->
  Window.save_edit_btn w' = Window.save_edit_btn w ->
  Window.restore_btn w' = Window.restore_btn w ->
  panel_base w -> panel_base w'.
Proof.
  unfold panel_base, Window.current_result.
  intros -> -> -> -> -> -> -> -> ->. exact (fun H => H).
Qed.

(** [update_navigation_buttons] sets the navigation buttons right and
    leaves the rest of the panel alone. *)
Lemma update_navigation_ok (w : Window.t) :
  panel_base w ->
  panel_ok (Window.update_navigation_buttons w)
  /\ Window.results (Window.update_navigation_buttons w) = Window.results w
  /\ Window.current_result_index (Window.update_navigation_buttons w)
     = Window.current_result_index w.
Proof.
  intros Hb. unfold Window.update_navigation_buttons.
  destruct (negb (Py.len (Window.results w) >? 0)); wcbn;
    (split; [split|split; reflexivity]);
    try (eapply base_ext; [..|exact Hb]; reflexivity);
    unfold panel_nav; wcbn; split; reflexivity.
Qed.

(** The panel while a result is shown read-only. *)
Lemma base_shown (w : Window.t) (r : ProcessingResult.t) :
  0 <= Window.current_result_index w < Py.len (Window.results w) ->
  Forall (fun r => exists d, ProcessingResult.reachable d r)
    (Window.results w) ->
  Window.current_result w = Some r ->
  ProcessingResult.get_code r = Some (Window.code_view w) ->
  Window.code_read_only w = true ->
  (Window.undo_btn w = true -> ProcessingResult.has_undo r = true) ->
  (Window.redo_btn w = true -> ProcessingResult.has_redo r = true) ->
  Window.save_edit_btn w = false ->
  panel_base w.
Proof.
  intros Hidx Hall Hr Hc Hro Hu Hre Hs. unfold panel_base.
  split; [right; exact Hidx|]. split; [exact Hall|].
  split; [intros _ r' Hr'; congruence|].
  split; [intros H; split; [exact Hro | eauto]|].
  split; [intros H; split; [exact Hro | eauto]|].
  split; [auto|]. split; [congruence|]. auto.
Qed.

(** The panel while the view is being edited. *)
Lemma base_editing (w : Window.t) :
  ((Window.results w = [] /\ Window.current_result_index w = -1)
   \/ 0 <= Window.current_result_index w < Py.len (Window.results w)) ->
  Forall (fun r => exists d, ProcessingResult.reachable d r)
    (Window.results w) ->
  Window.code_read_only w = false ->
  Window.undo_btn w = false ->
  Window.redo_btn w = false ->
  Window.edit_btn w = false ->
  Window.restore_btn w = false ->
  panel_base w.
Proof.
  intros Hidx Hall Hro Hu Hre He Hr. unfold panel_base.
  rewrite Hro, Hu, Hre, He, Hr.
  repeat (split; [first [exact Hidx | exact Hall | discriminate | auto]|]).
  discriminate.
Qed.

Lemma get_code_set_code (r : ProcessingResult.t) (v : string) :
  ProcessingResult.wf r ->
  ProcessingResult.get_code (ProcessingResult.set_code r v) = Some v.
Proof.
  intros Hwf. destruct (set_code_spec r v Hwf) as [Hh Hc].
  unfold ProcessingResult.get_code. rewrite Hh, Hc.
  pose proof (index_last
                (firstn (Z.to_nat (ProcessingResult.current_version r + 1))
                   (ProcessingResult.history r)) v) as Hi.
  destruct Hwf as [H0 H1].
  rewrite len_firstn in Hi by (unfold Py.len in H1; lia).
  rewrite Z2Nat.id in Hi by lia. exact Hi.
Qed.

(** What the panel needs of the current result. *)
Lemma current_of_panel (w : Window.t) :
  0 <= Window.current_result_index w < Py.len (Window.results w) ->
  Forall (fun r => exists d, ProcessingResult.reachable d r)
    (Window.results w) ->
  exists r d,
    Window.current_result w = Some r
    /\ ProcessingResult.reachable d r.
Proof.
  intros Hidx Hall.
  destruct (index_in_range _ _ Hidx) as [r Hcur].
  assert (Hin : In r (Window.results w)) by (eapply index_In; eauto).
  rewrite Forall_forall in Hall. destruct (Hall r Hin) as [d R].
  eauto.
Qed.

Lemma guard_passes (w : Window.t) :
  0 <= Window.current_result_index w < Py.len (Window.results w) ->
  ((Window.current_result_index w <? 0)
   || negb (Window.nonempty (Window.results w))) = false.
Proof.
  intros H. rewrite len_pos_nonempty. apply orb_false_iff. split.
  - apply Z.ltb_ge. lia.
  - apply negb_false_iff. apply Z.gtb_lt. lia.
Qed.

Lemma guard_stops (w : Window.t) :
  Window.results w = [] ->
  ((Window.current_result_index w <? 0)
   || negb (Window.nonempty (Window.results w))) = true.
Proof. intros ->. simpl. apply orb_true_r. Qed.

(** A slot that changes the current result in place: the panel
    afterwards. *)
Lemma stored_shown (w : Window.t) (r' : ProcessingResult.t) (c : string)
    (w' : Window.t) :
  0 <= Window.current_result_index w < Py.len (Window.results w) ->
  Forall (fun r => exists d, ProcessingResult.reachable d r)
    (Window.results w) ->
  (exists d, ProcessingResult.reachable d r') ->
  ProcessingResult.get_code r' = Some c ->
  Window.results w'
  = set_index (Window.results w) (Window.current_result_index w) r' ->
  Window.current_result_index w' = Window.current_result_index w ->
  Window.code_view w' = c ->
  Window.code_read_only w' = true ->
  (Window.undo_btn w' = true -> ProcessingResult.has_undo r' = true) ->
  (Window.redo_btn w' = true -> ProcessingResult.has_redo r' = true) ->
  Window.save_edit_btn w' = false ->
  panel_base w'.
Proof.
  intros Hidx Hall Hr' Hc Hres Hi Hv Hro Hu Hre Hs.
  apply (base_shown w' r'); auto.
  - rewrite Hres, Hi, set_index_len. exact Hidx.
  - rewrite Hres. now apply set_index_Forall.
  - unfold Window.current_result. rewrite Hres, Hi.
    now apply set_index_same.
  - now rewrite Hv.
Qed.

Lemma nav_kept (w w' : Window.t) :
  Py.len (Window.results w') = Py.len (Window.results w) ->
  Window.current_result_index w' = Window.current_result_index w ->
  Window.prev_result_btn w' = Window.prev_result_btn w ->
  Window.next_result_btn w' = Window.next_result_btn w ->
  panel_nav w -> panel_nav w'.
Proof.
  unfold panel_nav. intros -> -> -> ->. exact (fun H => H).
Qed.

Lemma edit_clicked_ok (w : Window.t) :
  panel_ok w -> Window.edit_btn w = true ->
  exists w',
    Window.toggle_edit_mode w = Some w'
    /\ panel_ok w' /\ touches_current_only w w'.
Proof.
  intros [Hb Hn] He.
  pose proof Hb as (Hidx & Hall & _ & _ & _ & Hedit & _).
  unfold Window.toggle_edit_mode. rewrite (Hedit He).
  eexists. split; [reflexivity|]. split; [split|].
  - apply base_editing; wcbn; auto.
  - eapply nav_kept; [..|exact Hn]; reflexivity.
  - split; [reflexivity | left; reflexivity].
Qed.

Lemma cancel_clicked_ok (w : Window.t) :
  panel_ok w ->
  exists w',
    Window.cancel_edits w = Some w'
    /\ panel_ok w' /\ touches_current_only w w'.
Proof.
  intros [Hb Hn].
  destruct (cancel_edits_ok w Hb) as (w' & H1 & H2 & H3 & H4).
  exists w'. split; [exact H1|]. split; [split; [exact H2|]|].
  - eapply nav_kept; [..|exact Hn]; auto.
    + now rewrite H3.
    + revert H1. unfold Window.cancel_edits.
      destruct ((_ >=? 0) && _); [|intros H; inversion H; reflexivity].
      destruct (Window.current_result _); [|discriminate].
      destruct (ProcessingResult.get_code _); [|discriminate].
      intros H; inversion H; reflexivity.
    + revert H1. unfold Window.cancel_edits.
      destruct ((_ >=? 0) && _); [|intros H; inversion H; reflexivity].
      destruct (Window.current_result _); [|discriminate].
      destruct (ProcessingResult.get_code _); [|discriminate].
      intros H; inversion H; reflexivity.
  - split; [exact H4 | left; exact H3].
Qed.

Lemma save_clicked_ok (w : Window.t) :
  panel_ok w -> Window.save_edit_btn w = true ->
  exists w',
    Window.save_edits w = Some w'
    /\ panel_ok w' /\ touches_current_only w w'.
Proof.
  intros [Hb Hn] Hs.
  pose proof Hb as (Hidx & Hall & _ & _ & _ & _ & Hsave & _).
  pose proof (Hsave Hs) as Hro.
  unfold Window.save_edits.
  destruct Hidx as [[He Hi]|Hidx].
  { rewrite (guard_stops w He). exists w.
    split; [reflexivity|]. split; [split; assumption|].
    split; [reflexivity | left; reflexivity]. }
  rewrite (guard_passes w Hidx).
  destruct (current_of_panel w Hidx Hall) as (r & d & Hcur & R).
  rewrite Hcur.
  unfold Window.toggle_edit_mode, Window.store_result. wcbn. rewrite Hro.
  unfold Window.current_result. wcbn.
  rewrite (set_index_same _ _ _ Hidx).
  eexists. split; [reflexivity|].
  assert (Hwf : ProcessingResult.wf r)
    by (destruct (reachable_inv d r R) as (? & _); assumption).
  split; [split|].
  - eapply (stored_shown w (ProcessingResult.set_code r (Window.code_view w))
              (Window.code_view w)); wcbn; auto.
    + exists d. exact (ProcessingResult.reach_step d r
                         (ProcessingResult.Commit (Window.code_view w)) R).
    + now apply get_code_set_code.
  - eapply nav_kept; [..|exact Hn]; wcbn; auto.
    apply set_index_len.
  - split; [reflexivity | right; eexists; reflexivity].
Qed.

Lemma restore_clicked_ok (w : Window.t) :
  panel_ok w -> Window.restore_btn w = true ->
  exists w',
    Window.restore_original w = Some w'
    /\ panel_ok w' /\ touches_current_only w w'.
Proof.
  intros [Hb Hn] Hr.
  pose proof Hb as (Hidx & Hall & _ & _ & _ & _ & Hsave & Hrest).
  pose proof (Hrest Hr) as Hro.
  assert (Hs : Window.save_edit_btn w = false).
  { destruct (Window.save_edit_btn w); [|reflexivity].
    specialize (Hsave eq_refl). congruence. }
  unfold Window.restore_original.
  destruct Hidx as [[He Hi]|Hidx].
  { rewrite (guard_stops w He). exists w.
    split; [reflexivity|]. split; [split; assumption|].
    split; [reflexivity | left; reflexivity]. }
  rewrite (guard_passes w Hidx).
  destruct (current_of_panel w Hidx Hall) as (r & d & Hcur & R).
  rewrite Hcur.
  assert (R' : ProcessingResult.reachable d
                 (fst (ProcessingResult.restore_original r)))
    by exact (ProcessingResult.reach_step d r
                ProcessingResult.RestoreOriginal R).
  destruct (current_text_defined_aux d _ R') as [c Hc]. rewrite Hc.
  unfold Window.store_result. wcbn.
  eexists. split; [reflexivity|]. split; [split|].
  - eapply (stored_shown w (fst (ProcessingResult.restore_original r)) c);
      wcbn; eauto; discriminate.
  - eapply nav_kept; [..|exact Hn]; wcbn; auto.
    apply set_index_len.
  - split; [reflexivity | right; eexists; reflexivity].
Qed.

Lemma undo_clicked_ok (w : Window.t) :
  panel_ok w -> Window.undo_btn w = true ->
  exists w',
    Window.undo_changes w = Some w'
    /\ panel_ok w' /\ touches_current_only w w'.
Proof.
  intros [Hb Hn] Hu.
  pose proof Hb as (Hidx & Hall & _ & Hundo & _ & _ & Hsave & _).
  destruct (Hundo Hu) as [Hro _].
  assert (Hs : Window.save_edit_btn w = false).
  { destruct (Window.save_edit_btn w); [|reflexivity].
    specialize (Hsave eq_refl). congruence. }
  unfold Window.undo_changes.
  destruct Hidx as [[He Hi]|Hidx].
  { rewrite (guard_stops w He). exists w.
    split; [reflexivity|]. split; [split; assumption|].
    split; [reflexivity | left; reflexivity]. }
  rewrite (guard_passes w Hidx).
  destruct (current_of_panel w Hidx Hall) as (r & d & Hcur & R).
  rewrite Hcur.
  assert (R' : ProcessingResult.reachable d (fst (ProcessingResult.undo r)))
    by exact (ProcessingResult.reach_step d r ProcessingResult.Undo R).
  destruct (current_text_defined_aux d _ R') as [c Hc].
  destruct (ProcessingResult.undo r) as [r' returned] eqn:Eu.
  assert (Hret : returned = ProcessingResult.get_code r').
  { unfold ProcessingResult.undo in Eu. inversion Eu. reflexivity. }
  cbn [fst] in R', Hc. rewrite Hret, Hc.
  unfold Window.store_result. wcbn.
  eexists. split; [reflexivity|]. split; [split|].
  - eapply (stored_shown w r' c); wcbn; eauto.
  - eapply nav_kept; [..|exact Hn]; wcbn; auto.
    apply set_index_len.
  - split; [reflexivity | right; eexists; reflexivity].
Qed.

Lemma redo_clicked_ok (w : Window.t) :
  panel_ok w -> Window.redo_btn w = true ->
  exists w',
    Window.redo_changes w = Some w'
    /\ panel_ok w' /\ touches_current_only w w'.
Proof.
  intros [Hb Hn] Hu.
  pose proof Hb as (Hidx & Hall & _ & _ & Hredo & _ & Hsave & _).
  destruct (Hredo Hu) as [Hro _].
  assert (Hs : Window.save_edit_btn w = false).
  { destruct (Window.save_edit_btn w); [|reflexivity].
    specialize (Hsave eq_refl). congruence. }
  unfold Window.redo_changes.
  destruct Hidx as [[He Hi]|Hidx].
  { rewrite (guard_stops w He). exists w.
    split; [reflexivity|]. split; [split; assumption|].
    split; [reflexivity | left; reflexivity]. }
  rewrite (guard_passes w Hidx).
  destruct (current_of_panel w Hidx Hall) as (r & d & Hcur & R).
  rewrite Hcur.
  assert (R' : ProcessingResult.reachable d (fst (ProcessingResult.redo r)))
    by exact (ProcessingResult.reach_step d r ProcessingResult.Redo R).
  destruct (current_text_defined_aux d _ R') as [c Hc].
  destruct (ProcessingResult.redo r) as [r' returned] eqn:Eu.
  assert (Hret : returned = ProcessingResult.get_code r').
  { unfold ProcessingResult.redo in Eu. inversion Eu. reflexivity. }
  cbn [fst] in R', Hc. rewrite Hret, Hc.
  unfold Window.store_result. wcbn.
  eexists. split; [reflexivity|]. split; [split|].
  - eapply (stored_shown w r' c); wcbn; eauto.
  - eapply nav_kept; [..|exact Hn]; wcbn; auto.
    apply set_index_len.
  - split; [reflexivity | right; eexists; reflexivity].
Qed.

Lemma display_then_navigation (w : Window.t) :
  0 <= Window.current_result_index w < Py.len (Window.results w) ->
  Forall (fun r => exists d, ProcessingResult.reachable d r)
    (Window.results w) ->
  exists w1,
    Window.display_current_result w = Some w1
    /\ panel_ok (Window.update_navigation_buttons w1)
    /\ Window.results (Window.update_navigation_buttons w1)
       = Window.results w
    /\ Window.current_result_index (Window.update_navigation_buttons w1)
       = Window.current_result_index w.
Proof.
  intros Hidx Hall.
  destruct (display_shown w Hidx Hall) as (w1 & H1 & H2 & H3 & H4 & _).
  exists w1. split; [exact H1|].
  destruct (update_navigation_ok w1 H2) as (Hok & Hr & Hi).
  split; [exact Hok|]. split; congruence.
Qed.

Lemma prev_clicked_ok (w : Window.t) :
  panel_ok w ->
  exists w',
    Window.show_previous_result w = Some w'
    /\ panel_ok w' /\ Window.results w' = Window.results w.
Proof.
  intros [Hb Hn]. pose proof Hb as (Hidx & Hall & _).
  unfold Window.show_previous_result.
  destruct (Window.current_result_index w >? 0) eqn:E.
  - apply Z.gtb_lt in E.
    destruct Hidx as [[_ Hi]|Hidx]; [lia|].
    destruct (display_then_navigation
                (Window.set_current_result_index w
                   (Window.current_result_index w - 1)))
      as (w1 & H1 & H2 & H3 & _); wcbn; [lia | exact Hall |].
    rewrite H1. eexists. split; [reflexivity|]. split; [exact H2|].
    exact H3.
  - exists w. split; [reflexivity|]. split; [split; assumption|reflexivity].
Qed.

Lemma next_clicked_ok (w : Window.t) :
  panel_ok w ->
  exists w',
    Window.show_next_result w = Some w'
    /\ panel_ok w' /\ Window.results w' = Window.results w.
Proof.
  intros [Hb Hn]. pose proof Hb as (Hidx & Hall & _).
  unfold Window.show_next_result.
  destruct (Window.current_result_index w <? Py.len (Window.results w) - 1)
    eqn:E.
  - apply Z.ltb_lt in E.
    assert (Hlo : -1 <= Window.current_result_index w)
      by (destruct Hidx as [[_ Hi]|Hidx]; lia).
    destruct (display_then_navigation
                (Window.set_current_result_index w
                   (Window.current_result_index w + 1)))
      as (w1 & H1 & H2 & H3 & _); wcbn; [lia | exact Hall |].
    rewrite H1. eexists. split; [reflexivity|]. split; [exact H2|].
    exact H3.
  - exists w. split; [reflexivity|]. split; [split; assumption|reflexivity].
Qed.

Lemma reset_ok (w : Window.t) :
  panel_ok w -> panel_ok (Window.reset_results w).
Proof.
  intros [Hb _]. pose proof Hb as (_ & _ & _ & _ & _ & _ & Hsave & _).
  unfold Window.reset_results.
  apply update_navigation_ok.
  unfold panel_base, Window.current_result. wcbn.
  split; [left; auto|]. split; [constructor|].
  split; [intros _ r' Hr'; discriminate|].
  split; [discriminate|]. split; [discriminate|].
  split; [discriminate|]. split; [exact Hsave|]. discriminate.
Qed.

Lemma typed_ok (w : Window.t) (text : string) :
  panel_ok w -> Window.code_read_only w = false ->
  panel_ok (Window.set_code_view w text).
Proof.
  intros [Hb Hn] Hro. split.
  - destruct Hb as (Hidx & Hall & _ & Hu & Hr & He & Hs & Hrest).
    unfold panel_base, Window.current_result in *. wcbn.
    split; [exact Hidx|]. split; [exact Hall|].
    split; [intros H; congruence|].
    split; [exact Hu|]. split; [exact Hr|]. split; [exact He|].
    split; [exact Hs|]. exact Hrest.
  - eapply nav_kept; [..|exact Hn]; reflexivity.
Qed.

Lemma result_arrived_ok (w : Window.t) (d : ResultData) (cfg : ModelConfig)
    (nm : string) (tu : Z) (ip : ImagePath) :
  panel_ok w ->
  exists w',
    Window.handle_result w d cfg nm tu ip = Some w'
    /\ panel_ok w'
    /\ Window.results w'
       = (Window.results w ++ [ProcessingResult.init d cfg nm tu ip])%list.
Proof.
  intros [Hb Hn]. pose proof Hb as (Hidx & Hall & Hview & Hu & Hr & He & Hs & Hrest).
  set (pr := ProcessingResult.init d cfg nm tu ip).
  assert (Hall' : Forall (fun r => exists d, ProcessingResult.reachable d r)
                    (Window.results w ++ [pr])%list).
  { apply Forall_app. split; [exact Hall|]. constructor; [|constructor].
    exists d. apply ProcessingResult.reach_init. }
  assert (Hfinish : forall w1,
             panel_base w1 ->
             Window.results w1 = (Window.results w ++ [pr])%list ->
             exists w',
               Some (if ProcessingResult.is_error pr
                     then Window.log_message
                            (if Py.len (Window.results
                                          (Window.update_navigation_buttons w1))
                                >? 0
                             then Window.set_save_all_btn
                                    (Window.update_navigation_buttons w1) true
                             else Window.update_navigation_buttons w1)
                            ("❌ Ошибка обработки: " ++ nm) "error"
                     else Window.log_message
                            (if Py.len (Window.results
                                          (Window.update_navigation_buttons w1))
                                >? 0
                             then Window.set_save_all_btn
                                    (Window.update_navigation_buttons w1) true
                             else Window.update_navigation_buttons w1)
                            ("✅ Успешно обработано: " ++ nm) "info")
               = Some w'
               /\ panel_ok w'
               /\ Window.results w' = (Window.results w ++ [pr])%list).
  { intros w1 Hb1 Hres1.
    destruct (update_navigation_ok w1 Hb1) as ([Hb2 Hn2] & Hr2 & Hi2).
    set (w2 := Window.update_navigation_buttons w1) in *.
    eexists. split; [reflexivity|].
    destruct (ProcessingResult.is_error pr);
      destruct (Py.len (Window.results w2) >? 0); wcbn;
      (split; [split;
                [eapply base_ext; [..|exact Hb2]; reflexivity
                |eapply nav_kept; [..|exact Hn2]; reflexivity]
              |congruence]). }
  unfold Window.handle_result. fold pr. wcbn.
  destruct (Py.len (Window.results w ++ [pr])%list =? 1) eqn:E1.
  - apply Z.eqb_eq in E1.
    destruct (display_shown
                (Window.set_current_result_index
                   (Window.set_results w (Window.results w ++ [pr])%list) 0))
      as (w1 & H1 & H2 & H3 & _); wcbn; [lia | exact Hall' |].
    rewrite H1. apply Hfinish; [exact H2 | exact H3].
  - apply Z.eqb_neq in E1. apply Hfinish; [|reflexivity].
    assert (Hne : 0 <= Window.current_result_index w
                  < Py.len (Window.results w)).
    { destruct Hidx as [[Hemp _]|H]; [|exact H].
      rewrite Hemp in E1. unfold Py.len in E1. simpl in E1. lia. }
    assert (Hcur : Py.index (Window.results w ++ [pr])%list
                     (Window.current_result_index w)
                   = Py.index (Window.results w)
                       (Window.current_result_index w))
      by (apply index_app_l; exact Hne).
    unfold panel_base, Window.current_result in *. wcbn. rewrite Hcur.
    split; [right; rewrite len_app; unfold Py.len at 2; simpl; lia|].
    split; [exact Hall'|]. split; [exact Hview|].
    split; [exact Hu|]. split; [exact Hr|]. split; [exact He|].
    split; [exact Hs|]. exact Hrest.
Qed.

Lemma initial_ok : panel_ok Window.initial.
Proof.
  split.
  - unfold panel_base, Window.current_result. simpl.
    split; [left; auto|]. split; [constructor|].
    split; [intros _ r' Hr'; discriminate|].
    repeat (split; [discriminate|]). discriminate.
  - split; reflexivity.
Qed.

(** Every event is handled without raising and keeps the panel in
    order. *)
Lemma react_ok (w : Window.t) (e : Window.event) :
  panel_ok w ->
  exists w', Window.react w e = Some w' /\ panel_ok w'.
Proof.
  intros Hok. destruct e as [d cfg nm tu ip | b | text |]; simpl.
  - destruct (result_arrived_ok w d cfg nm tu ip Hok) as (w' & H1 & H2 & _).
    eauto.
  - destruct (Window.enabled w b) eqn:E; [|eauto].
    destruct b; simpl in *.
    + destruct (prev_clicked_ok w Hok) as (w' & H1 & H2 & _). eauto.
    + destruct (next_clicked_ok w Hok) as (w' & H1 & H2 & _). eauto.
    + destruct (edit_clicked_ok w Hok E) as (w' & H1 & H2 & _). eauto.
    + destruct (save_clicked_ok w Hok E) as (w' & H1 & H2 & _). eauto.
    + destruct (cancel_clicked_ok w Hok) as (w' & H1 & H2 & _). eauto.
    + destruct (restore_clicked_ok w Hok E) as (w' & H1 & H2 & _). eauto.
    + destruct (undo_clicked_ok w Hok E) as (w' & H1 & H2 & _). eauto.
    + destruct (redo_clicked_ok w Hok E) as (w' & H1 & H2 & _). eauto.
  - destruct (Window.code_read_only w) eqn:E; [eauto|].
    eexists. split; [reflexivity|]. now apply typed_ok.
  - eexists. split; [reflexivity|]. now apply reset_ok.
Qed.

Lemma play_ok (events : list Window.event) (w : Window.t) :
  panel_ok w ->
  exists w', Window.play w events = Some w' /\ panel_ok w'.
Proof.
  revert w. induction events as [|e events IH]; intros w Hok; simpl.
  - eauto.
  - destruct (react_ok w e Hok) as (w1 & -> & Hok1). now apply IH.
Qed.

Lemma played_ok (events : list Window.event) (w : Window.t) :
  Window.play Window.initial events = Some w -> panel_ok w.
Proof.
  intros H. destruct (play_ok events Window.initial initial_ok)
    as (w' & H' & Hok). congruence.
Qed.

(** X24. Whatever results arrive, whatever the user clicks or types and
    whenever a new run starts, no slot of the results panel raises, the
    index of the result shown is a valid index whenever there are results
    (and -1 when there are none), and every result in the list is one its
    construction and its operations can produce. *)
Theorem panel_never_raises :
  forall events : list Window.event,
    exists w,
      Window.play Window.initial events = Some w
      /\ ((Window.results w = [] /\ Window.current_result_index w = -1)
          \/ 0 <= Window.current_result_index w
             < Py.len (Window.results w))
      /\ Forall (fun r => exists d, ProcessingResult.reachable d r)
           (Window.results w).
Proof.
  intros events.
  destruct (play_ok events Window.initial initial_ok) as (w & H & Hok).
  exists w. split; [exact H|].
  destruct Hok as [(Hidx & Hall & _) _]. auto.
Qed.

(** X25. Whenever the code view is read-only it shows the current text
    of the result at the current index, if there is one: what the user
    reads is what would be saved. *)
Theorem view_shows_current_text :
  forall (events : list Window.event) (w : Window.t),
    Window.play Window.initial events = Some w ->
    Window.code_read_only w = true ->
    Window.results w <> [] ->
    exists r,
      Window.current_result w = Some r
      /\ ProcessingResult.get_code r = Some (Window.code_view w).
Proof.
  intros events w H Hro Hne.
  destruct (played_ok events w H) as [(Hidx & Hall & Hview & _) _].
  destruct Hidx as [[He _]|Hidx]; [contradiction|].
  destruct (current_of_panel w Hidx Hall) as (r & d & Hcur & _).
  exists r. split; [exact Hcur|]. now apply Hview.
Qed.

(** X26. A button of the panel is enabled only when its slot applies:
    undo only when the current result has something to undo, redo only
    when it has something to redo, both only while the view is
    read-only; the save-edit button only while the view is being edited,
    the edit and restore buttons only while it is not; and the previous
    and next buttons exactly when there is a result before, or after, the
    one shown. *)
Theorem buttons_enabled_only_when_applicable :
  forall (events : list Window.event) (w : Window.t),
    Window.play Window.initial events = Some w ->
    (Window.undo_btn w = true ->
     Window.code_read_only w = true
     /\ exists r, Window.current_result w = Some r
                  /\ ProcessingResult.has_undo r = true)
    /\ (Window.redo_btn w = true ->
        Window.code_read_only w = true
        /\ exists r, Window.current_result w = Some r
                     /\ ProcessingResult.has_redo r = true)
    /\ (Window.save_edit_btn w = true -> Window.code_read_only w = false)
    /\ (Window.edit_btn w = true -> Window.code_read_only w = true)
    /\ (Window.restore_btn w = true -> Window.code_read_only w = true)
    /\ (Window.prev_result_btn w = true
        <-> 0 < Window.current_result_index w)
    /\ (Window.next_result_btn w = true
        <-> Window.current_result_index w
            < Py.len (Window.results w) - 1).
Proof.
  intros events w H.
  destruct (played_ok events w H)
    as [(Hidx & _ & _ & Hu & Hr & He & Hs & Hrest) [Hp Hn]].
  split; [exact Hu|]. split; [exact Hr|]. split; [exact Hs|].
  split; [exact He|]. split; [exact Hrest|].
  split.
  - rewrite Hp, andb_true_iff. split.
    + intros [_ H2]. apply Z.gtb_lt in H2. exact H2.
    + intros Hi. split; apply Z.gtb_lt; [|exact Hi].
      destruct Hidx as [[_ Hm]|Hidx]; lia.
  - rewrite Hn, andb_true_iff. split.
    + intros [_ H2]. apply Z.ltb_lt in H2. exact H2.
    + intros Hi. split; [apply Z.gtb_lt | apply Z.ltb_lt; exact Hi].
      destruct Hidx as [[He' Hm]|Hidx]; [|lia].
      rewrite He' in Hi. unfold Py.len in Hi. simpl in Hi. lia.
Qed.

Lemma set_index_other {A : Type} (l : list A) (i : Z) (x : A) (j : nat) :
  0 <= i -> Z.of_nat j <> i ->
  nth_error (set_index l i x) j = nth_error l j.
Proof.
  intros Hi Hj. unfold set_index.
  destruct (i <? 0) eqn:E; [apply Z.ltb_lt in E; lia|]. rewrite E.
  apply set_nth_other. lia.
Qed.

Lemma touched_elsewhere (w w' : Window.t) :
  panel_ok w -> touches_current_only w w' ->
  List.length (Window.results w') = List.length (Window.results w)
  /\ forall j, Z.of_nat j <> Window.current_result_index w ->
               nth_error (Window.results w') j
               = nth_error (Window.results w) j.
Proof.
  intros [(Hidx & _) _] [_ [Hsame|[r' Hset]]].
  - rewrite Hsame. auto.
  - rewrite Hset. split.
    + pose proof (set_index_len (Window.results w)
                    (Window.current_result_index w) r') as H.
      unfold Py.len in H. lia.
    + intros j Hj. destruct Hidx as [[He _]|Hidx].
      * rewrite He. unfold set_index.
        destruct (_ <? 0); [reflexivity|]. now destruct (Z.to_nat _).
      * apply set_index_other; lia.
Qed.

(** X27. A click on a button of the panel changes no result but the one
    at the current index: the list keeps its length, and every other
    position holds the result it held before, history and pointer
    included. *)
Theorem clicks_touch_only_current_result :
  forall (events : list Window.event) (w : Window.t) (b : Window.button)
         (w' : Window.t),
    Window.play Window.initial events = Some w ->
    Window.react w (Window.Clicked b) = Some w' ->
    List.length (Window.results w') = List.length (Window.results w)
    /\ forall j, Z.of_nat j <> Window.current_result_index w ->
                 nth_error (Window.results w') j
                 = nth_error (Window.results w) j.
Proof.
  intros events w b w' Hplay Hreact.
  pose proof (played_ok events w Hplay) as Hok.
  simpl in Hreact.
  destruct (Window.enabled w b) eqn:E;
    [|inversion Hreact; subst; auto].
  assert (Hsame : Window.results w' = Window.results w ->
                  List.length (Window.results w')
                  = List.length (Window.results w)
                  /\ forall j, Z.of_nat j <> Window.current_result_index w ->
                               nth_error (Window.results w') j
                               = nth_error (Window.results w) j)
    by (intros ->; auto).
  destruct b; simpl in *.
  - destruct (prev_clicked_ok w Hok) as (w1 & H1 & _ & H3).
    rewrite H1 in Hreact. inversion Hreact; subst. auto.
  - destruct (next_clicked_ok w Hok) as (w1 & H1 & _ & H3).
    rewrite H1 in Hreact. inversion Hreact; subst. auto.
  - destruct (edit_clicked_ok w Hok E) as (w1 & H1 & _ & H3).
    rewrite H1 in Hreact. inversion Hreact; subst.
    now apply touched_elsewhere.
  - destruct (save_clicked_ok w Hok E) as (w1 & H1 & _ & H3).
    rewrite H1 in Hreact. inversion Hreact; subst.
    now apply touched_elsewhere.
  - destruct (cancel_clicked_ok w Hok) as (w1 & H1 & _ & H3).
    rewrite H1 in Hreact. inversion Hreact; subst.
    now apply touched_elsewhere.
  - destruct (restore_clicked_ok w Hok E) as (w1 & H1 & _ & H3).
    rewrite H1 in Hreact. inversion Hreact; subst.
    now apply touched_elsewhere.
  - destruct (undo_clicked_ok w Hok E) as (w1 & H1 & _ & H3).
    rewrite H1 in Hreact. inversion Hreact; subst.
    now apply touched_elsewhere.
  - destruct (redo_clicked_ok w Hok E) as (w1 & H1 & _ & H3).
    rewrite H1 in Hreact. inversion Hreact; subst.
    now apply touched_elsewhere.
Qed.

(** The text [undo] returns right after a commit is the one that was
    current before the commit. *)
Lemma undo_of_commit (r : ProcessingResult.t) (v : string) :
  ProcessingResult.wf r ->
  snd (ProcessingResult.undo (ProcessingResult.set_code r v))
  = ProcessingResult.get_code r.
Proof.
  intros Hwf. destruct (set_code_spec r v Hwf) as [Hh Hc].
  destruct Hwf as [H0 H1].
  assert (Hlen : (Z.to_nat (ProcessingResult.current_version r + 1)
                  <= List.length (ProcessingResult.history r))%nat)
    by (unfold Py.len in H1; lia).
  unfold ProcessingResult.undo. rewrite Hc.
  assert (E : (ProcessingResult.current_version r + 1 >? 0) = true)
    by (apply Z.gtb_lt; lia).
  rewrite E.
  cbn [snd ProcessingResult.history ProcessingResult.current_version
       ProcessingResult.with_version].
  replace (ProcessingResult.current_version r + 1 - 1)
    with (ProcessingResult.current_version r) by lia.
  unfold ProcessingResult.get_code. rewrite Hh, !index_nonneg by lia.
  rewrite nth_error_app1 by (rewrite firstn_length_le by exact Hlen; lia).
  rewrite nth_error_firstn.
  assert (E2 : (Z.to_nat (ProcessingResult.current_version r)
                <? Z.to_nat (ProcessingResult.current_version r + 1))%nat
               = true) by (apply Nat.ltb_lt; lia).
  now rewrite E2.
Qed.

Lemma set_index_len_guard (w : Window.t) (r : ProcessingResult.t) :
  0 <= Window.current_result_index w < Py.len (Window.results w) ->
  ((Window.current_result_index w <? 0)
   || negb (Window.nonempty
              (set_index (Window.results w) (Window.current_result_index w)
                 r))) = false.
Proof.
  intros H. rewrite len_pos_nonempty, set_index_len.
  apply orb_false_iff. split.
  - apply Z.ltb_ge. lia.
  - apply negb_false_iff. apply Z.gtb_lt. lia.
Qed.

(** X28. An edit can be taken back: from a panel that shows a result and
    offers editing, clicking Edit, typing a text, clicking Save and then
    clicking Undo leaves the view read-only on the text it showed before
    the edit, with the typed text kept in the history for redo. *)
Theorem saved_edit_can_be_undone :
  forall (events : list Window.event) (w : Window.t) (text : string),
    Window.play Window.initial events = Some w ->
    Window.edit_btn w = true ->
    Window.results w <> [] ->
    exists w',
      Window.play w [Window.Clicked Window.Edit; Window.Typed text;
                     Window.Clicked Window.SaveEdit;
                     Window.Clicked Window.Undo] = Some w'
      /\ Window.code_view w' = Window.code_view w
      /\ Window.code_read_only w' = true
      /\ Window.redo_btn w' = true
      /\ Window.current_result_index w' = Window.current_result_index w.
Proof.
  intros events w text Hplay He Hne.
  destruct (played_ok events w Hplay)
    as [(Hidx & Hall & Hview & _ & _ & Hedit & _) _].
  destruct Hidx as [[Hemp _]|Hidx]; [contradiction|].
  pose proof (Hedit He) as Hro.
  destruct (current_of_panel w Hidx Hall) as (r & d & Hcur & R).
  pose proof (Hview Hro r Hcur) as Hc.
  destruct (reachable_inv d r R) as (Hwf & _).
  pose proof (guard_passes w Hidx) as Hg.
  assert (Hhu : ProcessingResult.has_undo (ProcessingResult.set_code r text)
                = true).
  { destruct (set_code_spec r text Hwf) as [_ Hv].
    unfold ProcessingResult.has_undo. rewrite Hv. apply Z.gtb_lt.
    destruct Hwf. lia. }
  assert (Hun : ProcessingResult.undo (ProcessingResult.set_code r text)
                = (fst (ProcessingResult.undo (ProcessingResult.set_code r text)),
                   Some (Window.code_view w))).
  { rewrite (surjective_pairing (ProcessingResult.undo _)) at 1.
    f_equal. pose proof (undo_of_commit r text Hwf) as H. congruence. }
  assert (Hhr : ProcessingResult.has_redo
                  (fst (ProcessingResult.undo
                          (ProcessingResult.set_code r text))) = true).
  { destruct (set_code_spec r text Hwf) as [Hh Hv].
    unfold ProcessingResult.has_redo, ProcessingResult.undo. cbn [fst].
    rewrite Hv.
    assert (E : (ProcessingResult.current_version r + 1 >? 0) = true)
      by (apply Z.gtb_lt; destruct Hwf; lia).
    rewrite E. cbn [ProcessingResult.with_version ProcessingResult.history
                    ProcessingResult.current_version].
    rewrite Hh, len_app, len_firstn
      by (destruct Hwf as [H0 H1]; unfold Py.len in H1; lia).
    apply Z.ltb_lt. unfold Py.len. simpl. destruct Hwf. lia. }
  unfold Window.current_result in Hcur.
  cbn [Window.play Window.react Window.enabled Window.slot].
  rewrite He. unfold Window.toggle_edit_mode at 1. rewrite Hro. wcbn.
  unfold Window.save_edits, Window.store_result. wcbn. rewrite Hg.
  unfold Window.current_result at 1. wcbn. rewrite Hcur.
  unfold Window.toggle_edit_mode, Window.current_result. wcbn.
  rewrite (set_index_same _ _ _ Hidx). wcbn.
  rewrite Hhu.
  unfold Window.undo_changes, Window.store_result. wcbn.
  rewrite set_index_len_guard by exact Hidx.
  unfold Window.current_result. wcbn.
  rewrite (set_index_same _ _ _ Hidx).
  rewrite Hun. wcbn. rewrite Hhr.
  eexists. split; [reflexivity|]. wcbn. auto.
Qed.

Lemma shown_panel_played :
  Window.play Window.initial one_result_events = Some shown_panel.
Proof. vm_compute. reflexivity. Qed.

Lemma view_shows_current_text_witness :
  exists r,
    Window.current_result shown_panel = Some r
    /\ ProcessingResult.get_code r = Some (Window.code_view shown_panel).
Proof.
  apply (view_shows_current_text one_result_events shown_panel).
  - vm_compute. reflexivity.
  - reflexivity.
  - vm_compute. discriminate.
Defined.

Lemma buttons_enabled_only_when_applicable_witness :
  (Window.prev_result_btn shown_panel = true
   <-> 0 < Window.current_result_index shown_panel)
  /\ (Window.next_result_btn shown_panel = true
      <-> Window.current_result_index shown_panel
          < Py.len (Window.results shown_panel) - 1).
Proof.
  apply (buttons_enabled_only_when_applicable one_result_events shown_panel).
  vm_compute. reflexivity.
Defined.

Lemma clicks_touch_only_current_result_witness :
  List.length (Window.results restored_panel)
  = List.length (Window.results shown_panel).
Proof.
  refine (proj1 (clicks_touch_only_current_result one_result_events
                   shown_panel Window.Restore restored_panel _ _)).
  - vm_compute. reflexivity.
  - vm_compute. reflexivity.
Defined.

Lemma saved_edit_can_be_undone_witness :
  exists w',
    Window.play shown_panel
      [Window.Clicked Window.Edit; Window.Typed "v2";
       Window.Clicked Window.SaveEdit; Window.Clicked Window.Undo] = Some w'
    /\ Window.code_view w' = Window.code_view shown_panel
    /\ Window.code_read_only w' = true
    /\ Window.redo_btn w' = true
    /\ Window.current_result_index w'
       = Window.current_result_index shown_panel.
Proof.
  apply (saved_edit_can_be_undone one_result_events shown_panel "v2").
  - vm_compute. reflexivity.
  - reflexivity.
  - vm_compute. discriminate.
Defined.

Lemma validate_succeeds_only_when_witness :
  (exists c s,
      r_code no_usage_fields = Some c
      /\ Py.contains marker c = true
      /\ r_summary no_usage_fields = Some s
      /\ mkModels "Base = declarative_base()" "one table" 0
         = mkModels c s (with_default 0 (r_token_usage no_usage_fields)))
  /\ (exists es, validate no_base_fields = inl (ValidationError es)
                 /\ In ("code", Raised missing_base_msg) es).
Proof.
  split.
  - apply (proj1 (validate_succeeds_only_when no_usage_fields)
             (mkModels "Base = declarative_base()" "one table" 0)).
    reflexivity.
  - destruct (r_code no_base_fields) as [c|] eqn:Hc; [|discriminate Hc].
    apply (proj1 (proj2 (proj2 (validate_succeeds_only_when no_base_fields)))
             c Hc).
    inversion Hc. reflexivity.
Defined.

Lemma summary_comment_covers_every_line_witness :
  fst (fst (save_results (fun s => s)
              (mkModels "Base = declarative_base()" "one table" 0)
              default_config (Some "orders.py")))
  = "orders.py"
  /\ fst (fst (save_results (fun s => s)
                 (mkModels "Base = declarative_base()" "one table" 0)
                 default_config (Some EmptyString)))
     = "models_GigaChat_2_Pro.py".
Proof.
  destruct (summary_comment_covers_every_line (fun s => s)
              (mkModels "Base = declarative_base()" "one table" 0)
              default_config None)
    as (_ & _ & _ & _ & _ & Hempty & Hgiven).
  split.
  - apply (Hgiven "orders.py"). discriminate.
  - exact Hempty.
Defined.

Lemma completion_signal_iff_run_completed_witness :
  exists message,
    In (progress 100 message)
      (run sample_str sample_service default_config never_stopped
         sample_paths "separate").
Proof.
  apply (proj2 (completion_signal_iff_run_completed sample_str sample_service
                  default_config never_stopped sample_paths "separate")).
  split; [reflexivity|]. right. reflexivity.
Defined.

Lemma validator_result_shape_witness :
  SqlValidator.warnings
    (fst (SqlValidator.validate_sqlalchemy_code
            (fun _ => Some (SqlValidator.mkSyntaxError "invalid syntax"
                              (Some 1)))
            "class User(:")) = [].
Proof.
  refine (proj1 (proj2 (proj2 (proj2
           (proj2 (proj2 (proj2 (proj2 (proj2
              (validator_result_shape
                 (fun _ => Some (SqlValidator.mkSyntaxError "invalid syntax"
                                   (Some 1)))
                 "class User(:"))))) _))))).
  reflexivity.
Defined.

Lemma needs_work_verdict_is_unreachable_witness :
  ~ In SqlValidator.verdict_needs_work
      (SqlValidator.main (fun _ => None) (fun s => s)
         ["Base = declarative_base()"]).
Proof.
  exact (proj2 (needs_work_verdict_is_unreachable (fun _ => None)
                  (fun s => s))
           ["Base = declarative_base()"]).
Defined.
